(** * Verification model of the otp-backend OTP / login-link lifecycle

    Shallow embedding of
    - [src/src/utils/otpGenerator.js]       (OTPGenerator)
    - [src/src/utils/phoneValidator.js]     (PhoneValidator)
    - [src/src/services/loginLinkService.js] (LoginLinkService, OTPService)
    - [src/src/config/database.js]          (RedisClient)
    - [src/src/constants/otpConstants.js]   (OTP_CONFIG, VALIDATION, ...)

    Strings are [String.string]; JS numbers used as integers are [Z];
    the Redis store is a [gmap string] of JSON values together with the
    TTL deadline of each key.  [Date.now()] is an explicit argument [now]. *)

From Stdlib Require Import ZArith List Bool Lia Ascii QArith.
From stdpp Require Import base gmap strings list.
Import ListNotations.

(* ------------------------------------------------------------------ *)
(** ** Node's [crypto]: SHA-256, HMAC-SHA256 and hex digests (FIPS 180-4,
       RFC 2104).  Bytes are [Z] values in [0, 256). *)

Module Sha256.
Local Open Scope Z_scope.

Definition w32 (x : Z) : Z := Z.land x (Z.ones 32).
Definition rotr (n x : Z) : Z := w32 (Z.lor (Z.shiftr x n) (Z.shiftl x (32 - n))).
Definition ch (x y z : Z) : Z := Z.lxor (Z.land x y) (Z.land (Z.lxor x (Z.ones 32)) z).
Definition maj (x y z : Z) : Z :=
  Z.lxor (Z.lxor (Z.land x y) (Z.land x z)) (Z.land y z).
Definition big_sigma0 (x : Z) : Z := Z.lxor (Z.lxor (rotr 2 x) (rotr 13 x)) (rotr 22 x).
Definition big_sigma1 (x : Z) : Z := Z.lxor (Z.lxor (rotr 6 x) (rotr 11 x)) (rotr 25 x).
Definition small_sigma0 (x : Z) : Z := Z.lxor (Z.lxor (rotr 7 x) (rotr 18 x)) (Z.shiftr x 3).
Definition small_sigma1 (x : Z) : Z := Z.lxor (Z.lxor (rotr 17 x) (rotr 19 x)) (Z.shiftr x 10).

(** Round constants (fractional parts of cube roots of the first 64 primes),
    written in decimal. *)
Definition round_constants : list Z :=
  [1116352408; 1899447441; 3049323471; 3921009573; 961987163; 1508970993;
   2453635748; 2870763221; 3624381080; 310598401; 607225278; 1426881987;
   1925078388; 2162078206; 2614888103; 3248222580; 3835390401; 4022224774;
   264347078; 604807628; 770255983; 1249150122; 1555081692; 1996064986;
   2554220882; 2821834349; 2952996808; 3210313671; 3336571891; 3584528711;
   113926993; 338241895; 666307205; 773529912; 1294757372; 1396182291;
   1695183700; 1986661051; 2177026350; 2456956037; 2730485921; 2820302411;
   3259730800; 3345764771; 3516065817; 3600352804; 4094571909; 275423344;
   430227734; 506948616; 659060556; 883997877; 958139571; 1322822218;
   1537002063; 1747873779; 1955562222; 2024104815; 2227730452; 2361852424;
   2428436474; 2756734187; 3204031479; 3329325298].

Definition initial_hash : list Z :=
  [1779033703; 3144134277; 1013904242; 2773480762;
   1359893119; 2600822924; 528734635; 1541459225].

(** [n]-byte big-endian encoding of [v]. *)
Fixpoint be_bytes (n : nat) (v : Z) : list Z :=
  match n with
  | O => []
  | S n' => be_bytes n' (Z.shiftr v 8) ++ [Z.land v 255]
  end.

Definition pad (m : list Z) : list Z :=
  let len := Z.of_nat (length m) in
  m ++ [128] ++ repeat 0 (Z.to_nat ((55 - len) mod 64)) ++ be_bytes 8 (len * 8).

Fixpoint words_of (n : nat) (bs : list Z) : list Z :=
  match n with
  | O => []
  | S n' =>
      match bs with
      | b0 :: b1 :: b2 :: b3 :: rest =>
          (b0 * 16777216 + b1 * 65536 + b2 * 256 + b3) :: words_of n' rest
      | _ => []
      end
  end.

(** Message schedule: extend the 16 block words to 64. *)
Fixpoint schedule (n : nat) (ws : list Z) : list Z :=
  match n with
  | O => ws
  | S n' =>
      let t := length ws in
      let at_ i := nth (t - i) ws 0 in
      schedule n' (ws ++ [w32 (small_sigma1 (at_ 2%nat) + at_ 7%nat
                               + small_sigma0 (at_ 15%nat) + at_ 16%nat)])
  end.

Definition state : Type := (Z * Z * Z * Z * Z * Z * Z * Z)%type.

Definition round (st : state) (kw : Z * Z) : state :=
  let '(a, b, c, d, e, f, g, h) := st in
  let '(k, w) := kw in
  let t1 := w32 (h + big_sigma1 e + ch e f g + k + w) in
  let t2 := w32 (big_sigma0 a + maj a b c) in
  (w32 (t1 + t2), a, b, c, w32 (d + t1), e, f, g).

Definition compress (hs : list Z) (block : list Z) : list Z :=
  match hs with
  | [h0; h1; h2; h3; h4; h5; h6; h7] =>
      let ws := schedule 48 (words_of 16 block) in
      let '(a, b, c, d, e, f, g, h) :=
        fold_left round (combine round_constants ws)
          (h0, h1, h2, h3, h4, h5, h6, h7) in
      [w32 (h0 + a); w32 (h1 + b); w32 (h2 + c); w32 (h3 + d);
       w32 (h4 + e); w32 (h5 + f); w32 (h6 + g); w32 (h7 + h)]
  | _ => hs
  end.

Fixpoint process (n : nat) (hs : list Z) (m : list Z) : list Z :=
  match n with
  | O => hs
  | S n' => process n' (compress hs (firstn 64 m)) (skipn 64 m)
  end.

Definition digest (m : list Z) : list Z :=
  let p := pad m in
  flat_map (be_bytes 4) (process (length p / 64) initial_hash p).

(** HMAC with a 64-byte block (RFC 2104). *)
Definition hmac (key msg : list Z) : list Z :=
  let k := if (64 <? Z.of_nat (length key)) then digest key else key in
  let k0 := k ++ repeat 0 (64 - length k) in
  digest (map (Z.lxor 92) k0 ++ digest (map (Z.lxor 54) k0 ++ msg)).

End Sha256.

(** Characters and bytes.  [Buffer]/[update(str, 'utf8')] encode a JS
    string in UTF-8, which is one byte per character on 7-bit text; the
    phone numbers, codes, timestamps and keys handled here are such text. *)
Definition bytes_of_string (s : string) : list Z :=
  map (fun a => Z.of_N (Ascii.N_of_ascii a)) (String.list_ascii_of_string s).

Definition hex_char (n : Z) : Ascii.ascii :=
  Ascii.ascii_of_N (Z.to_N (if (n <? 10)%Z then 48 + n else 87 + n)%Z).

Definition hex_of_bytes (bs : list Z) : string :=
  String.string_of_list_ascii
    (flat_map (fun b => [hex_char (Z.shiftr b 4); hex_char (Z.land b 15)]) bs).

(** [crypto.createHmac('sha256', key).update(data).digest('hex')] *)
Definition hmac_sha256_hex (key data : string) : string :=
  hex_of_bytes (Sha256.hmac (bytes_of_string key) (bytes_of_string data)).

Example sha256_abc :
  hex_of_bytes (Sha256.digest (bytes_of_string "abc")) =
  "ba7816bf8f01cfea414140de5dae2223b00361a396177a9cb410ff61f20015ad".
Proof. vm_compute. reflexivity. Qed.

Example hmac_fox :
  hmac_sha256_hex "key" "The quick brown fox jumps over the lazy dog" =
  "f7bc83f430538424b13298e6aa6fb143ef4d59a14946175997479dbc2d1a3cd8".
Proof. vm_compute. reflexivity. Qed.

Example hmac_long_key :
  hex_of_bytes (Sha256.hmac (repeat 107%Z 100) (repeat 120%Z 130)) =
  "d849e93bb3ac1ff095b92b63718bafe2701ea803a8e68087e1262d1b245e6765".
Proof. vm_compute. reflexivity. Qed.

(* ------------------------------------------------------------------ *)
(** ** JavaScript values and the string builtins the code calls *)

(** A thrown JS error: [new Error(msg)] or a [TypeError] raised by the
    runtime (e.g. calling a method an object does not have). *)
Inductive exn : Type :=
| Error (msg : string)
| TypeError (msg : string).

Definition exn_message (e : exn) : string :=
  match e with Error m => m | TypeError m => m end.

(** Outcome of a synchronous computation that may throw. *)
Inductive res (A : Type) : Type :=
| Ok (a : A)
| Throw (e : exn).
Arguments Ok {A} a.
Arguments Throw {A} e.

Module Js.
Local Open Scope Z_scope.

Definition digit_char (d : Z) : Ascii.ascii := Ascii.ascii_of_N (Z.to_N (48 + d)).

Fixpoint dec_digits (fuel : nat) (n : Z) (acc : list Ascii.ascii) : list Ascii.ascii :=
  match fuel with
  | O => acc
  | S f =>
      let acc' := digit_char (n mod 10) :: acc in
      if n <? 10 then acc' else dec_digits f (n / 10) acc'
  end.

(** [String(n)] / template-literal rendering of an integral JS number
    (safe integers have at most 16 decimal digits). *)
Definition show_Z (n : Z) : string :=
  if n <? 0 then String.String "-"%char (String.string_of_list_ascii (dec_digits 20 (- n) []))
  else String.string_of_list_ascii (dec_digits 20 n []).

Definition is_ws (a : Ascii.ascii) : bool :=
  let n := Ascii.nat_of_ascii a in ((9 <=? n)%nat && (n <=? 13)%nat) || (n =? 32)%nat.

Fixpoint drop_ws (l : list Ascii.ascii) : list Ascii.ascii :=
  match l with
  | a :: r => if is_ws a then drop_ws r else l
  | [] => []
  end.

(** [String.prototype.trim] (ASCII white space and line terminators). *)
Definition trim (s : string) : string :=
  String.string_of_list_ascii
    (rev (drop_ws (rev (drop_ws (String.list_ascii_of_string s))))).

(** [s.substring(a, b)] for [0 <= a <= b]. *)
Definition substring (s : string) (a b : nat) : string := String.substring a (b - a) s.

(** [s.padStart(n, "0")] *)
Definition padStart0 (s : string) (n : nat) : string :=
  String.string_of_list_ascii (repeat "0"%char (n - String.length s)) +:+ s.

Definition hex_value (a : Ascii.ascii) : Z :=
  let n := Z.of_nat (Ascii.nat_of_ascii a) in
  if (48 <=? n) && (n <=? 57) then n - 48
  else if (97 <=? n) && (n <=? 102) then n - 87
  else if (65 <=? n) && (n <=? 70) then n - 55
  else 0.

(** [parseInt(s, 16)] on a non-empty string of hex digits (the only
    arguments it receives here are slices of a hex digest). *)
Definition parseInt16 (s : string) : Z :=
  fold_left (fun acc a => acc * 16 + hex_value a) (String.list_ascii_of_string s) 0.

(** [hay.includes(needle)] *)
Fixpoint includes (needle hay : string) : bool :=
  String.prefix needle hay ||
  match hay with
  | String.EmptyString => false
  | String.String _ rest => includes needle rest
  end.

End Js.

Example show_Z_test : Js.show_Z 1760000000000 = "1760000000000".
Proof. reflexivity. Qed.
Example trim_test : Js.trim "  +8801712345678 " = "+8801712345678".
Proof. reflexivity. Qed.

(* ------------------------------------------------------------------ *)
(** ** OTPGenerator ([src/src/utils/otpGenerator.js]) *)

(** [config.otp] as read by the OTPGenerator constructor. *)
Record otp_config : Type := mkOtpConfig {
  secretKey : string;
  expiryMinutes : Z
}.

(** Constructor checks: a non-empty secret and a positive integer expiry. *)
Definition otp_config_ok (g : otp_config) : Prop :=
  secretKey g <> "" /\ (0 < expiryMinutes g)%Z.

(** DEFAULTS and [config.otp.length] (= 6). *)
Definition TIME_WINDOW_MS : Z := 5 * 60 * 1000.
Definition MAX_PHONE_LENGTH : nat := 20.
Definition otpLength : nat := 6.

(** The object returned by [generateOTP] and stored in Redis. *)
Record otp_data : Type := mkOtpData {
  otp : string;
  phoneNumber : string;
  timestamp : Z;
  expiryTime : Z;
  data_expiryMinutes : Z;
  verificationHash : string;
  isValid : bool
}.

Definition verification_data (phone code : string) (ts exp : Z) : string :=
  phone +:+ ":" +:+ code +:+ ":" +:+ Js.show_Z ts +:+ ":" +:+ Js.show_Z exp.

(** [generateOTP(phoneNumber, timestamp)]; [now] is [Date.now()], [None]
    is the default [timestamp = null].  Every error in the body is
    rethrown as [Error('Failed to generate OTP')]. *)
Definition generateOTP (g : otp_config) (phone : string) (ts : option Z) (now : Z)
  : res otp_data :=
  if String.eqb phone "" then Throw (Error "Failed to generate OTP")
  else if (MAX_PHONE_LENGTH <? String.length phone)%nat then Throw (Error "Failed to generate OTP")
  else if match ts with Some t => (t <? 0)%Z | None => false end
  then Throw (Error "Failed to generate OTP")
  else
    (* const currentTime = timestamp || Date.now(); *)
    let currentTime := match ts with Some t => if (t =? 0)%Z then now else t | None => now end in
    let timeWindow := (currentTime / TIME_WINDOW_MS)%Z in
    let normalizedPhone := Js.trim phone in
    let dataString := normalizedPhone +:+ ":" +:+ Js.show_Z timeWindow +:+ ":" +:+ secretKey g in
    let hmacResult := hmac_sha256_hex (secretKey g) dataString in
    let n := String.length hmacResult in
    let lastChar := Js.substring hmacResult (n - 1) n in
    let offset := Z.to_nat (Js.parseInt16 lastChar mod 10) in
    let startPos := Nat.min offset (n - otpLength) in
    let hexSubstring := Js.substring hmacResult startPos (startPos + otpLength) in
    let otpNum := (Js.parseInt16 hexSubstring mod 10 ^ Z.of_nat otpLength)%Z in
    let code := Js.padStart0 (Js.show_Z otpNum) otpLength in
    let expiry := (currentTime + expiryMinutes g * 60 * 1000)%Z in
    let vhash := hmac_sha256_hex (secretKey g) (verification_data normalizedPhone code currentTime expiry) in
    Ok (mkOtpData code normalizedPhone currentTime expiry (expiryMinutes g) vhash true).

Definition demo_cfg : otp_config := mkOtpConfig "s3cret-key" 10.

Example generateOTP_test :
  match generateOTP demo_cfg "+8801712345678" (Some 1760000000000%Z) 0 with
  | Ok d => (otp d, verificationHash d)
  | Throw _ => ("", "")
  end = ("594466",
         "804419619e688e1843c26d59389f37bf96de12822ade1a238d83062c0ab79ad5").
Proof. vm_compute. reflexivity. Qed.

(* ------------------------------------------------------------------ *)
(** ** Values held in Redis and the RedisClient ([src/src/config/database.js]) *)

(** Customer snapshot resolved from the directory (shopifyService's
    [checkCustomerByEmail] is not in the repository): a flat JSON object
    of string fields, among them [phone]. *)
Definition snapshot : Type := list (string * string).

(** The object written by [LoginLinkService.storeLoginLink]; [usedAt] is
    added when the token is consumed. *)
Record link_data : Type := mkLinkData {
  link_email : string;
  link_customer : snapshot;
  createdAt : Z;
  link_expiryTime : Z;
  used : bool;
  attempts : Z;
  usedAt : option Z
}.

(** A value passed to [redisClient.set]: [set] stores [JSON.stringify(value)]
    and [get] returns [JSON.parse] of it, which gives back the same value
    for these objects and for strings, so the model stores the value. *)
Inductive jvalue : Type :=
| JOtp (d : otp_data)
| JLink (l : link_data)
| JText (s : string).

(** Credential record under [customer:<phone>]: the fields of the object
    [CustomerService.storeCustomerData] writes ([src/src/routes/otpRoutes.js])
    that the services read back through [OTPService.getCustomerData]. *)
Record customer_data : Type := mkCustomerData {
  cust_email : string;
  plainPassword : string;
  cust_name : string;
  customerId : string
}.

Record entry : Type := mkEntry { e_value : jvalue; e_deadline : option Z }.

(** The Redis key space.  [customer:] keys are only read by this code and
    are kept in their own map; the key prefixes [otp:], [login_link:] and
    [customer:] never overlap.  The connection is assumed up (spec: the
    persistence layer is reliable). *)
Record redis : Type := mkRedis {
  kv : gmap string entry;
  customers : gmap string customer_data
}.

(** A key is live while its TTL deadline (ms) has not been reached. *)
Definition live (now : Z) (e : entry) : bool :=
  match e_deadline e with Some d => (now <? d)%Z | None => true end.

(** [redisClient.get(key)] *)
Definition redis_get (key : string) (now : Z) (r : redis) : option jvalue :=
  match kv r !! key with
  | Some e => if live now e then Some (e_value e) else None
  | None => None
  end.

(** [redisClient.set(key, value, expireTimeInSeconds)]: [setEx] when the
    TTL is truthy, plain [set] (no TTL) otherwise. *)
Definition redis_set (key : string) (v : jvalue) (ttl_s : Z) (now : Z) (r : redis) : redis :=
  mkRedis (<[key := mkEntry v (if (ttl_s =? 0)%Z then None else Some (now + ttl_s * 1000)%Z)]> (kv r))
          (customers r).

(** [redisClient.delete(key)] *)
Definition redis_delete (key : string) (r : redis) : redis :=
  mkRedis (delete key (kv r)) (customers r).

Definition redis_get_customer (key : string) (r : redis) : option customer_data :=
  customers r !! key.

(** Effects of the services: Redis state passing and JS exceptions.  A
    throw keeps the Redis writes already made. *)
Definition M (A : Type) : Type := redis -> res A * redis.

Definition ret {A} (a : A) : M A := fun r => (Ok a, r).
Definition throw {A} (e : exn) : M A := fun r => (Throw e, r).
Definition bind {A B} (m : M A) (k : A -> M B) : M B :=
  fun r => match m r with
           | (Ok a, r') => k a r'
           | (Throw e, r') => (Throw e, r')
           end.
Definition try_catch {A} (m : M A) (h : exn -> M A) : M A :=
  fun r => match m r with
           | (Throw e, r') => h e r'
           | ok => ok
           end.
Definition lift {A} (x : res A) : M A :=
  match x with Ok a => ret a | Throw e => throw e end.
Definition get_ (key : string) (now : Z) : M (option jvalue) :=
  fun r => (Ok (redis_get key now r), r).
Definition set_ (key : string) (v : jvalue) (ttl_s now : Z) : M unit :=
  fun r => (Ok tt, redis_set key v ttl_s now r).
Definition delete_ (key : string) : M bool :=
  fun r => (Ok (bool_decide (is_Some (kv r !! key))), redis_delete key r).

Notation "x <- m ;; k" := (bind m (fun x => k))
  (at level 100, m at next level, right associativity).
Notation "m ;;; k" := (bind m (fun _ => k)) (at level 100, right associativity).

(* ------------------------------------------------------------------ *)
(** ** OTPGenerator, continued *)

(** Result object of [OTPGenerator.verifyOTP]. *)
Record gen_result : Type := mkGenResult {
  gr_isValid : bool;
  gr_message : string;
  gr_expired : bool
}.

Definition MSG_OTP_NOT_FOUND_GEN : string := "OTP not found or expired".
Definition MSG_OTP_EXPIRED : string := "OTP has expired".
Definition MSG_PHONE_MISMATCH : string := "Phone number mismatch".
Definition MSG_OTP_INVALID : string := "Invalid OTP code".
Definition MSG_INTEGRITY : string := "OTP data integrity check failed".
Definition MSG_OTP_VERIFIED : string := "OTP verified successfully".

(** Truthiness of a value read back from Redis. *)
Definition truthy (v : jvalue) : bool :=
  match v with JText s => negb (String.eqb s "") | _ => true end.

(** [OTPGenerator.verifyOTP(phoneNumber, inputOTP, storedOTPData)], with
    [now = Date.now()].  Reading [expiryTime]/[phoneNumber] of a value that
    lacks them gives [undefined]: [now > undefined] is false and
    [undefined !== phoneNumber] is true. *)
Definition gen_verifyOTP (g : otp_config) (phone input : string)
    (stored : option jvalue) (now : Z) : gen_result :=
  let expired := mkGenResult false MSG_OTP_EXPIRED true in
  let mismatch := mkGenResult false MSG_PHONE_MISMATCH false in
  match stored with
  | None => mkGenResult false MSG_OTP_NOT_FOUND_GEN true
  | Some v =>
      if negb (truthy v) then mkGenResult false MSG_OTP_NOT_FOUND_GEN true
      else
      match v with
      | JOtp d =>
          if (now >? expiryTime d)%Z then expired
          else if negb (String.eqb (phoneNumber d) phone) then mismatch
          else if negb (String.eqb (otp d) input) then mkGenResult false MSG_OTP_INVALID false
          else
            let calculatedHash :=
              hmac_sha256_hex (secretKey g)
                (verification_data (phoneNumber d) (otp d) (timestamp d) (expiryTime d)) in
            if negb (String.eqb calculatedHash (verificationHash d))
            then mkGenResult false MSG_INTEGRITY false
            else mkGenResult true MSG_OTP_VERIFIED false
      | JLink l => if (now >? link_expiryTime l)%Z then expired else mismatch
      | JText _ => mismatch
      end
  end.

(** [generateRedisKey] / [generateCustomerDataKey] *)
Definition generateRedisKey (phone : string) : res string :=
  let p := Js.trim phone in
  if String.eqb phone "" then Throw (Error "Phone number is required and must be a string")
  else if (String.length p =? 0)%nat || (MAX_PHONE_LENGTH <? String.length p)%nat
  then Throw (Error "Invalid phone number for Redis key generation")
  else Ok ("otp:" +:+ p).

Definition generateCustomerDataKey (identifier : string) : res string :=
  let p := Js.trim identifier in
  if String.eqb identifier "" then Throw (Error "Identifier is required and must be a string")
  else if (String.length p =? 0)%nat || (254 <? String.length p)%nat
  then Throw (Error "Invalid identifier for Redis key generation")
  else Ok ("customer:" +:+ p).

(** [getRemainingTime(expiryTime)]: (expired, remainingSeconds). *)
Definition getRemainingTime (expiry now : Z) : bool * Z :=
  let remainingMs := (expiry - now)%Z in
  if (remainingMs <=? 0)%Z then (true, 0%Z) else (false, (remainingMs / 1000)%Z).

(* ------------------------------------------------------------------ *)
(** ** OTPService ([src/src/services/loginLinkService.js], second class) *)

(** ERROR_MESSAGES / SUCCESS_MESSAGES of [otpConstants.js] *)
Definition OTP_NOT_FOUND : string := "OTP not found or has expired".
Definition OTP_TOO_EARLY_RESEND : string := "Please wait before requesting another OTP".
Definition PHONE_NUMBER_REQUIRED : string := "Phone number is required".
Definition INVALID_PHONE_FORMAT : string := "Invalid phone number format".
Definition REDIS_CONNECTION_ERROR : string := "Database connection error".
Definition SMS_SERVICE_ERROR : string := "SMS service temporarily unavailable".
Definition EXTERNAL_SERVICE_ERROR : string := "External service error. Please try again later".
Definition INTERNAL_SERVER_ERROR : string :=
  "Internal server error occurred while processing OTP request".
Definition OTP_SENT : string := "OTP sent successfully".
Definition RESEND_WAIT_MINUTES : Z := 2.

Definition is_digit (a : Ascii.ascii) : bool :=
  let n := Ascii.nat_of_ascii a in (48 <=? n)%nat && (n <=? 57)%nat.

(** [3-9] *)
Definition is_operator_digit (a : Ascii.ascii) : bool :=
  let n := Ascii.nat_of_ascii a in (51 <=? n)%nat && (n <=? 57)%nat.

(** [[3-9]\d{8}$] *)
Definition subscriber_ok (l : list Ascii.ascii) : bool :=
  match l with
  | d :: rest => is_operator_digit d && (length rest =? 8)%nat && forallb is_digit rest
  | [] => false
  end.

Definition chars (s : string) : list Ascii.ascii := String.list_ascii_of_string s.

(** [VALIDATION.PHONE_PATTERN.test(s)]: /^(\+8801[3-9]\d{8}|01[3-9]\d{8})$/ *)
Definition PHONE_PATTERN_test (s : string) : bool :=
  let l := chars s in
  (bool_decide (firstn 5 l = chars "+8801") && subscriber_ok (skipn 5 l))
  || (bool_decide (firstn 2 l = chars "01") && subscriber_ok (skipn 2 l)).

(** [VALIDATION.OTP_PATTERN.test(s)]: /^[0-9]{6}$/ *)
Definition OTP_PATTERN_test (s : string) : bool :=
  (String.length s =? 6)%nat && forallb is_digit (String.list_ascii_of_string s).

(** [validatePhoneNumber(phoneNumber)]: [Ok normalizedNumber] or the
    invalid result's message. *)
Definition validatePhoneNumber (phone : string) : res string :=
  if String.eqb phone "" then Throw (Error PHONE_NUMBER_REQUIRED)
  else if negb (PHONE_PATTERN_test phone) then Throw (Error INVALID_PHONE_FORMAT)
  else if String.prefix "01" phone then Ok ("+88" +:+ phone)
  else if String.prefix "880" phone then Ok ("+" +:+ phone)
  else Ok phone.

(** [validateOTP(otp)] *)
Definition validateOTP (code : string) : res unit :=
  if String.eqb code "" then Throw (Error "OTP is required")
  else if negb (OTP_PATTERN_test code) then Throw (Error "OTP must be exactly 6 digits")
  else Ok tt.

(** [handleOTPError(error)] *)
Definition handleOTPError (e : exn) : exn :=
  let m := exn_message e in
  if Js.includes "Redis" m then Error REDIS_CONNECTION_ERROR
  else if Js.includes "SMS" m then Error SMS_SERVICE_ERROR
  else if Js.includes "Shopify" m then Error EXTERNAL_SERVICE_ERROR
  else Error (if String.eqb m "" then INTERNAL_SERVER_ERROR else m).

(** Collaborators the service calls out to: whether the Shopify
    configuration is present, and the SMS gateway's answer to
    [smsService.sendSingleSMS({msisdn, sms})]. *)
Record sms_result : Type := mkSmsResult { sms_success : bool; sms_message : string }.

Record services : Type := mkServices {
  shopify_configured : bool;
  sendSingleSMS : string -> string -> sms_result
}.

Record customer_check : Type := mkCustomerCheck {
  cc_exists : bool;
  cc_customer : option snapshot;
  cc_error : option string
}.

(** [shopifyService.checkCustomerExists(phone)] (same file): the Storefront
    API cannot look customers up, so it always reports a new customer. *)
Definition shopify_checkCustomerExists (sv : services) (phone : string) : customer_check :=
  if shopify_configured sv
  then mkCustomerCheck false None
         (Some "Customer lookup not supported in Storefront API - assuming new customer")
  else mkCustomerCheck false None (Some "Shopify configuration not found").

(** [SMS_CONFIG.OTP_TEMPLATE.replace('{otp}', ...).replace('{expiryMinutes}', ...)] *)
Definition sms_content (d : otp_data) : string :=
  "Your OTP code is: " +:+ otp d +:+ ". This code will expire in "
  +:+ Js.show_Z (data_expiryMinutes d) +:+ " minutes. Do not share this code with anyone.".

(** [prepareOTPResponse] *)
Record otp_response : Type := mkOtpResponse {
  resp_phoneNumber : string;
  customerExists : bool;
  needsSignup : bool;
  expiresIn : Z;
  resp_message : string;
  shopifyError : option string
}.

Definition prepareOTPResponse (phone : string) (cc : customer_check) (d : otp_data) : otp_response :=
  mkOtpResponse phone (cc_exists cc) (negb (cc_exists cc)) (data_expiryMinutes d * 60)
    (if cc_exists cc then "OTP sent successfully. Customer found."
     else "OTP sent successfully. Customer needs to sign up.")
    (cc_error cc).

(** What [sendOTP] / [resendOTP] return (when they do not throw). *)
Inductive otp_reply : Type :=
| OtpSent (data : otp_response)
    (* { success: true, message: OTP_SENT, data } *)
| ResendTooEarly (phone : string) (remainingTimeSeconds : Z) (retryAfter : Q)
    (* { success: false, message: OTP_TOO_EARLY_RESEND, data: {...} } *).

(** [storeOTPInRedis] *)
Definition storeOTPInRedis (phone : string) (d : otp_data) (now : Z) : M unit :=
  key <- lift (generateRedisKey phone) ;;
  set_ key (JOtp d) (data_expiryMinutes d * 60) now.

(** [sendOTPSMS] *)
Definition sendOTPSMS (sv : services) (phone : string) (d : otp_data) : M unit :=
  let result := sendSingleSMS sv phone (sms_content d) in
  if sms_success result then ret tt
  else throw (Error ("SMS sending failed: " +:+ sms_message result)).

(** [OTPService.sendOTP(phoneNumber)] *)
Definition sendOTP (sv : services) (g : otp_config) (phone : string) (now : Z) : M otp_reply :=
  try_catch
    (normalizedPhone <- lift (validatePhoneNumber phone) ;;
     let customerCheck := shopify_checkCustomerExists sv normalizedPhone in
     otpData <- lift (generateOTP g normalizedPhone None now) ;;
     storeOTPInRedis normalizedPhone otpData now ;;;
     sendOTPSMS sv normalizedPhone otpData ;;;
     ret (OtpSent (prepareOTPResponse normalizedPhone customerCheck otpData)))
    (fun e => throw (handleOTPError e)).

(** [checkResendEligibility]: [None] when allowed, otherwise
    [Some (remainingTimeSeconds, retryAfter)].  An existing value without
    [timestamp] gives [NaN] for the elapsed time and is never blocking. *)
Definition checkResendEligibility (phone : string) (now : Z) : M (option (Z * Q)) :=
  key <- lift (generateRedisKey phone) ;;
  existing <- get_ key now ;;
  match existing with
  | Some (JOtp d) =>
      let '(expired, remainingSeconds) := getRemainingTime (expiryTime d) now in
      let timeSinceGeneration := (now - timestamp d)%Z in
      let twoMinutes := (RESEND_WAIT_MINUTES * 60 * 1000)%Z in
      if negb expired && (timeSinceGeneration <? twoMinutes)%Z
      then ret (Some (remainingSeconds, (Z.max 0 (twoMinutes - timeSinceGeneration) # 1000)%Q))
      else ret None
  | _ => ret None
  end.

(** [OTPService.resendOTP(phoneNumber)] *)
Definition resendOTP (sv : services) (g : otp_config) (phone : string) (now : Z) : M otp_reply :=
  try_catch
    (normalizedPhone <- lift (validatePhoneNumber phone) ;;
     canResend <- checkResendEligibility normalizedPhone now ;;
     match canResend with
     | Some (remainingSeconds, retryAfter) =>
         ret (ResendTooEarly normalizedPhone remainingSeconds retryAfter)
     | None => sendOTP sv g normalizedPhone now
     end)
    (fun e => throw (handleOTPError e)).

(** Reply of [OTPService.verifyOTP] (when it does not throw):
    [{ success, message, data: { phoneNumber, verified, expired, customer? } }]. *)
Record verify_reply : Type := mkVerifyReply {
  vy_success : bool;
  vy_message : string;
  vy_phoneNumber : string;
  verified : bool;
  vy_expired : bool;
  vy_customer : option customer_data
}.

(** [prepareVerificationResponse]: the customer block copies email,
    plainPassword (as [password]), name and customerId. *)
Definition prepareVerificationResponse (phone : string) (cd : option customer_data) : verify_reply :=
  mkVerifyReply true MSG_OTP_VERIFIED phone true false cd.

(** [verifyOTP] runs in three segments separated by its Redis awaits
    ([getOTPFromRedis], [removeOTPFromRedis], [getCustomerData]); each
    segment is atomic with respect to other requests. *)

(** Segment 1: input validation and [await this.getOTPFromRedis(...)]. *)
Definition verify_seg1 (phone code : string) (now : Z) : M (string * option jvalue) :=
  normalizedPhone <- lift (validatePhoneNumber phone) ;;
  lift (validateOTP code) ;;;
  key <- lift (generateRedisKey normalizedPhone) ;;
  storedOTPData <- get_ key now ;;
  ret (normalizedPhone, storedOTPData).

(** Segment 2: the checks, and on success [await this.removeOTPFromRedis(...)].
    [inl] is a final failure reply, [inr] continues. *)
Definition verify_seg2 (g : otp_config) (normalizedPhone code : string)
    (storedOTPData : option jvalue) (now : Z) : M (verify_reply + string) :=
  if match storedOTPData with Some v => negb (truthy v) | None => true end
  then ret (inl (mkVerifyReply false OTP_NOT_FOUND normalizedPhone false true None))
  else
    let vr := gen_verifyOTP g normalizedPhone code storedOTPData now in
    if negb (gr_isValid vr)
    then ret (inl (mkVerifyReply false (gr_message vr) normalizedPhone false (gr_expired vr) None))
    else
      key <- lift (generateRedisKey normalizedPhone) ;;
      delete_ key ;;;
      ret (inr normalizedPhone).

(** Segment 3: [await this.getCustomerData(...)] and the success reply. *)
Definition verify_seg3 (normalizedPhone : string) : M verify_reply :=
  ckey <- lift (generateCustomerDataKey normalizedPhone) ;;
  customerData <- (fun r => (Ok (redis_get_customer ckey r), r)) ;;
  ret (prepareVerificationResponse normalizedPhone customerData).

(** [OTPService.verifyOTP(phoneNumber, otp)] *)
Definition verifyOTP (g : otp_config) (phone code : string) (now : Z) : M verify_reply :=
  try_catch
    (x <- verify_seg1 phone code now ;;
     let '(normalizedPhone, storedOTPData) := x in
     y <- verify_seg2 g normalizedPhone code storedOTPData now ;;
     match y with
     | inl reply => ret reply
     | inr p => verify_seg3 p
     end)
    (fun e => throw (handleOTPError e)).

(** Concurrent requests.  Node interleaves pending requests at their
    awaits, so a [verifyOTP] request is a process that runs one segment
    per step; [VDone] holds what the request finally answers (the [catch]
    block turns an exception into [handleOTPError e]). *)
Inductive verify_proc : Type :=
| VStart (phone code : string)
| VRead (normalizedPhone code : string) (storedOTPData : option jvalue)
| VDeleted (normalizedPhone : string)
| VDone (reply : res verify_reply).

Definition run_segment {A} (m : M A) (k : A -> verify_proc) (r : redis) : verify_proc * redis :=
  match m r with
  | (Ok a, r') => (k a, r')
  | (Throw e, r') => (VDone (Throw (handleOTPError e)), r')
  end.

Definition verify_step (g : otp_config) (now : Z) (p : verify_proc) (r : redis)
    : verify_proc * redis :=
  match p with
  | VStart phone code =>
      run_segment (verify_seg1 phone code now) (fun x => VRead (fst x) code (snd x)) r
  | VRead normalizedPhone code storedOTPData =>
      run_segment (verify_seg2 g normalizedPhone code storedOTPData now)
        (fun y => match y with inl reply => VDone (Ok reply) | inr p => VDeleted p end) r
  | VDeleted normalizedPhone =>
      run_segment (verify_seg3 normalizedPhone) (fun reply => VDone (Ok reply)) r
  | VDone _ => (p, r)
  end.

(** Two requests [a] and [b] against one Redis; the schedule says which
    one runs its next segment ([true] for [a]). *)
Fixpoint run_schedule (g : otp_config) (now : Z) (sched : list bool)
    (a b : verify_proc) (r : redis) : verify_proc * verify_proc * redis :=
  match sched with
  | [] => (a, b, r)
  | true :: s => let '(a', r') := verify_step g now a r in run_schedule g now s a' b r'
  | false :: s => let '(b', r') := verify_step g now b r in run_schedule g now s a b' r'
  end.

(** How many steps request [x] ([true] for [a]) runs in a schedule. *)
Fixpoint steps_of (x : bool) (s : list bool) : nat :=
  match s with
  | [] => O
  | y :: s' => if Bool.eqb x y then S (steps_of x s') else steps_of x s'
  end.

(** How many steps request [x] runs before the other request's first step.
    The first step of a request reads Redis and its second step deletes the
    record, so [2 <= lead x s] says that [x] deletes before the other reads. *)
Fixpoint lead (x : bool) (s : list bool) : nat :=
  match s with
  | [] => O
  | y :: s' => if Bool.eqb x y then S (lead x s') else O
  end.

(** One request run alone for [k] steps. *)
Fixpoint verify_steps (g : otp_config) (now : Z) (k : nat) (p : verify_proc) (r : redis)
    : verify_proc * redis :=
  match k with
  | O => (p, r)
  | S k' => let '(p', r') := verify_step g now p r in verify_steps g now k' p' r'
  end.


(** A run: issue, verify twice, with a working SMS gateway. *)
Definition sv_ok : services := mkServices true (fun _ _ => mkSmsResult true "Sent").
Definition redis0 : redis := mkRedis ∅ ∅.

Example issue_verify_twice :
  let T := 1760000000000%Z in
  let r1 := snd (sendOTP sv_ok demo_cfg "01712345678" T redis0) in
  let v1 := verifyOTP demo_cfg "01712345678" "594466" (T + 1000) r1 in
  let v2 := verifyOTP demo_cfg "01712345678" "594466" (T + 2000) (snd v1) in
  (fst v1, fst v2) =
  (Ok (mkVerifyReply true MSG_OTP_VERIFIED "+8801712345678" true false None),
   Ok (mkVerifyReply false OTP_NOT_FOUND "+8801712345678" false true None)).
Proof. vm_compute. reflexivity. Qed.

(* ------------------------------------------------------------------ *)
(** ** Buffer encodings used by [LoginLinkService] *)

Module Buf.
Local Open Scope Z_scope.

Definition b64_alphabet : string :=
  "ABCDEFGHIJKLMNOPQRSTUVWXYZabcdefghijklmnopqrstuvwxyz0123456789-_".

Definition enc_char (n : Z) : Ascii.ascii :=
  match String.get (Z.to_nat n) b64_alphabet with Some a => a | None => "A"%char end.

(** [Buffer.toString('base64url')]: six bits per character, no padding. *)
Fixpoint encode_bytes (bs : list Z) : list Ascii.ascii :=
  match bs with
  | b1 :: b2 :: b3 :: rest =>
      let n := Z.lor (Z.shiftl b1 16) (Z.lor (Z.shiftl b2 8) b3) in
      enc_char (Z.shiftr n 18) :: enc_char (Z.land (Z.shiftr n 12) 63)
      :: enc_char (Z.land (Z.shiftr n 6) 63) :: enc_char (Z.land n 63) :: encode_bytes rest
  | [b1; b2] =>
      let n := Z.lor (Z.shiftl b1 16) (Z.shiftl b2 8) in
      [enc_char (Z.shiftr n 18); enc_char (Z.land (Z.shiftr n 12) 63);
       enc_char (Z.land (Z.shiftr n 6) 63)]
  | [b1] =>
      let n := Z.shiftl b1 16 in
      [enc_char (Z.shiftr n 18); enc_char (Z.land (Z.shiftr n 12) 63)]
  | [] => []
  end.

(** [Buffer.from(s).toString('base64url')] for ASCII text [s]. *)
Definition to_base64url (s : string) : string :=
  String.string_of_list_ascii (encode_bytes (bytes_of_string s)).

(** Value of a base64 character; Node's decoder accepts both the [+/]
    and the [-_] alphabets. *)
Definition dec_value (a : Ascii.ascii) : option Z :=
  let n := Z.of_nat (Ascii.nat_of_ascii a) in
  if (65 <=? n) && (n <=? 90) then Some (n - 65)
  else if (97 <=? n) && (n <=? 122) then Some (n - 71)
  else if (48 <=? n) && (n <=? 57) then Some (n + 4)
  else if (n =? 43) || (n =? 45) then Some 62
  else if (n =? 47) || (n =? 95) then Some 63
  else None.

(** Node's decoder skips characters outside the alphabet and stops at
    the first [=]. *)
Fixpoint sextets (l : list Ascii.ascii) : list Z :=
  match l with
  | [] => []
  | a :: l' =>
      if Ascii.eqb a "="%char then []
      else match dec_value a with Some v => v :: sextets l' | None => sextets l' end
  end.

Fixpoint bytes_of_sextets (vs : list Z) : list Z :=
  match vs with
  | v1 :: v2 :: v3 :: v4 :: rest =>
      let n := Z.lor (Z.shiftl v1 18) (Z.lor (Z.shiftl v2 12) (Z.lor (Z.shiftl v3 6) v4)) in
      Z.shiftr n 16 :: Z.land (Z.shiftr n 8) 255 :: Z.land n 255 :: bytes_of_sextets rest
  | [v1; v2; v3] =>
      let n := Z.lor (Z.shiftl v1 18) (Z.lor (Z.shiftl v2 12) (Z.shiftl v3 6)) in
      [Z.shiftr n 16; Z.land (Z.shiftr n 8) 255]
  | [v1; v2] => [Z.shiftr (Z.lor (Z.shiftl v1 18) (Z.shiftl v2 12)) 16]
  | _ => []
  end.

(** [Buffer.from(s, 'base64url')] *)
Definition from_base64url (s : string) : list Z :=
  bytes_of_sextets (sextets (String.list_ascii_of_string s)).

(** [buf.toString()] decodes UTF-8; the model reads each byte as one
    character, which is the same on ASCII text such as the tokens built
    by [generateLoginToken]. *)
Definition to_text (bs : list Z) : string :=
  String.string_of_list_ascii (map (fun b => Ascii.ascii_of_N (Z.to_N b)) bs).

Definition hex_digit (a : Ascii.ascii) : option Z :=
  let n := Z.of_nat (Ascii.nat_of_ascii a) in
  if (48 <=? n) && (n <=? 57) then Some (n - 48)
  else if (97 <=? n) && (n <=? 102) then Some (n - 87)
  else if (65 <=? n) && (n <=? 70) then Some (n - 55)
  else None.

(** [Buffer.from(s, 'hex')]: pairs of hex digits, up to the first pair
    that is not one. *)
Fixpoint hex_pairs (l : list Ascii.ascii) : list Z :=
  match l with
  | a :: b :: rest =>
      match hex_digit a, hex_digit b with
      | Some x, Some y => (16 * x + y) :: hex_pairs rest
      | _, _ => []
      end
  | _ => []
  end.

Definition from_hex (s : string) : list Z := hex_pairs (String.list_ascii_of_string s).

(** [crypto.timingSafeEqual(a, b)]: throws a RangeError when the lengths
    differ, which [verifyTokenIntegrity] catches and turns into [false]. *)
Definition timingSafeEqual (a b : list Z) : res bool :=
  if (length a =? length b)%nat then Ok (bool_decide (a = b))
  else Throw (TypeError "Input buffers must have the same byte length").

End Buf.

Example base64url_test :
  Buf.to_base64url "a@b.co:17:ff" = "YUBiLmNvOjE3OmZm" /\
  Buf.to_text (Buf.from_base64url "YUBiLmNvOjE3OmZm") = "a@b.co:17:ff".
Proof. split; reflexivity. Qed.

(** [s.split(':')] *)
Fixpoint split_colon_aux (l : list Ascii.ascii) (cur : list Ascii.ascii) : list string :=
  match l with
  | [] => [String.string_of_list_ascii (rev cur)]
  | a :: l' =>
      if Ascii.eqb a ":"%char
      then String.string_of_list_ascii (rev cur) :: split_colon_aux l' []
      else split_colon_aux l' (a :: cur)
  end.

Definition split_colon (s : string) : list string := split_colon_aux (String.list_ascii_of_string s) [].

(** [JSON.stringify] of a string: quotes, backslashes and control
    characters are escaped. *)
Definition dq : string := String.String (Ascii.ascii_of_nat 34) String.EmptyString.
Definition bs : string := String.String (Ascii.ascii_of_nat 92) String.EmptyString.

Definition json_escape_char (a : Ascii.ascii) : string :=
  let n := Ascii.nat_of_ascii a in
  if (n =? 34)%nat then bs +:+ dq
  else if (n =? 92)%nat then bs +:+ bs
  else if (n =? 8)%nat then bs +:+ "b"
  else if (n =? 9)%nat then bs +:+ "t"
  else if (n =? 10)%nat then bs +:+ "n"
  else if (n =? 12)%nat then bs +:+ "f"
  else if (n =? 13)%nat then bs +:+ "r"
  else if (n <? 32)%nat
  then bs +:+ "u00" +:+ String.String (hex_char (Z.of_nat n / 16)) (String.String (hex_char (Z.of_nat n mod 16)) String.EmptyString)
  else String.String a String.EmptyString.

Definition json_str (s : string) : string :=
  dq +:+ String.concat "" (map json_escape_char (String.list_ascii_of_string s)) +:+ dq.

Definition json_object (fields : list (string * string)) : string :=
  "{" +:+ String.concat "," (map (fun '(k, v) => json_str k +:+ ":" +:+ v) fields) +:+ "}".

(** [JSON.stringify(linkData)], keys in insertion order. *)
Definition link_json (l : link_data) : string :=
  json_object
    ([("email", json_str (link_email l));
      ("customer", json_object (map (fun '(k, v) => (k, json_str v)) (link_customer l)));
      ("createdAt", Js.show_Z (createdAt l));
      ("expiryTime", Js.show_Z (link_expiryTime l));
      ("used", if used l then "true" else "false");
      ("attempts", Js.show_Z (attempts l))] ++
     match usedAt l with Some t => [("usedAt", Js.show_Z t)] | None => [] end).

Example link_json_test :
  link_json (mkLinkData "a@b.co" [("phone", "+8801712345678")] 5 9 true 1 (Some 7%Z)) =
  "{" +:+ dq +:+ "email" +:+ dq +:+ ":" +:+ dq +:+ "a@b.co" +:+ dq +:+ ","
  +:+ dq +:+ "customer" +:+ dq +:+ ":{" +:+ dq +:+ "phone" +:+ dq +:+ ":" +:+ dq
  +:+ "+8801712345678" +:+ dq +:+ "}," +:+ dq +:+ "createdAt" +:+ dq +:+ ":5,"
  +:+ dq +:+ "expiryTime" +:+ dq +:+ ":9," +:+ dq +:+ "used" +:+ dq +:+ ":true,"
  +:+ dq +:+ "attempts" +:+ dq +:+ ":1," +:+ dq +:+ "usedAt" +:+ dq +:+ ":7}".
Proof. reflexivity. Qed.

(* ------------------------------------------------------------------ *)
(** ** LoginLinkService ([src/src/services/loginLinkService.js]) *)

Definition linkExpiryMinutes : Z := 15.
Definition redisKeyPrefix : string := "login_link:".

(** [generateLoginToken(email)] with [Date.now()] = [timestamp] and
    [crypto.randomBytes(32).toString('hex')] = [randomHex]. *)
Definition generateLoginToken (secretKey email : string) (timestamp : Z) (randomHex : string)
  : string :=
  let tokenData := email +:+ ":" +:+ Js.show_Z timestamp +:+ ":" +:+ randomHex in
  let signature := hmac_sha256_hex secretKey tokenData in
  Buf.to_base64url (tokenData +:+ ":" +:+ signature).

(** [storeLoginLink(token, email, customerData)].  The three clock
    readings are the [Date.now()] for [expiryTime], the [Date.now()] for
    [createdAt], and the moment Redis receives the [SETEX] (the start of
    the TTL).  Its catch-all only fires on a Redis failure. *)
Definition storeLoginLink (token email : string) (customer : snapshot)
    (t_expiry t_created t_set : Z) : M Z :=
  let expiryTime := (t_expiry + linkExpiryMinutes * 60 * 1000)%Z in
  let linkData := mkLinkData email customer t_created expiryTime false 0 None in
  set_ (redisKeyPrefix +:+ token) (JLink linkData) (linkExpiryMinutes * 60) t_set ;;;
  ret expiryTime.

(** [verifyTokenIntegrity(token, email)]; [email] is [None] when the
    stored value has no [email] property ([undefined]). *)
Definition verifyTokenIntegrity (secretKey token : string) (email : option string) : bool :=
  let decoded := Buf.to_text (Buf.from_base64url token) in
  match split_colon decoded with
  | [tokenEmail; timestamp; randomBytes; signature] =>
      match email with
      | None => false
      | Some e =>
          if negb (String.eqb tokenEmail e) then false
          else
            let tokenData := tokenEmail +:+ ":" +:+ timestamp +:+ ":" +:+ randomBytes in
            let expectedSignature := hmac_sha256_hex secretKey tokenData in
            match Buf.timingSafeEqual (Buf.from_hex signature) (Buf.from_hex expectedSignature) with
            | Ok b => b
            | Throw _ => false
            end
      end
  | _ => false
  end.

Inductive login_reply : Type :=
| LoginValid (email : string) (customer : snapshot) (password customerId : string)
| LoginInvalid (message error : string).

(** Property reads on the value returned by [redisClient.get]. *)
Definition js_used (v : jvalue) : bool :=
  match v with JLink l => used l | _ => false end.
Definition js_expiryTime (v : jvalue) : option Z :=
  match v with JLink l => Some (link_expiryTime l) | JOtp d => Some (expiryTime d) | JText _ => None end.
Definition js_email (v : jvalue) : option string :=
  match v with JLink l => Some (link_email l) | _ => None end.

Definition snapshot_get (k : string) (c : snapshot) : option string :=
  option_map snd (find (fun kv => String.eqb k (fst kv)) c).

Definition TOKEN_NOT_FOUND : login_reply :=
  LoginInvalid "Login link has expired or is invalid" "TOKEN_NOT_FOUND".
Definition TOKEN_ALREADY_USED : login_reply :=
  LoginInvalid "Login link has already been used" "TOKEN_ALREADY_USED".
Definition TOKEN_EXPIRED : login_reply := LoginInvalid "Login link has expired" "TOKEN_EXPIRED".
Definition TOKEN_INTEGRITY_FAILED : login_reply :=
  LoginInvalid "Invalid login token" "TOKEN_INTEGRITY_FAILED".
Definition VERIFICATION_ERROR : login_reply :=
  LoginInvalid "Unable to verify login token. Please try again." "VERIFICATION_ERROR".

(** [LoginLinkService.verifyLoginToken(token)].  [getCustomerData] stands
    for the call [customerService.getCustomerData(linkData?.customer?.phone)];
    it is a parameter so that the lemmas can be stated for any such call,
    and [customerService_getCustomerData] below is what the repository's
    customerService does. *)
Definition verifyLoginToken (secretKey : string)
    (getCustomerData : option string -> M (option customer_data))
    (token : string) (now : Z) : M login_reply :=
  try_catch
    (if String.eqb token "" then ret (LoginInvalid "Invalid token format" "INVALID_TOKEN")
     else
     let redisKey := redisKeyPrefix +:+ token in
     storedData <- get_ redisKey now ;;
     match storedData with
     | None => ret TOKEN_NOT_FOUND
     | Some linkData =>
         if negb (truthy linkData) then ret TOKEN_NOT_FOUND
         else if js_used linkData then ret TOKEN_ALREADY_USED
         else if match js_expiryTime linkData with Some e => (now >? e)%Z | None => false end
         then
           (* [await redisClient.del(redisKey)]: RedisClient defines [delete],
              not [del], so the call throws. *)
           @throw unit (TypeError "redisClient.del is not a function") ;;;
           ret TOKEN_EXPIRED
         else if negb (verifyTokenIntegrity secretKey token (js_email linkData))
         then ret TOKEN_INTEGRITY_FAILED
         else
           match linkData with
           | JLink l =>
               let l' := mkLinkData (link_email l) (link_customer l) (createdAt l)
                           (link_expiryTime l) true (attempts l + 1) (Some now) in
               (* [redisClient.set(redisKey, JSON.stringify(linkData), ...)]:
                  [set] stringifies again, so Redis now holds a JSON string. *)
               set_ redisKey (JText (link_json l')) (linkExpiryMinutes * 60) now ;;;
               customerData <- getCustomerData (snapshot_get "phone" (link_customer l')) ;;
               match customerData with
               | Some c =>
                   ret (LoginValid (link_email l') (link_customer l') (plainPassword c) (customerId c))
               | None => throw (TypeError "Cannot read properties of null (reading 'plainPassword')")
               end
           | _ =>
               (* values other than a link have no [email]: the integrity
                  check above has already failed *)
               ret TOKEN_INTEGRITY_FAILED
           end
     end)
    (fun _ => ret VERIFICATION_ERROR).

(** [customerService.getCustomerData(phone)].  [./customerService] is the
    module whose source is [src/src/routes/otpRoutes.js], lines 264-501
    ([module.exports = new CustomerService()]); the class defines createCustomer,
    checkCustomerExists, generateCustomerPassword,
    prepareShopifyCustomerData, storeCustomerData, prepareCustomerResponse,
    formatCustomerData and validatePhoneNumber, but no [getCustomerData].
    The property is [undefined], so calling it throws a TypeError before
    anything is awaited, and Redis is not touched. *)
Definition customerService_getCustomerData (phone : option string) : M (option customer_data) :=
  throw (TypeError "customerService.getCustomerData is not a function").

(** The link [verifyLoginToken] re-stores: [used = true], [attempts += 1],
    [usedAt = now]. *)
Definition used_link (l : link_data) (now : Z) : link_data :=
  mkLinkData (link_email l) (link_customer l) (createdAt l) (link_expiryTime l) true
    (attempts l + 1) (Some now).

(* ------------------------------------------------------------------ *)
(** ** PhoneValidator ([src/src/utils/phoneValidator.js]) *)

Module PhoneValidator.

Definition MAX_INPUT_LENGTH : nat := 20.

(** [s.replace(/[^\d+]/g, '')] *)
Definition cleanup (s : string) : string :=
  String.string_of_list_ascii
    (filter (fun a => is_digit a || Ascii.eqb a "+"%char) (String.list_ascii_of_string s)).

(** [s.replace(/^\+/, '')] *)
Definition strip_plus (s : string) : string :=
  match s with
  | String.String a rest => if Ascii.eqb a "+"%char then rest else s
  | String.EmptyString => s
  end.

(** [s.substring(k)] *)
Definition substring_from (s : string) (k : nat) : string :=
  String.substring k (String.length s - k) s.

Definition normalizeToInternational (phoneNumber : string) : option string :=
  if String.eqb phoneNumber "" then None
  else
    let number := strip_plus phoneNumber in
    (* Case 1: 880XXXXXXXXXX *)
    if String.prefix "880" number && (String.length number =? 13)%nat
    then Some ("+" +:+ number)
    (* Case 2: 01XXXXXXXXX *)
    else if String.prefix "01" number && (String.length number =? 11)%nat
    then Some ("+880" +:+ substring_from number 1)
    (* Case 3: +880XXXXXXXXXX *)
    else if String.prefix "+880" phoneNumber && (String.length phoneNumber =? 14)%nat
    then Some phoneNumber
    (* Case 4: 1XXXXXXXXX *)
    else if (String.length number =? 10)%nat && String.prefix "1" number
    then Some ("+880" +:+ number)
    else None.

(** [s.replace(pat, rep)] with a string pattern: the first occurrence. *)
Fixpoint replace_first (pat rep s : string) : string :=
  if String.prefix pat s then rep +:+ substring_from s (String.length pat)
  else match s with
       | String.String a rest => String.String a (replace_first pat rep rest)
       | String.EmptyString => s
       end.

(** [^(\+880|880|0)?(body)] *)
Definition opt_prefix_test (body : list Ascii.ascii -> bool) (l : list Ascii.ascii) : bool :=
  existsb (fun p => bool_decide (firstn (length p) l = p) && body (skipn (length p) l))
    [chars "+880"; chars "880"; chars "0"; []].

(** A two-character prefix among [firsts] followed by a character accepted
    by [third], e.g. [17[0-9]]. *)
Definition three_test (firsts : list string) (third : Ascii.ascii -> bool)
    (l : list Ascii.ascii) : bool :=
  match l with
  | a :: b :: c :: _ =>
      existsb (String.eqb (String.String a (String.String b String.EmptyString))) firsts && third c
  | _ => false
  end.

Definition digit_0_8 (a : Ascii.ascii) : bool :=
  let n := Ascii.nat_of_ascii a in (48 <=? n)%nat && (n <=? 56)%nat.

Definition GRAMEENPHONE := opt_prefix_test (three_test ["17"; "13"; "15"; "16"; "18"; "19"] is_digit).
Definition ROBI := opt_prefix_test (three_test ["18"] digit_0_8).
Definition BANGLALINK := opt_prefix_test (three_test ["19"; "14"] is_digit).
Definition AIRTEL := opt_prefix_test (three_test ["16"; "13"] is_digit).
Definition TELETALK := opt_prefix_test (three_test ["15"] is_digit).

Definition detectOperator (phoneNumber : string) : string :=
  if String.eqb phoneNumber "" then "unknown"
  else
    let number := chars (replace_first "+880" "0" phoneNumber) in
    if GRAMEENPHONE number then "grameenphone"
    else if ROBI number then "robi"
    else if BANGLALINK number then "banglalink"
    else if AIRTEL number then "airtel"
    else if TELETALK number then "teletalk"
    else "unknown".

(** [validateNormalizedNumber]: validity, message, operator. *)
Definition validateNormalizedNumber (normalizedNumber : string) : bool * string * option string :=
  if negb (String.length normalizedNumber =? 14)%nat
  then (false, "Invalid phone number length", None)
  else
    let mobileNumber := substring_from normalizedNumber 4 in
    if negb (String.prefix "1" mobileNumber)
    then (false, "Mobile number must start with 1", None)
    else if negb ((String.length mobileNumber =? 10)%nat && forallb is_digit (chars mobileNumber))
    then (false, "Mobile number must be exactly 10 digits", None)
    else (true, "Valid Bangladeshi mobile number", Some (detectOperator normalizedNumber)).

Record result : Type := mkResult {
  isValid : bool;
  message : string;
  normalizedNumber : option string;
  operator : option string
}.

Definition error_result (msg : string) : result := mkResult false msg None None.

(** [PhoneValidator.validate(phoneNumber)] on a string argument; lengths
    count characters (the inputs are ASCII text). *)
Definition validate (phoneNumber : string) : result :=
  if String.eqb phoneNumber "" then error_result "Phone number is required and must be a string"
  else
    let trimmed := Js.trim phoneNumber in
    if String.eqb trimmed "" then error_result "Phone number cannot be empty"
    else if (MAX_INPUT_LENGTH <? String.length trimmed)%nat
    then error_result "Phone number is too long"
    else
      let cleanNumber := cleanup trimmed in
      if String.eqb cleanNumber "" then error_result "Phone number contains no valid digits"
      else
        match normalizeToInternational cleanNumber with
        | None => error_result "Invalid phone number format"
        | Some normalized =>
            let '(ok, msg, op) := validateNormalizedNumber normalized in
            mkResult ok msg (if ok then Some normalized else None) op
        end.

(** [formatForDisplay(phoneNumber)] on a string argument. *)
Definition formatForDisplay (phoneNumber : string) : string :=
  if negb (String.length phoneNumber =? 14)%nat then phoneNumber
  else Js.substring phoneNumber 0 4 +:+ " " +:+
       Js.substring phoneNumber 4 8 +:+ " " +:+
       Js.substring phoneNumber 8 11 +:+ " " +:+
       substring_from phoneNumber 11.

End PhoneValidator.

Example PhoneValidator_test :
  map (fun s => (PhoneValidator.normalizedNumber (PhoneValidator.validate s),
                 PhoneValidator.operator (PhoneValidator.validate s)))
    ["01712345678"; "8801812345678"; "+8801412345678"; " +880 1712-345678 ";
     "1712345678"; "0171234567"; "+88001712345678"; "01212345678"] =
  [(Some "+8801712345678", Some "grameenphone"); (Some "+8801812345678", Some "grameenphone");
   (Some "+8801412345678", Some "banglalink"); (Some "+8801712345678", Some "grameenphone");
   (Some "+8801712345678", Some "grameenphone"); (None, None); (None, None);
   (Some "+8801212345678", Some "unknown")].
Proof. vm_compute. reflexivity. Qed.

(* ------------------------------------------------------------------ *)
(** ** Random passwords ([OTPGenerator.generateRandomPassword] and
    [_shuffleString], [src/src/utils/otpGenerator.js]) *)

Module RandomPassword.

(** Random source of [crypto.randomInt(min, max)]: [rnd k n] is the raw
    value of the [k]-th draw; [randomInt] maps it into [min, max), which
    is every behaviour [crypto.randomInt] can show. *)
Definition randomInt (rnd : nat -> nat -> nat) (k min max : nat) : nat :=
  min + rnd k (max - min) mod (max - min).

(** [charset[randomIndex]] turned into a string by [+=]: a one-character
    string, or [undefined] out of range. *)
Definition js_index (s : string) (i : nat) : string :=
  match String.get i s with
  | Some c => String.String c EmptyString
  | None => "undefined"
  end.

Definition PASSWORD_LENGTH : nat := 12.
Definition MAX_PASSWORD_LENGTH : nat := 128.

Definition lowercase : string := "abcdefghijklmnopqrstuvwxyz".
Definition uppercase : string := "ABCDEFGHIJKLMNOPQRSTUVWXYZ".
Definition numbers : string := "0123456789".
Definition symbols : string := "!@#$%^&*()_+-=[]{}|;:,.<>?".

(** [Object.values(charsets)], in insertion order. *)
Definition charsets : list string := [lowercase; uppercase; numbers; symbols].
Definition allChars : string := String.concat "" charsets.

(** [Number.isInteger(length) && length >= 8 && length <= 128 ? length : 12]
    for a numeric argument. *)
Definition validLength (length : Q) : nat :=
  if ((Qnum length mod Zpos (Qden length) =? 0)%Z
      && Qle_bool 8 length && Qle_bool length (Z.of_nat MAX_PASSWORD_LENGTH # 1))
  then Z.to_nat (Qnum length / Zpos (Qden length))
  else PASSWORD_LENGTH.

(** [for (const charset of Object.values(charsets)) password += charset[crypto.randomInt(0, charset.length)]] *)
Fixpoint pick_each (rnd : nat -> nat -> nat) (k : nat) (css : list string) (password : string)
  : string * nat :=
  match css with
  | [] => (password, k)
  | charset :: css' =>
      let randomIndex := randomInt rnd k 0 (String.length charset) in
      pick_each rnd (S k) css' (password +:+ js_index charset randomIndex)
  end.

(** [for (let i = password.length; i < validLength; i++)
      password += allChars[crypto.randomInt(0, allChars.length)]]:
    the body runs [validLength - password.length] times, given as [fuel]. *)
Fixpoint fill (rnd : nat -> nat -> nat) (k : nat) (fuel : nat) (password : string)
  : string * nat :=
  match fuel with
  | O => (password, k)
  | S fuel' =>
      let randomIndex := randomInt rnd k 0 (String.length allChars) in
      fill rnd (S k) fuel' (password +:+ js_index allChars randomIndex)
  end.

(** [for (let i = array.length - 1; i > 0; i--)]: the iteration for index
    [i = S i'] draws [j = crypto.randomInt(0, i + 1)] and runs
    [[array[i], array[j]] = [array[j], array[i]]], which assigns [array[i]]
    and then [array[j]].  Both indices are below [array.length], so the
    second branch of the lookup is never taken. *)
Fixpoint shuffle_loop (rnd : nat -> nat -> nat) (k : nat) (i : nat) (array : list Ascii.ascii)
  : list Ascii.ascii * nat :=
  match i with
  | O => (array, k)
  | S i' =>
      let j := randomInt rnd k 0 (i + 1) in
      let array' :=
        match array !! S i', array !! j with
        | Some ai, Some aj => <[j := ai]> (<[S i' := aj]> array)
        | _, _ => array
        end in
      shuffle_loop rnd (S k) i' array'
  end.

(** [_shuffleString(str)]: [str.split('')], the loop, [array.join('')];
    it also returns the index of the next draw. *)
Definition _shuffleString (rnd : nat -> nat -> nat) (k : nat) (str : string) : string * nat :=
  let array := chars str in
  let '(array', k') := shuffle_loop rnd k (length array - 1) array in
  (String.string_of_list_ascii array', k').

(** [generateRandomPassword(length)] with its draws starting at index [k].
    Its catch only rethrows a failure of [crypto.randomInt], which cannot
    happen for the bounds used here. *)
Definition generateRandomPassword (rnd : nat -> nat -> nat) (k : nat) (length : Q)
  : string * nat :=
  let vl := validLength length in
  let '(password, k1) := pick_each rnd k charsets "" in
  let '(password', k2) := fill rnd k1 (vl - String.length password) password in
  _shuffleString rnd k2 password'.

End RandomPassword.

(* ------------------------------------------------------------------ *)
(** ** SMS validation ([SMSService.validateMSISDN], [validateSMSContent]
    and the checks at the start of [sendSingleSMS], [src/unnamed/part_009]) *)

Module SMSService.

(** The object returned by [validateMSISDN]. *)
Record msisdn_result : Type := mkMsisdnResult {
  msisdn_isValid : bool;
  msisdn_normalizedNumber : option string;
  msisdn_message : string
}.

(** [/[\s\-\+\(\)]/] *)
Definition msisdn_strip (a : Ascii.ascii) : bool :=
  Js.is_ws a || Ascii.eqb a "-"%char || Ascii.eqb a "+"%char
  || Ascii.eqb a "("%char || Ascii.eqb a ")"%char.

(** [/^(88)?01[3-9]\d{8}$/.test(s)] *)
Definition bangladeshPattern_test (s : string) : bool :=
  let l := chars s in
  (bool_decide (firstn 2 l = chars "01") && subscriber_ok (skipn 2 l))
  || (bool_decide (firstn 4 l = chars "8801") && subscriber_ok (skipn 4 l)).

(** [validateMSISDN(msisdn)] on a string argument. *)
Definition validateMSISDN (msisdn : string) : msisdn_result :=
  if String.eqb msisdn "" then mkMsisdnResult false None "Phone number is required"
  else
    let cleanedNumber :=
      String.string_of_list_ascii (filter (fun a => negb (msisdn_strip a)) (chars msisdn)) in
    if negb (bangladeshPattern_test cleanedNumber)
    then mkMsisdnResult false None "Invalid Bangladesh phone number format"
    else
      let normalizedNumber :=
        if negb (String.prefix "88" cleanedNumber) then "88" +:+ cleanedNumber
        else cleanedNumber in
      mkMsisdnResult true (Some normalizedNumber) "Valid phone number".

(** The object returned by [validateSMSContent]. *)
Record content_result : Type := mkContentResult {
  content_isValid : bool;
  content_message : string;
  content_length : option nat
}.

(** [validateSMSContent(sms)] on a string argument. *)
Definition validateSMSContent (sms : string) : content_result :=
  if String.eqb sms "" then
    mkContentResult false "SMS content is required and must be a string" None
  else if (String.length (Js.trim sms) =? 0)%nat then
    mkContentResult false "SMS content cannot be empty" None
  else if (1000 <? String.length sms)%nat then
    mkContentResult false "SMS content exceeds maximum length of 1000 characters" None
  else mkContentResult true "Valid SMS content" (Some (String.length sms)).

(** The checks [sendSingleSMS({msisdn, sms})] runs before the API
    request, and the [msisdn] and [sms] fields of the payload it builds. *)
Definition sendSingleSMS_payload (msisdn sms : string) : res (option string * string) :=
  let phoneValidation := validateMSISDN msisdn in
  if negb (msisdn_isValid phoneValidation)
  then Throw (Error ("Phone validation failed: " +:+ msisdn_message phoneValidation))
  else
    let smsValidation := validateSMSContent sms in
    if negb (content_isValid smsValidation)
    then Throw (Error ("SMS content validation failed: " +:+ content_message smsValidation))
    else Ok (msisdn_normalizedNumber phoneValidation, Js.trim sms).

End SMSService.

(* ------------------------------------------------------------------ *)
(** ** Character predicates used by the proofs *)

(** A character kept by [/[^\d+]/g] in [PhoneValidator.cleanup]. *)
Definition cleanup_keep (a : Ascii.ascii) : bool := is_digit a || Ascii.eqb a "+"%char.

(** The string has no [:], the separator [verifyTokenIntegrity] splits on. *)
Definition no_colon (s : string) : bool := forallb (fun a => negb (Ascii.eqb a ":"%char)) (chars s).

(** Number of [:] in a character list. *)
Definition colons (l : list Ascii.ascii) : nat := List.count_occ Ascii.ascii_dec l ":"%char.


(* ================================================================== *)
(** * Lemmas about the model *)

Definition record_intact (g : otp_config) (d : otp_data) : bool :=
  String.eqb (hmac_sha256_hex (secretKey g)
                (verification_data (phoneNumber d) (otp d) (timestamp d) (expiryTime d)))
             (verificationHash d).

Definition not_ws (a : Ascii.ascii) : bool := negb (Js.is_ws a).

Lemma chars_append (s1 s2 : string) : chars (s1 +:+ s2) = chars s1 ++ chars s2.
Proof. induction s1 as [|a s1 IH]; simpl; [done|]. by rewrite IH. Qed.

Lemma length_chars (s : string) : String.length s = length (chars s).
Proof. induction s as [|a s IH]; simpl; [done|]. by rewrite IH. Qed.

Lemma digit_not_ws (a : Ascii.ascii) : is_digit a = true -> not_ws a = true.
Proof.
  unfold is_digit, not_ws, Js.is_ws. intros H.
  apply andb_true_iff in H as [H1 H2]. apply Nat.leb_le in H1, H2.
  apply negb_true_iff, orb_false_iff. split.
  - apply andb_false_iff. destruct (Nat.leb_spec0 9 (Ascii.nat_of_ascii a)); [right|left; done].
    apply Nat.leb_gt. lia.
  - apply Nat.eqb_neq. lia.
Qed.

Lemma operator_digit_digit (a : Ascii.ascii) : is_operator_digit a = true -> is_digit a = true.
Proof.
  unfold is_operator_digit, is_digit. intros H.
  apply andb_true_iff in H as [H1 H2]. apply Nat.leb_le in H1, H2.
  apply andb_true_iff; split; apply Nat.leb_le; lia.
Qed.

Lemma subscriber_ok_shape (l : list Ascii.ascii) :
  subscriber_ok l = true -> forallb is_digit l = true /\ length l = 9%nat.
Proof.
  destruct l as [|a rest]; simpl; [discriminate|].
  intros H. apply andb_true_iff in H as [H H3]. apply andb_true_iff in H as [H1 H2].
  apply Nat.eqb_eq in H2. rewrite operator_digit_digit, H3 by done. split; [done|lia].
Qed.

Lemma forallb_digits_not_ws (l : list Ascii.ascii) :
  forallb is_digit l = true -> forallb not_ws l = true.
Proof.
  induction l as [|a l IH]; simpl; [done|].
  intros H. apply andb_true_iff in H as [H1 H2]. by rewrite digit_not_ws, IH.
Qed.

(** A string that passes PHONE_PATTERN is non-blank text of at most 14
    characters. *)
Lemma PHONE_PATTERN_shape (s : string) :
  PHONE_PATTERN_test s = true ->
  forallb not_ws (chars s) = true /\ (length (chars s) <= 14)%nat /\ chars s <> [].
Proof.
  unfold PHONE_PATTERN_test. intros H.
  apply orb_true_iff in H as [H|H]; apply andb_true_iff in H as [Hp Hs];
    apply bool_decide_eq_true in Hp; apply subscriber_ok_shape in Hs as [Hd Hl];
    apply forallb_digits_not_ws in Hd.
  - rewrite <- (firstn_skipn 5 (chars s)), Hp, forallb_app, Hd, length_app, Hl. simpl.
    split; [done|]. split; [lia|discriminate].
  - rewrite <- (firstn_skipn 2 (chars s)), Hp, forallb_app, Hd, length_app, Hl. simpl.
    split; [done|]. split; [lia|discriminate].
Qed.

Lemma validatePhoneNumber_shape (phone n : string) :
  validatePhoneNumber phone = Ok n ->
  forallb not_ws (chars n) = true /\ (length (chars n) <= 20)%nat /\ chars n <> [].
Proof.
  unfold validatePhoneNumber. intros H.
  destruct (String.eqb phone "") eqn:E0; [discriminate|].
  destruct (PHONE_PATTERN_test phone) eqn:Ep; [|discriminate]. simpl in H.
  apply PHONE_PATTERN_shape in Ep as (Hw & Hl & Hne).
  destruct (String.prefix "01" phone); [|destruct (String.prefix "880" phone)];
    injection H as <-; rewrite ?chars_append, ?forallb_app, ?length_app, Hw; simpl;
    (split; [done|split; [lia|]]); [discriminate|discriminate|done].
Qed.

Lemma drop_ws_id (l : list Ascii.ascii) : forallb not_ws l = true -> Js.drop_ws l = l.
Proof.
  destruct l as [|a l]; simpl; [done|]. unfold not_ws.
  destruct (Js.is_ws a); simpl; [discriminate|done].
Qed.

Lemma trim_id (s : string) : forallb not_ws (chars s) = true -> Js.trim s = s.
Proof.
  intros H. unfold Js.trim. fold (chars s). rewrite (drop_ws_id (chars s)) by exact H.
  rewrite drop_ws_id.
  - rewrite rev_involutive. apply String.string_of_list_ascii_of_string.
  - rewrite forallb_forall in H |- *. intros x Hx. apply H. by apply in_rev.
Qed.

Lemma nonempty_neq (s : string) : chars s <> [] -> String.eqb s "" = false.
Proof. destruct s; simpl; [done|reflexivity]. Qed.

Lemma validated_keys (phone n : string) :
  validatePhoneNumber phone = Ok n ->
  generateRedisKey n = Ok ("otp:" +:+ n) /\
  generateCustomerDataKey n = Ok ("customer:" +:+ n).
Proof.
  intros H. apply validatePhoneNumber_shape in H as (Hw & Hl & Hne).
  unfold generateRedisKey, generateCustomerDataKey.
  rewrite trim_id, nonempty_neq, length_chars by done.
  destruct (chars n) eqn:E; [done|]. simpl in Hl |- *.
  unfold MAX_PHONE_LENGTH.
  replace (20 <? S (length l))%nat with false by (symmetry; apply Nat.ltb_ge; lia).
  replace (254 <? S (length l))%nat with false by (symmetry; apply Nat.ltb_ge; lia).
  done.
Qed.

Lemma validateOTP_ok (c : string) : OTP_PATTERN_test c = true -> validateOTP c = Ok tt.
Proof.
  unfold validateOTP. intros H. rewrite H.
  destruct c; [discriminate|reflexivity].
Qed.

Lemma redis_get_delete (key : string) (now : Z) (r : redis) :
  redis_get key now (redis_delete key r) = None.
Proof. unfold redis_get, redis_delete. simpl. by rewrite lookup_delete_eq. Qed.

Lemma delete_customers (key : string) (r : redis) :
  customers (redis_delete key r) = customers r.
Proof. reflexivity. Qed.

(** The reply of [verifyOTP] when the stored value is absent. *)
Lemma verifyOTP_absent (g : otp_config) (phone n code : string) (now : Z) (r : redis) :
  validatePhoneNumber phone = Ok n -> OTP_PATTERN_test code = true ->
  redis_get ("otp:" +:+ n) now r = None ->
  verifyOTP g phone code now r = (Ok (mkVerifyReply false OTP_NOT_FOUND n false true None), r).
Proof.
  intros Hv Hc Hg. pose proof (validated_keys _ _ Hv) as [Hk _].
  unfold verifyOTP, verify_seg1, try_catch, bind, lift, get_, ret.
  rewrite Hv, validateOTP_ok, Hk, Hg by done. reflexivity.
Qed.

(** A live, intact record bound to [n] is accepted, then deleted. *)
Lemma verifyOTP_success (g : otp_config) (phone n : string) (d : otp_data)
    (r : redis) (now : Z) :
  validatePhoneNumber phone = Ok n ->
  redis_get ("otp:" +:+ n) now r = Some (JOtp d) ->
  phoneNumber d = n ->
  OTP_PATTERN_test (otp d) = true ->
  (now <= expiryTime d)%Z ->
  record_intact g d = true ->
  verifyOTP g phone (otp d) now r =
    (Ok (prepareVerificationResponse n (redis_get_customer ("customer:" +:+ n) r)),
     redis_delete ("otp:" +:+ n) r).
Proof.
  intros Hv Hg Hp Hc Hexp Hint. pose proof (validated_keys _ _ Hv) as [Hk Hck].
  unfold verifyOTP, verify_seg1, try_catch, bind, lift, get_, ret.
  rewrite Hv, validateOTP_ok, Hk, Hg by done.
  unfold verify_seg2, gen_verifyOTP. simpl.
  replace (now >? expiryTime d)%Z with false by (symmetry; rewrite Z.gtb_ltb; apply Z.ltb_ge; lia).
  unfold record_intact in Hint. rewrite Hint, Hp, String.eqb_refl, String.eqb_refl. simpl.
  unfold bind, lift, delete_, ret. rewrite Hk. simpl.
  unfold verify_seg3, bind, lift, ret. rewrite Hck. reflexivity.
Qed.

(** A six-digit code other than the stored one is refused as invalid and
    Redis is left as it was; a malformed code is refused before Redis is
    read. *)
Lemma verifyOTP_wrong_code (g : otp_config) (phone n : string) (d : otp_data)
    (r : redis) (now : Z) (wrong : string) :
  validatePhoneNumber phone = Ok n ->
  redis_get ("otp:" +:+ n) now r = Some (JOtp d) ->
  phoneNumber d = n ->
  (now <= expiryTime d)%Z ->
  wrong <> otp d ->
  snd (verifyOTP g phone wrong now r) = r /\
  (OTP_PATTERN_test wrong = true ->
   fst (verifyOTP g phone wrong now r) = Ok (mkVerifyReply false MSG_OTP_INVALID n false false None)).
Proof.
  intros Hv Hg Hp Hexp Hne. pose proof (validated_keys _ _ Hv) as [Hk Hck].
  destruct (OTP_PATTERN_test wrong) eqn:Hc.
  - unfold verifyOTP, verify_seg1, try_catch, bind, lift, get_, ret.
    rewrite Hv, validateOTP_ok, Hk, Hg by done.
    unfold verify_seg2, gen_verifyOTP. simpl.
    replace (now >? expiryTime d)%Z with false by (symmetry; rewrite Z.gtb_ltb; apply Z.ltb_ge; lia).
    rewrite Hp, String.eqb_refl.
    replace (String.eqb (otp d) wrong) with false
      by (symmetry; apply String.eqb_neq; congruence).
    split; reflexivity.
  - split; [|discriminate].
    unfold verifyOTP, verify_seg1, try_catch, bind, lift.
    rewrite Hv. unfold validateOTP. rewrite Hc.
    destruct (String.eqb wrong ""); reflexivity.
Qed.

(** Concrete run used by the witnesses: [sendOTP "01712345678"] at [T0]. *)
Definition T0 : Z := 1760000000000.
Definition issued_store : redis := snd (sendOTP sv_ok demo_cfg "01712345678" T0 redis0).
Definition issued_record : otp_data :=
  match redis_get "otp:+8801712345678" T0 issued_store with
  | Some (JOtp d) => d
  | _ => mkOtpData "" "" 0 0 0 "" false
  end.

(** The issued record with one digit of its code flipped in Redis. *)
Definition tampered_code_record : otp_data :=
  mkOtpData "594467" (phoneNumber issued_record) (timestamp issued_record)
    (expiryTime issued_record) (data_expiryMinutes issued_record)
    (verificationHash issued_record) (isValid issued_record).
Definition tampered_code_store : redis :=
  redis_set "otp:+8801712345678" (JOtp tampered_code_record) 600 T0 issued_store.

(** The issued record with its [timestamp] field moved back by one second. *)
Definition tampered_time_record : otp_data :=
  mkOtpData (otp issued_record) (phoneNumber issued_record) (timestamp issued_record - 1000)
    (expiryTime issued_record) (data_expiryMinutes issued_record)
    (verificationHash issued_record) (isValid issued_record).
Definition tampered_time_store : redis :=
  redis_set "otp:+8801712345678" (JOtp tampered_time_record) 600 T0 issued_store.

Lemma handleOTPError_idem (e : exn) :
  handleOTPError (handleOTPError e) = handleOTPError e.
Proof.
  unfold handleOTPError at 2 3.
  destruct (Js.includes "Redis" (exn_message e)) eqn:E1; [reflexivity|].
  destruct (Js.includes "SMS" (exn_message e)) eqn:E2; [reflexivity|].
  destruct (Js.includes "Shopify" (exn_message e)) eqn:E3; [reflexivity|].
  destruct (String.eqb (exn_message e) "") eqn:E4; [reflexivity|].
  unfold handleOTPError. simpl. by rewrite E1, E2, E3, E4.
Qed.

Definition otp_handler {A} (e : exn) : M A := throw (handleOTPError e).

Lemma try_catch_handled {A} (m : M A) (r : redis) :
  try_catch (try_catch m otp_handler) otp_handler r = try_catch m otp_handler r.
Proof.
  unfold try_catch, otp_handler, throw.
  destruct (m r) as [[a|e] r']; [reflexivity|]. by rewrite handleOTPError_idem.
Qed.

Lemma generateOTP_fields (g : otp_config) (p : string) (now : Z) (d : otp_data) :
  generateOTP g p None now = Ok d ->
  timestamp d = now /\ expiryTime d = (now + expiryMinutes g * 60 * 1000)%Z /\
  data_expiryMinutes d = expiryMinutes g.
Proof.
  unfold generateOTP. intros H.
  destruct (String.eqb p ""); [discriminate|].
  destruct (MAX_PHONE_LENGTH <? String.length p)%nat; [discriminate|].
  simpl in H. injection H as <-. simpl. done.
Qed.

Section Resend.
Context (sv : services) (g : otp_config) (phone n : string) (r : redis) (now : Z).
Hypothesis Hv : validatePhoneNumber phone = Ok n.

Lemma resend_too_early (d : otp_data) :
  redis_get ("otp:" +:+ n) now r = Some (JOtp d) ->
  (now < expiryTime d)%Z -> (now - timestamp d < 120000)%Z ->
  resendOTP sv g phone now r =
    (Ok (ResendTooEarly n ((expiryTime d - now) / 1000) ((120000 - (now - timestamp d)) # 1000)), r).
Proof.
  intros Hg He Ht. pose proof (validated_keys _ _ Hv) as [Hk _].
  unfold resendOTP, try_catch, bind, lift. rewrite Hv.
  unfold checkResendEligibility, bind, lift, get_, ret. rewrite Hk, Hg.
  unfold getRemainingTime.
  replace (expiryTime d - now <=? 0)%Z with false by (symmetry; apply Z.leb_gt; lia).
  change (RESEND_WAIT_MINUTES * 60 * 1000)%Z with 120000%Z.
  replace (now - timestamp d <? 120000)%Z with true by (symmetry; apply Z.ltb_lt; lia).
  simpl. rewrite Z.max_r by lia. reflexivity.
Qed.

Lemma checkResendEligibility_allowed :
  (forall d, redis_get ("otp:" +:+ n) now r = Some (JOtp d) ->
     (expiryTime d <= now)%Z \/ (120000 <= now - timestamp d)%Z) ->
  checkResendEligibility n now r = (Ok None, r).
Proof.
  intros Hel. pose proof (validated_keys _ _ Hv) as [Hk _].
  unfold checkResendEligibility, bind, lift, get_, ret. rewrite Hk. cbv beta iota.
  destruct (redis_get ("otp:" +:+ n) now r) as [[d| |]|] eqn:Eg; try reflexivity.
  destruct (Hel d eq_refl) as [H|H]; unfold getRemainingTime.
  - replace (expiryTime d - now <=? 0)%Z with true by (symmetry; apply Z.leb_le; lia).
    reflexivity.
  - destruct (expiryTime d - now <=? 0)%Z; [reflexivity|].
    change (RESEND_WAIT_MINUTES * 60 * 1000)%Z with 120000%Z.
    replace (now - timestamp d <? 120000)%Z with false by (symmetry; apply Z.ltb_ge; lia).
    reflexivity.
Qed.

Lemma resend_allowed :
  (forall d, redis_get ("otp:" +:+ n) now r = Some (JOtp d) ->
     (expiryTime d <= now)%Z \/ (120000 <= now - timestamp d)%Z) ->
  resendOTP sv g phone now r = sendOTP sv g n now r.
Proof.
  intros Hel. unfold resendOTP, try_catch, bind, lift. rewrite Hv.
  unfold ret at 1. rewrite checkResendEligibility_allowed by exact Hel.
  exact (try_catch_handled _ r).
Qed.
End Resend.

Lemma redis_get_set_live (key : string) (v : jvalue) (ttl now now' : Z) (r : redis) :
  (0 < ttl)%Z -> (now' < now + ttl * 1000)%Z ->
  redis_get key now' (redis_set key v ttl now r) = Some v.
Proof.
  intros Ht Hl. unfold redis_get, redis_set. simpl. rewrite lookup_insert_eq.
  unfold live. simpl.
  replace (ttl =? 0)%Z with false by (symmetry; apply Z.eqb_neq; lia). simpl.
  replace (now' <? now + ttl * 1000)%Z with true by (symmetry; apply Z.ltb_lt; lia).
  reflexivity.
Qed.

Lemma sendOTP_sms_failure (sv : services) (g : otp_config) (phone n : string) (d : otp_data)
    (now : Z) (r : redis) :
  validatePhoneNumber phone = Ok n ->
  generateOTP g n None now = Ok d ->
  sms_success (sendSingleSMS sv n (sms_content d)) = false ->
  sendOTP sv g phone now r =
    (Throw (handleOTPError (Error ("SMS sending failed: " +:+
                                    sms_message (sendSingleSMS sv n (sms_content d))))),
     redis_set ("otp:" +:+ n) (JOtp d) (expiryMinutes g * 60) now r).
Proof.
  intros Hv Hgen Hs. pose proof (validated_keys _ _ Hv) as [Hk _].
  destruct (generateOTP_fields _ _ _ _ Hgen) as (_ & _ & Hm).
  unfold sendOTP, try_catch, bind, lift. rewrite Hv. unfold ret at 1. cbv beta iota. rewrite Hgen.
  unfold storeOTPInRedis, bind, lift, ret, set_. rewrite Hk. cbv beta iota.
  unfold sendOTPSMS. rewrite Hs, Hm. reflexivity.
Qed.

(** An SMS gateway that refuses every message. *)
Definition sv_fail : services :=
  mkServices true (fun _ _ => mkSmsResult false "Network error - unable to reach SMS service").

(** Two positive timestamps in the same 5-minute window give the same code
    (and the same outcome). *)
Lemma generateOTP_window_stable (g : otp_config) (p : string) (t1 t2 now1 now2 : Z) :
  (0 < t1)%Z -> (0 < t2)%Z -> (t1 / TIME_WINDOW_MS = t2 / TIME_WINDOW_MS)%Z ->
  match generateOTP g p (Some t1) now1, generateOTP g p (Some t2) now2 with
  | Ok d1, Ok d2 => otp d1 = otp d2
  | Throw e1, Throw e2 => e1 = e2
  | _, _ => False
  end.
Proof.
  intros H1 H2 Hw. unfold generateOTP.
  destruct (String.eqb p ""); [reflexivity|].
  destruct (MAX_PHONE_LENGTH <? String.length p)%nat; [reflexivity|].
  replace (t1 <? 0)%Z with false by (symmetry; apply Z.ltb_ge; lia).
  replace (t2 <? 0)%Z with false by (symmetry; apply Z.ltb_ge; lia).
  replace (t1 =? 0)%Z with false by (symmetry; apply Z.eqb_neq; lia).
  replace (t2 =? 0)%Z with false by (symmetry; apply Z.eqb_neq; lia).
  cbv beta iota zeta. rewrite Hw. reflexivity.
Qed.

Lemma verifyTokenIntegrity_no_email (k token : string) :
  verifyTokenIntegrity k token None = false.
Proof.
  unfold verifyTokenIntegrity.
  destruct (split_colon _) as [|a [|b [|c [|d [|e l]]]]]; reflexivity.
Qed.

Lemma redis_get_set_eq (key : string) (v : jvalue) (ttl now now' : Z) (r : redis) :
  redis_get key now' (redis_set key v ttl now r) =
    if (ttl =? 0)%Z then Some v
    else if (now' <? now + ttl * 1000)%Z then Some v else None.
Proof.
  unfold redis_get, redis_set. simpl. rewrite lookup_insert_eq. unfold live. simpl.
  destruct (ttl =? 0)%Z; [reflexivity|]. simpl.
  destruct (now' <? now + ttl * 1000)%Z; reflexivity.
Qed.

Lemma link_json_nonempty (l : link_data) : String.eqb (link_json l) "" = false.
Proof. reflexivity. Qed.

(** A live, unused link whose token passes the integrity check is re-stored
    as used before [getCustomerData] is called; the reply then depends on
    that call alone. *)
Lemma verifyLoginToken_live_link (k : string)
    (gcd : option string -> M (option customer_data)) (token : string) (l : link_data)
    (now : Z) (r : redis) :
  String.eqb token "" = false ->
  redis_get (redisKeyPrefix +:+ token) now r = Some (JLink l) ->
  used l = false ->
  (now <= link_expiryTime l)%Z ->
  verifyTokenIntegrity k token (Some (link_email l)) = true ->
  verifyLoginToken k gcd token now r =
    match gcd (snapshot_get "phone" (link_customer l))
            (redis_set (redisKeyPrefix +:+ token) (JText (link_json (used_link l now)))
               (linkExpiryMinutes * 60) now r) with
    | (Ok (Some c), r'') =>
        (Ok (LoginValid (link_email l) (link_customer l) (plainPassword c) (customerId c)), r'')
    | (_, r'') => (Ok VERIFICATION_ERROR, r'')
    end.
Proof.
  intros Et Eg Hu Hexp Hint.
  unfold verifyLoginToken, try_catch, bind, get_, ret, throw, set_.
  rewrite Et, Eg. cbv beta iota.
  cbn [truthy js_used js_expiryTime js_email negb]. rewrite Hu.
  replace (now >? link_expiryTime l)%Z with false
    by (symmetry; rewrite Z.gtb_ltb; apply Z.ltb_ge; lia).
  rewrite Hint. cbn [negb link_customer]. cbv beta iota. unfold used_link.
  destruct (gcd (snapshot_get "phone" (link_customer l)) _) as [[[c|]|e] r'']; reflexivity.
Qed.

(** With the repository's customerService the call throws, so such a link
    is re-stored as used and the reply is VERIFICATION_ERROR. *)
Lemma verifyLoginToken_live_link_customerService (k token : string) (l : link_data)
    (now : Z) (r : redis) :
  String.eqb token "" = false ->
  redis_get (redisKeyPrefix +:+ token) now r = Some (JLink l) ->
  used l = false ->
  (now <= link_expiryTime l)%Z ->
  verifyTokenIntegrity k token (Some (link_email l)) = true ->
  verifyLoginToken k customerService_getCustomerData token now r =
    (Ok VERIFICATION_ERROR,
     redis_set (redisKeyPrefix +:+ token) (JText (link_json (used_link l now)))
       (linkExpiryMinutes * 60) now r).
Proof.
  intros Et Eg Hu Hexp Hint.
  rewrite (verifyLoginToken_live_link k _ token l now r Et Eg Hu Hexp Hint).
  reflexivity.
Qed.

(** With the repository's customerService no call answers a valid login. *)
Lemma verifyLoginToken_customerService_never_valid (k token : string) (now : Z) (r : redis)
    (e : string) (c : snapshot) (p i : string) :
  fst (verifyLoginToken k customerService_getCustomerData token now r) <> Ok (LoginValid e c p i).
Proof.
  unfold verifyLoginToken, try_catch, bind, get_, ret, throw, set_,
    customerService_getCustomerData.
  destruct (String.eqb token ""); [discriminate|].
  destruct (redis_get (redisKeyPrefix +:+ token) now r) as [v|]; [|discriminate].
  destruct (negb (truthy v)); [discriminate|].
  destruct (js_used v); [discriminate|].
  destruct (match js_expiryTime v with Some e0 => (now >? e0)%Z | None => false end);
    [discriminate|].
  destruct (negb (verifyTokenIntegrity k token (js_email v))); [discriminate|].
  destruct v; discriminate.
Qed.

Lemma verifyLoginToken_on_text (k : string)
    (gcd : option string -> M (option customer_data)) (token s : string)
    (now now' : Z) (r : redis) :
  String.eqb token "" = false -> String.eqb s "" = false ->
  let r' := redis_set (redisKeyPrefix +:+ token) (JText s) (linkExpiryMinutes * 60) now r in
  verifyLoginToken k gcd token now' r' =
    (Ok (if (now' <? now + linkExpiryMinutes * 60 * 1000)%Z
         then TOKEN_INTEGRITY_FAILED else TOKEN_NOT_FOUND), r').
Proof.
  intros Et Es r'. unfold verifyLoginToken, try_catch. rewrite Et.
  unfold bind, get_, ret. subst r'. rewrite redis_get_set_eq.
  change (linkExpiryMinutes * 60 =? 0)%Z with false. cbv iota.
  change (linkExpiryMinutes * 60 * 1000)%Z with 900000%Z.
  change (linkExpiryMinutes * 60)%Z with 900%Z.
  change (900 * 1000)%Z with 900000%Z.
  destruct (now' <? now + 900000)%Z; [|reflexivity].
  simpl. rewrite Es. simpl. rewrite verifyTokenIntegrity_no_email. reflexivity.
Qed.

(** A login link issued at [T0] for a customer whose credential record is
    under [customer:+8801712345678]. *)
Definition demo_email : string := "rahim@example.com".
Definition demo_random : string :=
  "0f1e2d3c4b5a69788796a5b4c3d2e1f00f1e2d3c4b5a69788796a5b4c3d2e1f0".
Definition demo_token : string :=
  generateLoginToken (secretKey demo_cfg) demo_email T0 demo_random.
Definition demo_customer : snapshot := [("phone", "+8801712345678"); ("firstName", "Rahim")].
Definition redis_cust : redis :=
  mkRedis ∅ {[ "customer:+8801712345678" :=
                 mkCustomerData demo_email "Temp#2024" "Rahim" "7781234567" ]}.
Definition link_store : redis :=
  snd (storeLoginLink demo_token demo_email demo_customer T0 T0 T0 redis_cust).
Definition after_first_login : redis :=
  snd (verifyLoginToken (secretKey demo_cfg) customerService_getCustomerData demo_token
         (T0 + 60000) link_store).

(** The link [storeLoginLink] writes for [demo_token]. *)
Definition demo_link : link_data :=
  mkLinkData demo_email demo_customer T0 (T0 + 900000) false 0 None.

(** The same link when [SETEX] reaches Redis 3 ms after [expiryTime] was
    computed: for those 3 ms past [expiryTime] the entry is still live. *)
Definition late_link_store : redis :=
  snd (storeLoginLink demo_token demo_email demo_customer T0 (T0 + 1) (T0 + 3) redis_cust).
Definition late_link : link_data :=
  mkLinkData demo_email demo_customer (T0 + 1) (T0 + 900000) false 0 None.

(** Characterisation of the two phone normalisers. *)
Module PhoneFacts.
Import PhoneValidator.

Definition is_mobile (m : string) : bool :=
  (String.length m =? 10)%nat && String.prefix "1" m && forallb is_digit (chars m).

Lemma slen_app (s1 s2 : string) : String.length (s1 +:+ s2) = (String.length s1 + String.length s2)%nat.
Proof. induction s1 as [|a s1 IH]; simpl; [done|]. by rewrite IH. Qed.

Lemma prefix_app (p s : string) : String.prefix p (p +:+ s) = true.
Proof.
  induction p as [|a p IH]; simpl; [by destruct s|].
  destruct (Ascii.ascii_dec a a); [exact IH|done].
Qed.

Lemma substring_all (s : string) : String.substring 0 (String.length s) s = s.
Proof. induction s as [|a s IH]; simpl; [done|]. by rewrite IH. Qed.

Lemma substring_from_app (p s : string) : substring_from (p +:+ s) (String.length p) = s.
Proof.
  unfold substring_from. rewrite slen_app.
  replace (String.length p + String.length s - String.length p)%nat with (String.length s) by lia.
  induction p as [|a p IH]; simpl; [apply substring_all|exact IH].
Qed.

Lemma prefix_inv (p s : string) :
  String.prefix p s = true -> s = p +:+ substring_from s (String.length p).
Proof.
  revert s. induction p as [|a p IH]; intros s H.
  - unfold substring_from. simpl. rewrite Nat.sub_0_r. by rewrite substring_all.
  - destruct s as [|b s]; simpl in H; [discriminate|].
    destruct (Ascii.ascii_dec a b) as [<-|]; [|discriminate].
    change (substring_from (String.String a s) (String.length (String.String a p)))
      with (substring_from s (String.length p)).
    rewrite (IH s H) at 1. reflexivity.
Qed.

Lemma is_mobile_inv (m : string) :
  is_mobile m = true -> exists t, m = "1" +:+ t /\ String.length t = 9%nat.
Proof.
  unfold is_mobile. intros H. apply andb_true_iff in H as [H _].
  apply andb_true_iff in H as [Hl Hp]. apply Nat.eqb_eq in Hl.
  apply prefix_inv in Hp. exists (substring_from m 1). split; [exact Hp|].
  rewrite Hp, slen_app in Hl. simpl in Hl. lia.
Qed.

Lemma validateNormalized_intl (m : string) :
  fst (fst (validateNormalizedNumber ("+880" +:+ m))) = is_mobile m.
Proof.
  unfold validateNormalizedNumber, is_mobile. rewrite slen_app.
  replace (substring_from ("+880" +:+ m) 4) with m by (symmetry; exact (substring_from_app "+880" m)).
  simpl.
  destruct (String.length m =? 10)%nat; simpl; [|reflexivity].
  destruct (String.prefix "1" m); simpl; [|reflexivity].
  destruct (forallb is_digit (chars m)); reflexivity.
Qed.

Lemma strip_plus_inv (c s : string) : strip_plus c = s -> c = s \/ c = "+" +:+ s.
Proof.
  destruct c as [|a c]; simpl; [by left|].
  destruct (Ascii.eqb_spec a "+"%char) as [->|]; intros <-; [by right|by left].
Qed.

Lemma normalize_forward (c x : string) :
  normalizeToInternational c = Some x ->
  exists m, x = "+880" +:+ m /\
    (strip_plus c = "880" +:+ m \/ strip_plus c = "0" +:+ m \/ strip_plus c = m).
Proof.
  unfold normalizeToInternational.
  destruct (String.eqb c "") ; [discriminate|].
  destruct (String.prefix "880" (strip_plus c) && (String.length (strip_plus c) =? 13)%nat) eqn:E1.
  { intros H. injection H as <-. apply andb_true_iff in E1 as [Hp _].
    apply prefix_inv in Hp. exists (substring_from (strip_plus c) 3).
    split; [|by left]. rewrite Hp at 1. reflexivity. }
  destruct (String.prefix "01" (strip_plus c) && (String.length (strip_plus c) =? 11)%nat) eqn:E2.
  { intros H. injection H as <-. apply andb_true_iff in E2 as [Hp _].
    apply prefix_inv in Hp. exists (substring_from (strip_plus c) 1).
    split; [reflexivity|]. right; left.
    rewrite Hp at 1. rewrite Hp at 2.
    change (String.length "01") with 2%nat.
    change ("01" +:+ substring_from (strip_plus c) 2)
      with ("0" +:+ ("1" +:+ substring_from (strip_plus c) 2)).
    change 1%nat with (String.length "0") at 2.
    by rewrite substring_from_app. }
  destruct (String.prefix "+880" c && (String.length c =? 14)%nat) eqn:E3.
  { intros H. injection H as <-. apply andb_true_iff in E3 as [Hp _].
    apply prefix_inv in Hp. exists (substring_from c 4).
    split; [exact Hp|]. left. rewrite Hp at 1. reflexivity. }
  destruct ((String.length (strip_plus c) =? 10)%nat && String.prefix "1" (strip_plus c)) eqn:E4;
    [|discriminate].
  intros H. injection H as <-. exists (strip_plus c). split; [reflexivity|]. by right; right.
Qed.

Lemma normalize_backward (c m : string) :
  is_mobile m = true ->
  (strip_plus c = "880" +:+ m \/ strip_plus c = "0" +:+ m \/ strip_plus c = m) ->
  normalizeToInternational c = Some ("+880" +:+ m).
Proof.
  intros Hm Hs. destruct (is_mobile_inv m Hm) as [t [-> Ht]].
  assert (Hc : String.eqb c "" = false).
  { destruct c; [|reflexivity]. simpl in Hs. exfalso.
    destruct Hs as [H|[H|H]]; discriminate H. }
  unfold normalizeToInternational. rewrite Hc.
  destruct Hs as [Hs|[Hs|Hs]]; rewrite Hs.
  - simpl. rewrite slen_app. rewrite Ht. reflexivity.
  - replace ("0" +:+ ("1" +:+ t)) with ("01" +:+ t) by reflexivity.
    rewrite prefix_app, slen_app, Ht. simpl.
    replace (substring_from ("01" +:+ t) 1) with ("1" +:+ t)
      by (symmetry; exact (substring_from_app "0" ("1" +:+ t))).
    reflexivity.
  - apply strip_plus_inv in Hs as [->| ->]; simpl; rewrite slen_app, Ht; destruct t; reflexivity.
Qed.

Definition accepted_input (phone m : string) : Prop :=
  (String.length (Js.trim phone) <= MAX_INPUT_LENGTH)%nat /\ is_mobile m = true /\
  (strip_plus (cleanup (Js.trim phone)) = "880" +:+ m \/
   strip_plus (cleanup (Js.trim phone)) = "0" +:+ m \/
   strip_plus (cleanup (Js.trim phone)) = m).

Lemma validate_normalized_iff (phone n : string) :
  normalizedNumber (validate phone) = Some n <->
  exists m, n = "+880" +:+ m /\ accepted_input phone m.
Proof.
  unfold validate. split.
  - destruct (String.eqb phone ""); [discriminate|].
    destruct (String.eqb (Js.trim phone) ""); [discriminate|].
    destruct (MAX_INPUT_LENGTH <? String.length (Js.trim phone))%nat eqn:El; [discriminate|].
    destruct (String.eqb (cleanup (Js.trim phone)) ""); [discriminate|].
    destruct (normalizeToInternational (cleanup (Js.trim phone))) as [x|] eqn:En; [|discriminate].
    destruct (normalize_forward _ _ En) as (m & -> & Hs).
    pose proof (validateNormalized_intl m) as Hv.
    destruct (validateNormalizedNumber ("+880" +:+ m)) as [[ok msg] op].
    simpl in Hv |- *. destruct ok; [|discriminate].
    intros H. injection H as <-. exists m. split; [reflexivity|].
    split; [apply Nat.ltb_ge; exact El|]. split; [by rewrite Hv|exact Hs].
  - intros (m & -> & Hl & Hm & Hs).
    destruct (is_mobile_inv m Hm) as (t & Ht & _).
    assert (Hne : strip_plus (cleanup (Js.trim phone)) <> "").
    { destruct Hs as [H|[H|H]]; rewrite H, ?Ht; discriminate. }
    destruct (String.eqb phone "") eqn:E0.
    { apply String.eqb_eq in E0. subst phone. by contradiction Hne. }
    destruct (String.eqb (Js.trim phone) "") eqn:E1.
    { apply String.eqb_eq in E1. rewrite E1 in Hne. by contradiction Hne. }
    replace (MAX_INPUT_LENGTH <? String.length (Js.trim phone))%nat with false
      by (symmetry; apply Nat.ltb_ge; exact Hl).
    destruct (String.eqb (cleanup (Js.trim phone)) "") eqn:E2.
    { apply String.eqb_eq in E2. rewrite E2 in Hne. by contradiction Hne. }
    rewrite (normalize_backward _ _ Hm Hs).
    pose proof (validateNormalized_intl m) as Hv. rewrite Hm in Hv.
    destruct (validateNormalizedNumber ("+880" +:+ m)) as [[ok msg] op].
    simpl in Hv. subst ok. reflexivity.
Qed.

Lemma validateNormalized_message (x : string) :
  snd (fst (validateNormalizedNumber x)) <> "".
Proof.
  unfold validateNormalizedNumber.
  destruct (negb _); [discriminate|].
  destruct (negb _); [discriminate|].
  destruct (negb _); discriminate.
Qed.

Ltac error_case :=
  split; [split; [intros H; discriminate H|intros [? H]; discriminate H]|discriminate].

Lemma validate_reply (phone : string) :
  (isValid (validate phone) = true <-> is_Some (normalizedNumber (validate phone))) /\
  message (validate phone) <> "".
Proof.
  unfold validate.
  destruct (String.eqb phone ""); [error_case|].
  destruct (String.eqb (Js.trim phone) "");
    [error_case|].
  destruct (MAX_INPUT_LENGTH <? _)%nat; [error_case|].
  destruct (String.eqb (cleanup _) ""); [error_case|].
  destruct (normalizeToInternational _) as [x|];
    [|error_case].
  pose proof (validateNormalized_message x) as Hm.
  destruct (validateNormalizedNumber x) as [[ok msg] op]. simpl in Hm |- *.
  split; [|exact Hm]. destruct ok; split; intros H; try done; destruct H as [? H]; discriminate H.
Qed.

Lemma prefix_nil (s : string) : String.prefix "" s = true.
Proof. by destruct s. Qed.

Definition otp_mobile (m : string) : bool :=
  match m with
  | String.String a rest => Ascii.eqb a "1"%char && subscriber_ok (chars rest)
  | String.EmptyString => false
  end.

Lemma validatePhoneNumber_iff (phone n : string) :
  validatePhoneNumber phone = Ok n <->
  exists m, otp_mobile m = true /\ (phone = "0" +:+ m \/ phone = "+880" +:+ m) /\
            n = "+880" +:+ m.
Proof.
  split.
  - unfold validatePhoneNumber.
    destruct (String.eqb phone ""); [discriminate|].
    destruct (PHONE_PATTERN_test phone) eqn:Ep; [|discriminate]. simpl.
    unfold PHONE_PATTERN_test in Ep. apply orb_true_iff in Ep as [Ep|Ep];
      apply andb_true_iff in Ep as [Hf Hs]; apply bool_decide_eq_true in Hf.
    + destruct phone as [|a1 [|a2 [|a3 [|a4 [|a5 rest]]]]]; try discriminate Hf.
      simpl in Hf. injection Hf as -> -> -> -> ->. simpl.
      intros H. injection H as <-. exists (String.String "1"%char rest).
      split; [exact Hs|]. split; [by right|reflexivity].
    + destruct phone as [|a1 [|a2 rest]]; try discriminate Hf.
      simpl in Hf. injection Hf as -> ->. simpl. rewrite prefix_nil.
      intros H. injection H as <-. exists (String.String "1"%char rest).
      split; [exact Hs|]. split; [by left|reflexivity].
  - intros (m & Hm & Hp & ->).
    destruct m as [|a r]; [discriminate|]. simpl in Hm.
    apply andb_true_iff in Hm as [Ha Hs]. apply Ascii.eqb_eq in Ha. subst a.
    unfold validatePhoneNumber, PHONE_PATTERN_test.
    destruct Hp as [->| ->]; simpl.
    + rewrite prefix_nil. change (drop 0 (chars r)) with (chars r). rewrite Hs. reflexivity.
    + change (drop 0 (chars r)) with (chars r). rewrite Hs. reflexivity.
Qed.

End PhoneFacts.

(** Run to completion without interference, a request answers what
    [verifyOTP] answers and leaves Redis as [verifyOTP] does. *)
Lemma verify_steps_sequential (g : otp_config) (now : Z) (phone code : string)
    (b : verify_proc) (r : redis) :
  run_schedule g now [true; true; true] (VStart phone code) b r =
    (VDone (fst (verifyOTP g phone code now r)), b, snd (verifyOTP g phone code now r)).
Proof.
  unfold run_schedule, verify_step, run_segment, verifyOTP, try_catch, bind.
  destruct (verify_seg1 phone code now r) as [[[n s]|e] r1]; simpl; [|reflexivity].
  destruct (verify_seg2 g n code s now r1) as [[[reply|n']|e] r2]; simpl; [reflexivity| |reflexivity].
  destruct (verify_seg3 n' r2) as [[reply|e] r3]; reflexivity.
Qed.

(** The segments of [verifyOTP] on a live, intact record. *)
Section LiveRecord.
Variables (g : otp_config) (phone n : string) (d : otp_data) (now : Z).
Hypothesis Hv : validatePhoneNumber phone = Ok n.
Hypothesis Hp : phoneNumber d = n.
Hypothesis Hc : OTP_PATTERN_test (otp d) = true.
Hypothesis Hexp : (now <= expiryTime d)%Z.
Hypothesis Hint : record_intact g d = true.

Lemma seg1_read (r : redis) :
  verify_seg1 phone (otp d) now r = (Ok (n, redis_get ("otp:" +:+ n) now r), r).
Proof.
  pose proof (validated_keys _ _ Hv) as [Hk _].
  unfold verify_seg1, bind, lift, get_, ret.
  rewrite Hv, validateOTP_ok, Hk by done. reflexivity.
Qed.

Lemma seg2_accept (r : redis) :
  verify_seg2 g n (otp d) (Some (JOtp d)) now r = (Ok (inr n), redis_delete ("otp:" +:+ n) r).
Proof.
  pose proof (validated_keys _ _ Hv) as [Hk _].
  unfold verify_seg2, gen_verifyOTP. simpl.
  replace (now >? expiryTime d)%Z with false by (symmetry; rewrite Z.gtb_ltb; apply Z.ltb_ge; lia).
  unfold record_intact in Hint. rewrite Hint, Hp, String.eqb_refl, String.eqb_refl. simpl.
  unfold bind, lift, delete_, ret. rewrite Hk. reflexivity.
Qed.

Lemma seg3_reply (r : redis) :
  verify_seg3 n r =
    (Ok (prepareVerificationResponse n (redis_get_customer ("customer:" +:+ n) r)), r).
Proof.
  pose proof (validated_keys _ _ Hv) as [_ Hck].
  unfold verify_seg3, bind, lift, ret. rewrite Hck. reflexivity.
Qed.

End LiveRecord.

Lemma redis_delete_idemp (k : string) (r : redis) :
  redis_delete k (redis_delete k r) = redis_delete k r.
Proof. unfold redis_delete. simpl. by rewrite delete_delete_eq. Qed.

Lemma redis_get_deleted (k : string) (now : Z) (r : redis) :
  redis_get k now (redis_delete k r) = None.
Proof. unfold redis_get, redis_delete. simpl. by rewrite lookup_delete_eq. Qed.

(** Two requests whose steps leave Redis at [rd] do not interfere: each
    one's result is what it computes when run alone. *)
Definition stable_at (g : otp_config) (now : Z) (rd : redis) (p : verify_proc) : Prop :=
  forall k, snd (verify_steps g now k p rd) = rd.

Lemma run_schedule_stable (g : otp_config) (now : Z) (rd : redis) (s : list bool)
    (a b : verify_proc) :
  stable_at g now rd a -> stable_at g now rd b ->
  run_schedule g now s a b rd =
    (fst (verify_steps g now (steps_of true s) a rd),
     fst (verify_steps g now (steps_of false s) b rd), rd).
Proof.
  revert a b. induction s as [|x s IH]; intros a b Ha Hb; [reflexivity|].
  destruct x; cbn [run_schedule steps_of Bool.eqb].
  - destruct (verify_step g now a rd) as [a' r'] eqn:E.
    assert (Er : r' = rd).
    { specialize (Ha 1%nat). cbn [verify_steps] in Ha. rewrite E in Ha. exact Ha. }
    subst r'. rewrite IH; [|intros k|exact Hb].
    + cbn [verify_steps]. rewrite E. reflexivity.
    + specialize (Ha (S k)). cbn [verify_steps] in Ha. rewrite E in Ha. exact Ha.
  - destruct (verify_step g now b rd) as [b' r'] eqn:E.
    assert (Er : r' = rd).
    { specialize (Hb 1%nat). cbn [verify_steps] in Hb. rewrite E in Hb. exact Hb. }
    subst r'. rewrite IH; [|exact Ha|intros k].
    + cbn [verify_steps]. rewrite E. reflexivity.
    + specialize (Hb (S k)). cbn [verify_steps] in Hb. rewrite E in Hb. exact Hb.
Qed.

Lemma verify_steps_done (g : otp_config) (now : Z) (k : nat) (v : res verify_reply) (x : redis) :
  verify_steps g now k (VDone v) x = (VDone v, x).
Proof. induction k as [|k IH]; [reflexivity|]. exact IH. Qed.

(** The steps of two requests presenting the stored code of a live,
    intact record. *)
Section ConcurrentVerify.
Variables (g : otp_config) (phone n : string) (d : otp_data) (now : Z) (r : redis).
Hypothesis Hv : validatePhoneNumber phone = Ok n.
Hypothesis Hg : redis_get ("otp:" +:+ n) now r = Some (JOtp d).
Hypothesis Hp : phoneNumber d = n.
Hypothesis Hc : OTP_PATTERN_test (otp d) = true.
Hypothesis Hexp : (now <= expiryTime d)%Z.
Hypothesis Hint : record_intact g d = true.

Let rd := redis_delete ("otp:" +:+ n) r.
Let ok := VDone (Ok (prepareVerificationResponse n (redis_get_customer ("customer:" +:+ n) r))).
Let gone := VDone (Ok (mkVerifyReply false OTP_NOT_FOUND n false true None)).

Lemma step_start_present :
  verify_step g now (VStart phone (otp d)) r = (VRead n (otp d) (Some (JOtp d)), r).
Proof.
  unfold verify_step, run_segment. rewrite (seg1_read phone n d now Hv Hc), Hg. reflexivity.
Qed.

Lemma step_start_deleted :
  verify_step g now (VStart phone (otp d)) rd = (VRead n (otp d) None, rd).
Proof.
  unfold verify_step, run_segment, rd.
  rewrite (seg1_read phone n d now Hv Hc), redis_get_deleted. reflexivity.
Qed.

Lemma step_read_present (x : redis) :
  verify_step g now (VRead n (otp d) (Some (JOtp d))) x =
    (VDeleted n, redis_delete ("otp:" +:+ n) x).
Proof.
  unfold verify_step, run_segment. rewrite (seg2_accept g phone n d now Hv Hp Hexp Hint).
  reflexivity.
Qed.

Lemma step_read_absent (x : redis) :
  verify_step g now (VRead n (otp d) None) x = (gone, x).
Proof. reflexivity. Qed.

Lemma step_deleted :
  verify_step g now (VDeleted n) rd = (ok, rd).
Proof.
  unfold verify_step, run_segment. rewrite (seg3_reply phone n Hv). reflexivity.
Qed.

Lemma steps_deleted (k : nat) :
  verify_steps g now (S k) (VDeleted n) rd = (ok, rd).
Proof. cbn [verify_steps]. rewrite step_deleted. apply verify_steps_done. Qed.

Lemma steps_read_present (k : nat) :
  verify_steps g now (S (S k)) (VRead n (otp d) (Some (JOtp d))) rd = (ok, rd).
Proof.
  cbn [verify_steps]. rewrite step_read_present.
  replace (redis_delete ("otp:" +:+ n) rd) with rd by (unfold rd; symmetry; apply redis_delete_idemp).
  rewrite step_deleted. apply verify_steps_done.
Qed.

Lemma steps_read_absent (k : nat) :
  verify_steps g now (S k) (VRead n (otp d) None) rd = (gone, rd).
Proof. cbn [verify_steps]. rewrite step_read_absent. apply verify_steps_done. Qed.

Lemma steps_start_deleted (k : nat) :
  verify_steps g now (S (S k)) (VStart phone (otp d)) rd = (gone, rd).
Proof.
  cbn [verify_steps]. rewrite step_start_deleted, step_read_absent. apply verify_steps_done.
Qed.

Lemma stable_done (v : res verify_reply) : stable_at g now rd (VDone v).
Proof. intros k. rewrite verify_steps_done. reflexivity. Qed.

Lemma stable_deleted : stable_at g now rd (VDeleted n).
Proof.
  intros [|k]; [reflexivity|]. rewrite steps_deleted. reflexivity.
Qed.

Lemma stable_read_present : stable_at g now rd (VRead n (otp d) (Some (JOtp d))).
Proof.
  intros [|[|k]]; [reflexivity| |rewrite steps_read_present; reflexivity].
  cbn [verify_steps]. rewrite step_read_present. unfold rd. apply redis_delete_idemp.
Qed.

Lemma stable_start_deleted : stable_at g now rd (VStart phone (otp d)).
Proof.
  intros [|[|k]]; [reflexivity| |rewrite steps_start_deleted; reflexivity].
  cbn [verify_steps]. rewrite step_start_deleted. reflexivity.
Qed.

(** Run to completion, under any schedule: [a] is answered [ok] and [b]
    [gone] when [a] deletes before [b] reads, symmetrically, and both are
    answered [ok] when each reads before the other deletes; the record
    ends up deleted. *)
Lemma run_schedule_same_code (s : list bool) :
  (3 <= steps_of true s)%nat -> (3 <= steps_of false s)%nat ->
  run_schedule g now s (VStart phone (otp d)) (VStart phone (otp d)) r =
    (if (2 <=? lead true s)%nat then (ok, gone, rd)
     else if (2 <=? lead false s)%nat then (gone, ok, rd)
     else (ok, ok, rd)).
Proof.
  intros Ha Hb.
  destruct s as [|[] [|[] s]]; cbn [steps_of lead Bool.eqb] in Ha, Hb |- *; try lia.
  - (* a, a: [a] reads and deletes before [b] reads *)
    cbn [run_schedule]. rewrite step_start_present, step_read_present. cbv iota.
    fold rd. rewrite run_schedule_stable by (apply stable_deleted || apply stable_start_deleted).
    destruct (steps_of true s) as [|ka]; [lia|]. destruct (steps_of false s) as [|[|kb]]; [lia|lia|].
    rewrite steps_deleted, steps_start_deleted. reflexivity.
  - (* a, b: both read the record *)
    destruct s as [|[] s]; cbn [steps_of lead Bool.eqb] in Ha, Hb |- *; try lia;
      cbn [run_schedule]; rewrite step_start_present; cbv iota;
      rewrite step_start_present; cbv iota; rewrite step_read_present; cbv iota; fold rd;
      rewrite run_schedule_stable by (apply stable_deleted || apply stable_read_present).
    + destruct (steps_of true s) as [|ka]; [lia|]. destruct (steps_of false s) as [|[|kb]]; [lia|lia|].
      rewrite steps_deleted, steps_read_present. reflexivity.
    + destruct (steps_of true s) as [|[|ka]]; [lia|lia|]. destruct (steps_of false s) as [|kb]; [lia|].
      rewrite steps_deleted, steps_read_present. reflexivity.
  - (* b, a: both read the record *)
    destruct s as [|[] s]; cbn [steps_of lead Bool.eqb] in Ha, Hb |- *; try lia;
      cbn [run_schedule]; rewrite step_start_present; cbv iota;
      rewrite step_start_present; cbv iota; rewrite step_read_present; cbv iota; fold rd;
      rewrite run_schedule_stable by (apply stable_deleted || apply stable_read_present).
    + destruct (steps_of true s) as [|ka]; [lia|]. destruct (steps_of false s) as [|[|kb]]; [lia|lia|].
      rewrite steps_deleted, steps_read_present. reflexivity.
    + destruct (steps_of true s) as [|[|ka]]; [lia|lia|]. destruct (steps_of false s) as [|kb]; [lia|].
      rewrite steps_deleted, steps_read_present. reflexivity.
  - (* b, b: [b] reads and deletes before [a] reads *)
    cbn [run_schedule]. rewrite step_start_present, step_read_present. cbv iota.
    fold rd. rewrite run_schedule_stable by (apply stable_deleted || apply stable_start_deleted).
    destruct (steps_of true s) as [|[|ka]]; [lia|lia|]. destruct (steps_of false s) as [|kb]; [lia|].
    rewrite steps_deleted, steps_start_deleted. reflexivity.
Qed.

End ConcurrentVerify.

(* ================================================================== *)
(** * Claims *)

(** C1 (confirmed).  When the canonical phone [n] of [phone] holds a live
    record [d] (present in Redis, not past [expiryTime], bound to [n], with
    a six-digit code and an intact verification hash), [verifyOTP phone
    (otp d)] succeeds and deletes [otp:n]; a repeated [verifyOTP] with the
    same phone and code, at any later time, answers "OTP not found or has
    expired" with [expired = true]. *)
Theorem verifyOTP_accepts_code_once (g : otp_config) (phone n : string) (d : otp_data)
    (r : redis) (now : Z) :
  validatePhoneNumber phone = Ok n ->
  redis_get ("otp:" +:+ n) now r = Some (JOtp d) ->
  phoneNumber d = n ->
  OTP_PATTERN_test (otp d) = true ->
  (now <= expiryTime d)%Z ->
  record_intact g d = true ->
  verifyOTP g phone (otp d) now r =
    (Ok (prepareVerificationResponse n (redis_get_customer ("customer:" +:+ n) r)),
     redis_delete ("otp:" +:+ n) r) /\
  forall now' : Z,
    verifyOTP g phone (otp d) now' (redis_delete ("otp:" +:+ n) r) =
      (Ok (mkVerifyReply false OTP_NOT_FOUND n false true None),
       redis_delete ("otp:" +:+ n) r).
Proof.
  intros Hv Hg Hp Hc Hexp Hint. split.
  - by apply verifyOTP_success.
  - intros now'. apply verifyOTP_absent; [done|done|]. apply redis_get_delete.
Qed.

Lemma verifyOTP_accepts_code_once_witness :
  validatePhoneNumber "01712345678" = Ok "+8801712345678" /\
  redis_get ("otp:" +:+ "+8801712345678") (T0 + 60000) issued_store = Some (JOtp issued_record) /\
  phoneNumber issued_record = "+8801712345678" /\
  OTP_PATTERN_test (otp issued_record) = true /\
  (T0 + 60000 <= expiryTime issued_record)%Z /\
  record_intact demo_cfg issued_record = true /\
  verifyOTP demo_cfg "01712345678" (otp issued_record) (T0 + 60000) issued_store =
    (Ok (prepareVerificationResponse "+8801712345678"
           (redis_get_customer ("customer:" +:+ "+8801712345678") issued_store)),
     redis_delete ("otp:" +:+ "+8801712345678") issued_store) /\
  (forall now' : Z,
    verifyOTP demo_cfg "01712345678" (otp issued_record) now'
      (redis_delete ("otp:" +:+ "+8801712345678") issued_store) =
      (Ok (mkVerifyReply false OTP_NOT_FOUND "+8801712345678" false true None),
       redis_delete ("otp:" +:+ "+8801712345678") issued_store)).
Proof.
  assert (H1 : validatePhoneNumber "01712345678" = Ok "+8801712345678") by reflexivity.
  assert (H2 : redis_get ("otp:" +:+ "+8801712345678") (T0 + 60000) issued_store
               = Some (JOtp issued_record)) by (vm_compute; reflexivity).
  assert (H3 : phoneNumber issued_record = "+8801712345678") by (vm_compute; reflexivity).
  assert (H4 : OTP_PATTERN_test (otp issued_record) = true) by (vm_compute; reflexivity).
  assert (H5 : (T0 + 60000 <= expiryTime issued_record)%Z) by (vm_compute; discriminate).
  assert (H6 : record_intact demo_cfg issued_record = true) by (vm_compute; reflexivity).
  destruct (verifyOTP_accepts_code_once demo_cfg "01712345678" "+8801712345678"
              issued_record issued_store (T0 + 60000) H1 H2 H3 H4 H5 H6) as [C1 C2].
  exact (conj H1 (conj H2 (conj H3 (conj H4 (conj H5 (conj H6 (conj C1 C2))))))).
Defined.

(** C3 (corrected), the counterexample.  Flipping the last digit of the
    stored code of a freshly issued record and then verifying with the
    code that was issued answers "Invalid OTP code", not the integrity
    failure: the code comparison runs before the hash check. *)
Lemma verifyOTP_flipped_code_counterexample :
  otp issued_record = "594466" /\
  otp tampered_code_record = "594467" /\
  verifyOTP demo_cfg "01712345678" (otp issued_record) (T0 + 60000) tampered_code_store =
    (Ok (mkVerifyReply false MSG_OTP_INVALID "+8801712345678" false false None),
     tampered_code_store).
Proof. vm_compute. repeat split; reflexivity. Qed.

(** C3 (corrected), amended.  On a live record [d] bound to the phone, a
    verify with a six-digit code [c] reports the integrity failure exactly
    when [c] equals the stored code field while the stored hash does not
    match the stored fields (for example a tampered timestamp).  When the
    stored code field differs from [c] (for example a flipped digit) it
    reports "Invalid OTP code"; in these two cases Redis is left unchanged.
    When [c] equals the stored code and the hash matches, the verify
    succeeds and deletes the record. *)
Theorem verifyOTP_integrity_vs_invalid (g : otp_config) (phone n c : string) (d : otp_data)
    (r : redis) (now : Z) :
  validatePhoneNumber phone = Ok n ->
  redis_get ("otp:" +:+ n) now r = Some (JOtp d) ->
  phoneNumber d = n ->
  OTP_PATTERN_test c = true ->
  (now <= expiryTime d)%Z ->
  (otp d = c -> record_intact g d = false ->
   verifyOTP g phone c now r = (Ok (mkVerifyReply false MSG_INTEGRITY n false false None), r)) /\
  (otp d <> c ->
   verifyOTP g phone c now r = (Ok (mkVerifyReply false MSG_OTP_INVALID n false false None), r)) /\
  (otp d = c -> record_intact g d = true ->
   verifyOTP g phone c now r =
     (Ok (prepareVerificationResponse n (redis_get_customer ("customer:" +:+ n) r)),
      redis_delete ("otp:" +:+ n) r)) /\
  (fst (verifyOTP g phone c now r) = Ok (mkVerifyReply false MSG_INTEGRITY n false false None) <->
   otp d = c /\ record_intact g d = false).
Proof.
  intros Hv Hg Hp Hc Hexp.
  assert (A : otp d = c -> record_intact g d = false ->
              verifyOTP g phone c now r =
                (Ok (mkVerifyReply false MSG_INTEGRITY n false false None), r)).
  { intros <- Hint. pose proof (validated_keys _ _ Hv) as [Hk _].
    unfold verifyOTP, verify_seg1, try_catch, bind, lift, get_, ret.
    rewrite Hv, validateOTP_ok, Hk, Hg by done.
    unfold verify_seg2, gen_verifyOTP. simpl.
    replace (now >? expiryTime d)%Z with false
      by (symmetry; rewrite Z.gtb_ltb; apply Z.ltb_ge; lia).
    unfold record_intact in Hint. rewrite Hint, Hp, String.eqb_refl, String.eqb_refl.
    reflexivity. }
  assert (B : otp d <> c ->
              verifyOTP g phone c now r =
                (Ok (mkVerifyReply false MSG_OTP_INVALID n false false None), r)).
  { intros Hne.
    destruct (verifyOTP_wrong_code g phone n d r now c Hv Hg Hp Hexp) as [Hs Hf];
      [congruence|].
    rewrite (surjective_pairing (verifyOTP g phone c now r)), Hs, Hf by done.
    reflexivity. }
  assert (C : otp d = c -> record_intact g d = true ->
              verifyOTP g phone c now r =
                (Ok (prepareVerificationResponse n (redis_get_customer ("customer:" +:+ n) r)),
                 redis_delete ("otp:" +:+ n) r)).
  { intros <- Hint. apply verifyOTP_success; done. }
  split; [exact A|]. split; [exact B|]. split; [exact C|].
  split.
  - intros H. destruct (decide (otp d = c)) as [Heq|Hne].
    + split; [exact Heq|].
      destruct (record_intact g d) eqn:Hi; [|reflexivity].
      rewrite (C Heq eq_refl) in H. discriminate H.
    + rewrite (B Hne) in H. simpl in H. injection H as Hm.
      unfold MSG_OTP_INVALID, MSG_INTEGRITY in Hm. discriminate Hm.
  - intros [Heq Hi]. rewrite (A Heq Hi). reflexivity.
Qed.

Lemma verifyOTP_integrity_vs_invalid_witness :
  validatePhoneNumber "01712345678" = Ok "+8801712345678" /\
  redis_get ("otp:" +:+ "+8801712345678") (T0 + 60000) tampered_time_store
    = Some (JOtp tampered_time_record) /\
  phoneNumber tampered_time_record = "+8801712345678" /\
  OTP_PATTERN_test (otp issued_record) = true /\
  (T0 + 60000 <= expiryTime tampered_time_record)%Z /\
  otp tampered_time_record = otp issued_record /\
  record_intact demo_cfg tampered_time_record = false /\
  verifyOTP demo_cfg "01712345678" (otp issued_record) (T0 + 60000) tampered_time_store =
    (Ok (mkVerifyReply false MSG_INTEGRITY "+8801712345678" false false None),
     tampered_time_store).
Proof.
  assert (H1 : validatePhoneNumber "01712345678" = Ok "+8801712345678") by reflexivity.
  assert (H2 : redis_get ("otp:" +:+ "+8801712345678") (T0 + 60000) tampered_time_store
               = Some (JOtp tampered_time_record)) by (vm_compute; reflexivity).
  assert (H3 : phoneNumber tampered_time_record = "+8801712345678") by (vm_compute; reflexivity).
  assert (H4 : OTP_PATTERN_test (otp issued_record) = true) by (vm_compute; reflexivity).
  assert (H5 : (T0 + 60000 <= expiryTime tampered_time_record)%Z) by (vm_compute; discriminate).
  assert (H6 : otp tampered_time_record = otp issued_record) by reflexivity.
  assert (H7 : record_intact demo_cfg tampered_time_record = false) by (vm_compute; reflexivity).
  destruct (verifyOTP_integrity_vs_invalid demo_cfg "01712345678" "+8801712345678"
              (otp issued_record) tampered_time_record tampered_time_store (T0 + 60000)
              H1 H2 H3 H4 H5) as [C _].
  exact (conj H1 (conj H2 (conj H3 (conj H4 (conj H5 (conj H6 (conj H7 (C H6 H7)))))))).
Defined.

(** C4 (confirmed).  On a live record [d] bound to the canonical phone [n],
    a verify with a code [wrong] other than the stored one leaves Redis
    exactly as it was (no deletion, no new TTL); when [wrong] has six
    digits the reply is "Invalid OTP code".  A later verify with the stored
    code at [now2], while the Redis entry is still live and [now2] is not
    past [expiryTime], then succeeds and deletes the record. *)
Theorem verifyOTP_wrong_code_no_reset (g : otp_config) (phone n wrong : string)
    (d : otp_data) (r : redis) (now now2 : Z) :
  validatePhoneNumber phone = Ok n ->
  redis_get ("otp:" +:+ n) now r = Some (JOtp d) ->
  phoneNumber d = n ->
  OTP_PATTERN_test (otp d) = true ->
  record_intact g d = true ->
  (now <= expiryTime d)%Z ->
  wrong <> otp d ->
  redis_get ("otp:" +:+ n) now2 r = Some (JOtp d) ->
  (now2 <= expiryTime d)%Z ->
  snd (verifyOTP g phone wrong now r) = r /\
  (OTP_PATTERN_test wrong = true ->
   fst (verifyOTP g phone wrong now r) =
     Ok (mkVerifyReply false MSG_OTP_INVALID n false false None)) /\
  verifyOTP g phone (otp d) now2 (snd (verifyOTP g phone wrong now r)) =
    (Ok (prepareVerificationResponse n (redis_get_customer ("customer:" +:+ n) r)),
     redis_delete ("otp:" +:+ n) r).
Proof.
  intros Hv Hg Hp Hc Hint Hexp Hne Hg2 Hexp2.
  destruct (verifyOTP_wrong_code g phone n d r now wrong Hv Hg Hp Hexp Hne) as [Hs Hf].
  split; [exact Hs|]. split; [exact Hf|].
  rewrite Hs. by apply verifyOTP_success.
Qed.

Lemma verifyOTP_wrong_code_no_reset_witness :
  validatePhoneNumber "01712345678" = Ok "+8801712345678" /\
  redis_get ("otp:" +:+ "+8801712345678") (T0 + 60000) issued_store = Some (JOtp issued_record) /\
  phoneNumber issued_record = "+8801712345678" /\
  OTP_PATTERN_test (otp issued_record) = true /\
  record_intact demo_cfg issued_record = true /\
  (T0 + 60000 <= expiryTime issued_record)%Z /\
  "000000" <> otp issued_record /\
  redis_get ("otp:" +:+ "+8801712345678") (T0 + 500000) issued_store = Some (JOtp issued_record) /\
  (T0 + 500000 <= expiryTime issued_record)%Z /\
  snd (verifyOTP demo_cfg "01712345678" "000000" (T0 + 60000) issued_store) = issued_store /\
  fst (verifyOTP demo_cfg "01712345678" "000000" (T0 + 60000) issued_store) =
    Ok (mkVerifyReply false MSG_OTP_INVALID "+8801712345678" false false None) /\
  verifyOTP demo_cfg "01712345678" (otp issued_record) (T0 + 500000)
    (snd (verifyOTP demo_cfg "01712345678" "000000" (T0 + 60000) issued_store)) =
    (Ok (prepareVerificationResponse "+8801712345678"
           (redis_get_customer ("customer:" +:+ "+8801712345678") issued_store)),
     redis_delete ("otp:" +:+ "+8801712345678") issued_store).
Proof.
  assert (H1 : validatePhoneNumber "01712345678" = Ok "+8801712345678") by reflexivity.
  assert (H2 : redis_get ("otp:" +:+ "+8801712345678") (T0 + 60000) issued_store
               = Some (JOtp issued_record)) by (vm_compute; reflexivity).
  assert (H3 : phoneNumber issued_record = "+8801712345678") by (vm_compute; reflexivity).
  assert (H4 : OTP_PATTERN_test (otp issued_record) = true) by (vm_compute; reflexivity).
  assert (H5 : record_intact demo_cfg issued_record = true) by (vm_compute; reflexivity).
  assert (H6 : (T0 + 60000 <= expiryTime issued_record)%Z) by (vm_compute; discriminate).
  assert (H7 : "000000" <> otp issued_record) by (vm_compute; discriminate).
  assert (H8 : redis_get ("otp:" +:+ "+8801712345678") (T0 + 500000) issued_store
               = Some (JOtp issued_record)) by (vm_compute; reflexivity).
  assert (H9 : (T0 + 500000 <= expiryTime issued_record)%Z) by (vm_compute; discriminate).
  assert (H10 : OTP_PATTERN_test "000000" = true) by reflexivity.
  destruct (verifyOTP_wrong_code_no_reset demo_cfg "01712345678" "+8801712345678" "000000"
              issued_record issued_store (T0 + 60000) (T0 + 500000)
              H1 H2 H3 H4 H5 H6 H7 H8 H9) as (C1 & C2 & C3).
  exact (conj H1 (conj H2 (conj H3 (conj H4 (conj H5 (conj H6 (conj H7 (conj H8
           (conj H9 (conj C1 (conj (C2 H10) C3))))))))))).
Defined.

(** C5 (corrected), the counterexample.  Exactly two minutes after issue
    the record is present and unexpired and no more than two minutes have
    elapsed, yet [resendOTP] sends a new code instead of answering "too
    early": the wait check is [timeSinceGeneration < twoMinutes]. *)
Lemma resendOTP_boundary_counterexample :
  redis_get "otp:+8801712345678" (T0 + 120000) issued_store = Some (JOtp issued_record) /\
  (T0 + 120000 < expiryTime issued_record)%Z /\
  (T0 + 120000 - timestamp issued_record = 120000)%Z /\
  match fst (resendOTP sv_ok demo_cfg "01712345678" (T0 + 120000) issued_store) with
  | Ok (OtpSent _) => True
  | _ => False
  end.
Proof. vm_compute. repeat split. Qed.

(** C5 (corrected), amended.  For a phone with canonical form [n]: when the
    live value under [otp:n] is a record [d] with [now < expiryTime d] and
    less than 120000 ms elapsed since [timestamp d], [resendOTP] changes
    nothing and answers "too early" with [remainingTimeSeconds =
    (expiryTime d - now) / 1000] and [retryAfter = (120000 - elapsed) / 1000]
    seconds; otherwise (no record, [expiryTime d <= now], or at least
    120000 ms elapsed) [resendOTP] behaves exactly as [sendOTP n]. *)
Theorem resendOTP_eligibility (sv : services) (g : otp_config) (phone n : string)
    (r : redis) (now : Z) :
  validatePhoneNumber phone = Ok n ->
  (forall d : otp_data,
     redis_get ("otp:" +:+ n) now r = Some (JOtp d) ->
     (now < expiryTime d)%Z -> (now - timestamp d < 120000)%Z ->
     resendOTP sv g phone now r =
       (Ok (ResendTooEarly n ((expiryTime d - now) / 1000)
              ((120000 - (now - timestamp d)) # 1000)), r)) /\
  ((forall d : otp_data,
      redis_get ("otp:" +:+ n) now r = Some (JOtp d) ->
      (expiryTime d <= now)%Z \/ (120000 <= now - timestamp d)%Z) ->
   resendOTP sv g phone now r = sendOTP sv g n now r).
Proof.
  intros Hv. split.
  - intros d. by apply resend_too_early.
  - by apply resend_allowed.
Qed.

Lemma resendOTP_eligibility_witness :
  validatePhoneNumber "01712345678" = Ok "+8801712345678" /\
  resendOTP sv_ok demo_cfg "01712345678" (T0 + 60000) issued_store =
    (Ok (ResendTooEarly "+8801712345678" ((expiryTime issued_record - (T0 + 60000)) / 1000)
           ((120000 - (T0 + 60000 - timestamp issued_record)) # 1000)), issued_store) /\
  resendOTP sv_ok demo_cfg "01712345678" (T0 + 120000) issued_store =
    sendOTP sv_ok demo_cfg "+8801712345678" (T0 + 120000) issued_store.
Proof.
  assert (H1 : validatePhoneNumber "01712345678" = Ok "+8801712345678") by reflexivity.
  destruct (resendOTP_eligibility sv_ok demo_cfg "01712345678" "+8801712345678"
              issued_store (T0 + 60000) H1) as [A _].
  destruct (resendOTP_eligibility sv_ok demo_cfg "01712345678" "+8801712345678"
              issued_store (T0 + 120000) H1) as [_ B].
  assert (Hg1 : redis_get ("otp:" +:+ "+8801712345678") (T0 + 60000) issued_store
                = Some (JOtp issued_record)) by (vm_compute; reflexivity).
  assert (Hg2 : forall d, redis_get ("otp:" +:+ "+8801712345678") (T0 + 120000) issued_store
                = Some (JOtp d) -> (expiryTime d <= T0 + 120000)%Z \/
                                   (120000 <= T0 + 120000 - timestamp d)%Z).
  { intros d Hd.
    assert (E : redis_get ("otp:" +:+ "+8801712345678") (T0 + 120000) issued_store
                = Some (JOtp issued_record)) by (vm_compute; reflexivity).
    rewrite E in Hd. injection Hd as <-. right. vm_compute. discriminate. }
  assert (Hlt : (T0 + 60000 < expiryTime issued_record)%Z) by (vm_compute; reflexivity).
  assert (Hel : (T0 + 60000 - timestamp issued_record < 120000)%Z) by (vm_compute; reflexivity).
  exact (conj H1 (conj (A issued_record Hg1 Hlt Hel) (B Hg2))).
Defined.

(** C10 (confirmed).  [sendOTP] stores the new record under [otp:n] (with
    a TTL of [expiryMinutes] minutes) before it asks the SMS gateway; when
    the gateway reports failure the call throws, the stored record stays in
    Redis, and every [resendOTP] during the following two minutes (and
    before the record expires) answers "too early" without touching
    Redis. *)
Theorem sendOTP_sms_failure_keeps_record (sv : services) (g : otp_config)
    (phone n : string) (d : otp_data) (now : Z) (r : redis) :
  validatePhoneNumber phone = Ok n ->
  generateOTP g n None now = Ok d ->
  sms_success (sendSingleSMS sv n (sms_content d)) = false ->
  (0 < expiryMinutes g)%Z ->
  let r' := redis_set ("otp:" +:+ n) (JOtp d) (expiryMinutes g * 60) now r in
  sendOTP sv g phone now r =
    (Throw (handleOTPError (Error ("SMS sending failed: " +:+
                                    sms_message (sendSingleSMS sv n (sms_content d))))), r') /\
  redis_get ("otp:" +:+ n) now r' = Some (JOtp d) /\
  forall now' : Z,
    (now <= now' < now + 120000)%Z ->
    (now' < now + expiryMinutes g * 60 * 1000)%Z ->
    resendOTP sv g phone now' r' =
      (Ok (ResendTooEarly n ((expiryTime d - now') / 1000)
             ((120000 - (now' - now)) # 1000)), r').
Proof.
  intros Hv Hgen Hs Hm r'.
  destruct (generateOTP_fields _ _ _ _ Hgen) as (Ht & He & _).
  split; [by apply sendOTP_sms_failure|].
  split; [apply redis_get_set_live; lia|].
  intros now' Hw Hx. replace (now' - now)%Z with (now' - timestamp d)%Z by lia.
  apply resend_too_early; [exact Hv| |lia|lia].
  apply redis_get_set_live; lia.
Qed.

Lemma sendOTP_sms_failure_keeps_record_witness :
  validatePhoneNumber "01712345678" = Ok "+8801712345678" /\
  generateOTP demo_cfg "+8801712345678" None T0 = Ok issued_record /\
  sms_success (sendSingleSMS sv_fail "+8801712345678" (sms_content issued_record)) = false /\
  (0 < expiryMinutes demo_cfg)%Z /\
  sendOTP sv_fail demo_cfg "01712345678" T0 redis0 =
    (Throw (Error SMS_SERVICE_ERROR),
     redis_set ("otp:" +:+ "+8801712345678") (JOtp issued_record) (10 * 60) T0 redis0) /\
  resendOTP sv_fail demo_cfg "01712345678" (T0 + 30000)
    (redis_set ("otp:" +:+ "+8801712345678") (JOtp issued_record) (10 * 60) T0 redis0) =
    (Ok (ResendTooEarly "+8801712345678" ((expiryTime issued_record - (T0 + 30000)) / 1000)
           ((120000 - (T0 + 30000 - T0)) # 1000)),
     redis_set ("otp:" +:+ "+8801712345678") (JOtp issued_record) (10 * 60) T0 redis0).
Proof.
  assert (H1 : validatePhoneNumber "01712345678" = Ok "+8801712345678") by reflexivity.
  assert (H2 : generateOTP demo_cfg "+8801712345678" None T0 = Ok issued_record)
    by (vm_compute; reflexivity).
  assert (H3 : sms_success (sendSingleSMS sv_fail "+8801712345678" (sms_content issued_record))
               = false) by reflexivity.
  assert (H4 : (0 < expiryMinutes demo_cfg)%Z) by reflexivity.
  destruct (sendOTP_sms_failure_keeps_record sv_fail demo_cfg "01712345678" "+8801712345678"
              issued_record T0 redis0 H1 H2 H3 H4) as (A & _ & C).
  assert (Hw : (T0 <= T0 + 30000 < T0 + 120000)%Z) by lia.
  assert (Hx : (T0 + 30000 < T0 + expiryMinutes demo_cfg * 60 * 1000)%Z)
    by (unfold demo_cfg; simpl; lia).
  assert (Hmsg : handleOTPError (Error ("SMS sending failed: " +:+
            sms_message (sendSingleSMS sv_fail "+8801712345678" (sms_content issued_record))))
          = Error SMS_SERVICE_ERROR) by (vm_compute; reflexivity).
  rewrite Hmsg in A.
  exact (conj H1 (conj H2 (conj H3 (conj H4 (conj A (C (T0 + 30000)%Z Hw Hx)))))).
Defined.

(** C6 (code bug).  [generateOTP] computes [currentTime = timestamp ||
    Date.now()], so the accepted timestamp [0] is replaced by the clock.
    Timestamps [0] and [1] lie in window [0], yet with the clock at [T0]
    they give different codes for the same phone and secret. *)
Theorem generateOTP_zero_timestamp_breaks_window :
  (0 / TIME_WINDOW_MS = 1 / TIME_WINDOW_MS)%Z /\
  exists d0 d1 : otp_data,
    generateOTP demo_cfg "+8801712345678" (Some 0%Z) T0 = Ok d0 /\
    generateOTP demo_cfg "+8801712345678" (Some 1%Z) T0 = Ok d1 /\
    otp d0 = "594466" /\ otp d1 = "223864" /\ timestamp d0 = T0.
Proof.
  split; [reflexivity|].
  eexists; eexists. split; [vm_compute; reflexivity|].
  split; [vm_compute; reflexivity|]. vm_compute. repeat split.
Qed.

(** C2 (code bug).  Take a live, unused link stored under
    [login_link:<token>] whose token passes the integrity check.  The first
    [verifyLoginToken] marks it used and re-stores it as
    [JSON.stringify(linkData)], which [RedisClient.set] stringifies once
    more.  It then calls [customerService.getCustomerData], which
    customerService does not define: the TypeError is caught and the reply
    is VERIFICATION_ERROR.  A second call with the same token reads back a
    string, which has no [used], [expiryTime] or [email] property: it
    answers TOKEN_INTEGRITY_FAILED while the re-stored entry is live
    (15 minutes from the first call) and TOKEN_NOT_FOUND after that.  No
    call with any token ever answers a successful login, and
    TOKEN_ALREADY_USED is never the answer on this path. *)
Theorem verifyLoginToken_reuse_not_already_used (k token : string) (l : link_data)
    (now now' : Z) (r : redis) :
  String.eqb token "" = false ->
  redis_get (redisKeyPrefix +:+ token) now r = Some (JLink l) ->
  used l = false ->
  (now <= link_expiryTime l)%Z ->
  verifyTokenIntegrity k token (Some (link_email l)) = true ->
  let r' := redis_set (redisKeyPrefix +:+ token) (JText (link_json (used_link l now)))
              (linkExpiryMinutes * 60) now r in
  verifyLoginToken k customerService_getCustomerData token now r = (Ok VERIFICATION_ERROR, r') /\
  verifyLoginToken k customerService_getCustomerData token now' r' =
    (Ok (if (now' <? now + linkExpiryMinutes * 60 * 1000)%Z
         then TOKEN_INTEGRITY_FAILED else TOKEN_NOT_FOUND), r') /\
  (forall (t : string) (n : Z) (r0 : redis) (e : string) (c : snapshot) (p i : string),
     fst (verifyLoginToken k customerService_getCustomerData t n r0) <> Ok (LoginValid e c p i)).
Proof.
  intros Et Eg Hu Hexp Hint r'. split; [|split].
  - exact (verifyLoginToken_live_link_customerService k token l now r Et Eg Hu Hexp Hint).
  - apply verifyLoginToken_on_text; [exact Et|apply link_json_nonempty].
  - intros t n r0 e c p i. apply verifyLoginToken_customerService_never_valid.
Qed.

Lemma verifyLoginToken_reuse_not_already_used_witness :
  String.eqb demo_token "" = false /\
  redis_get (redisKeyPrefix +:+ demo_token) (T0 + 60000) link_store = Some (JLink demo_link) /\
  used demo_link = false /\
  (T0 + 60000 <= link_expiryTime demo_link)%Z /\
  verifyTokenIntegrity (secretKey demo_cfg) demo_token (Some (link_email demo_link)) = true /\
  verifyLoginToken (secretKey demo_cfg) customerService_getCustomerData demo_token
    (T0 + 60000) link_store = (Ok VERIFICATION_ERROR, after_first_login) /\
  verifyLoginToken (secretKey demo_cfg) customerService_getCustomerData demo_token
    (T0 + 61000) after_first_login = (Ok TOKEN_INTEGRITY_FAILED, after_first_login).
Proof.
  assert (H1 : String.eqb demo_token "" = false) by (vm_compute; reflexivity).
  assert (H2 : redis_get (redisKeyPrefix +:+ demo_token) (T0 + 60000) link_store
               = Some (JLink demo_link)) by (vm_compute; reflexivity).
  assert (H3 : used demo_link = false) by reflexivity.
  assert (H4 : (T0 + 60000 <= link_expiryTime demo_link)%Z) by (vm_compute; discriminate).
  assert (H5 : verifyTokenIntegrity (secretKey demo_cfg) demo_token (Some (link_email demo_link))
               = true) by (vm_compute; reflexivity).
  pose proof (verifyLoginToken_reuse_not_already_used (secretKey demo_cfg) demo_token demo_link
                (T0 + 60000) (T0 + 61000) link_store H1 H2 H3 H4 H5) as T.
  cbv zeta in T. destruct T as [C1 [C2 _]].
  assert (Ha : after_first_login =
               redis_set (redisKeyPrefix +:+ demo_token)
                 (JText (link_json (used_link demo_link (T0 + 60000))))
                 (linkExpiryMinutes * 60) (T0 + 60000) link_store)
    by (unfold after_first_login; rewrite C1; reflexivity).
  rewrite <- Ha in C1, C2.
  exact (conj H1 (conj H2 (conj H3 (conj H4 (conj H5 (conj C1 C2)))))).
Defined.

(** C7 (code bug).  When the value under [login_link:<token>] is an unused
    link whose [expiryTime] is in the past, [verifyLoginToken] reaches
    [await redisClient.del(redisKey)]; RedisClient has no [del] method (it
    has [delete], used by the OTP path), so a TypeError is thrown and
    caught: the reply is VERIFICATION_ERROR, not TOKEN_EXPIRED, and the
    record is not deleted. *)
Theorem verifyLoginToken_expired_not_deleted (k : string)
    (gcd : option string -> M (option customer_data)) (token : string)
    (l : link_data) (now : Z) (r : redis) :
  String.eqb token "" = false ->
  redis_get (redisKeyPrefix +:+ token) now r = Some (JLink l) ->
  used l = false ->
  (link_expiryTime l < now)%Z ->
  verifyLoginToken k gcd token now r = (Ok VERIFICATION_ERROR, r).
Proof.
  intros Et Eg Hu He. unfold verifyLoginToken, try_catch. rewrite Et.
  unfold bind, get_, ret. rewrite Eg. simpl. rewrite Hu.
  replace (now >? link_expiryTime l)%Z with true
    by (symmetry; rewrite Z.gtb_ltb; apply Z.ltb_lt; lia).
  reflexivity.
Qed.

Lemma verifyLoginToken_expired_not_deleted_witness :
  String.eqb demo_token "" = false /\
  redis_get (redisKeyPrefix +:+ demo_token) (T0 + 900001) late_link_store = Some (JLink late_link) /\
  used late_link = false /\
  (link_expiryTime late_link < T0 + 900001)%Z /\
  verifyLoginToken (secretKey demo_cfg) customerService_getCustomerData demo_token
    (T0 + 900001) late_link_store = (Ok VERIFICATION_ERROR, late_link_store).
Proof.
  assert (H1 : String.eqb demo_token "" = false) by (vm_compute; reflexivity).
  assert (H2 : redis_get (redisKeyPrefix +:+ demo_token) (T0 + 900001) late_link_store
               = Some (JLink late_link)) by (vm_compute; reflexivity).
  assert (H3 : used late_link = false) by reflexivity.
  assert (H4 : (link_expiryTime late_link < T0 + 900001)%Z) by (vm_compute; reflexivity).
  exact (conj H1 (conj H2 (conj H3 (conj H4
    (verifyLoginToken_expired_not_deleted (secretKey demo_cfg) customerService_getCustomerData
       demo_token late_link (T0 + 900001) late_link_store H1 H2 H3 H4))))).
Defined.

(** C8 (counterexample).  [PhoneValidator.validate] accepts the bare
    ten-digit mobile number "1712345678", a fourth form besides the
    national, country-code and international ones, and normalises it to
    "+8801712345678"; [validatePhoneNumber] of the OTP service rejects the
    country-code form "8801712345678". *)
Lemma phone_normalization_counterexample :
  PhoneValidator.isValid (PhoneValidator.validate "1712345678") = true /\
  PhoneValidator.normalizedNumber (PhoneValidator.validate "1712345678") = Some "+8801712345678" /\
  validatePhoneNumber "8801712345678" = Throw (Error INVALID_PHONE_FORMAT).
Proof. split; [|split]; vm_compute; reflexivity. Qed.

(** C8 (amended).  [PhoneValidator.validate phone] yields the normalised
    number [n] iff [n] is "+880" followed by a mobile number [m] (ten
    digits, the first one 1) and the trimmed input, of at most 20
    characters, with everything but digits and '+' removed and one leading
    '+' stripped, is "880"+m, "0"+m or m itself; it is valid exactly when
    it yields a normalised number, and it always carries a non-empty
    message.  [validatePhoneNumber phone] of the OTP service answers [Ok n]
    iff [phone] is "0"+m or "+880"+m with [m] a '1', an operator digit 3-9
    and eight digits, and [n] is "+880"+m; every other input is rejected. *)
Theorem phone_normalization_amended (phone n : string) :
  (PhoneValidator.normalizedNumber (PhoneValidator.validate phone) = Some n <->
     exists m, n = "+880" +:+ m /\ PhoneFacts.accepted_input phone m) /\
  (PhoneValidator.isValid (PhoneValidator.validate phone) = true <->
     is_Some (PhoneValidator.normalizedNumber (PhoneValidator.validate phone))) /\
  PhoneValidator.message (PhoneValidator.validate phone) <> "" /\
  (validatePhoneNumber phone = Ok n <->
     exists m, PhoneFacts.otp_mobile m = true /\
       (phone = "0" +:+ m \/ phone = "+880" +:+ m) /\ n = "+880" +:+ m).
Proof.
  destruct (PhoneFacts.validate_reply phone) as [Hv Hm].
  split; [apply PhoneFacts.validate_normalized_iff|].
  split; [exact Hv|]. split; [exact Hm|].
  apply PhoneFacts.validatePhoneNumber_iff.
Qed.

Lemma phone_normalization_amended_witness :
  validatePhoneNumber "01712345678" = Ok "+8801712345678" /\
  PhoneValidator.normalizedNumber (PhoneValidator.validate " +880 1712-345678 ")
    = Some "+8801712345678".
Proof.
  split.
  - apply (proj2 (proj2 (proj2 (phone_normalization_amended "01712345678" "+8801712345678")))).
    exists "1712345678". split; [vm_compute; reflexivity|].
    split; [left; reflexivity|reflexivity].
  - apply (proj1 (phone_normalization_amended " +880 1712-345678 " "+8801712345678")).
    exists "1712345678". split; [reflexivity|].
    split; [vm_compute; lia|].
    split; [vm_compute; reflexivity|left; vm_compute; reflexivity].
Defined.

(** C9 (counterexample).  [verifyOTP] reads the record with one Redis
    call and deletes it with another, so two requests for a freshly issued
    code whose reads both come before either delete (schedule a, b, a, b,
    a, b) are both accepted. *)
Lemma verifyOTP_concurrent_counterexample :
  run_schedule demo_cfg (T0 + 60000) [true; false; true; false; true; false]
    (VStart "01712345678" (otp issued_record)) (VStart "01712345678" (otp issued_record))
    issued_store =
  (VDone (Ok (prepareVerificationResponse "+8801712345678" None)),
   VDone (Ok (prepareVerificationResponse "+8801712345678" None)),
   redis_delete "otp:+8801712345678" issued_store).
Proof. vm_compute. reflexivity. Qed.

(** C9 (amended).  Consumption is not atomic.  Take a live, intact record
    of the phone's canonical number [n] and two concurrent [verifyOTP]
    requests [a] and [b] with the stored code, each run to completion
    (three steps: read, check and delete, customer lookup) under any
    schedule [s].  When each request reads Redis before the other deletes
    the record, both are accepted.  When one request deletes before the
    other reads ([2 <= lead x s]), that one is accepted and the other is
    answered "OTP not found or has expired".  Either way the record ends up
    deleted. *)
Theorem verifyOTP_concurrent_double_accept (g : otp_config) (phone n : string) (d : otp_data)
    (r : redis) (now : Z) (s : list bool) :
  validatePhoneNumber phone = Ok n ->
  redis_get ("otp:" +:+ n) now r = Some (JOtp d) ->
  phoneNumber d = n ->
  OTP_PATTERN_test (otp d) = true ->
  (now <= expiryTime d)%Z ->
  record_intact g d = true ->
  (3 <= steps_of true s)%nat -> (3 <= steps_of false s)%nat ->
  let ok := VDone (Ok (prepareVerificationResponse n (redis_get_customer ("customer:" +:+ n) r))) in
  let gone := VDone (Ok (mkVerifyReply false OTP_NOT_FOUND n false true None)) in
  run_schedule g now s (VStart phone (otp d)) (VStart phone (otp d)) r =
    (if (2 <=? lead true s)%nat then (ok, gone, redis_delete ("otp:" +:+ n) r)
     else if (2 <=? lead false s)%nat then (gone, ok, redis_delete ("otp:" +:+ n) r)
     else (ok, ok, redis_delete ("otp:" +:+ n) r)).
Proof.
  intros Hv Hg Hp Hc Hexp Hint Ha Hb ok gone.
  exact (run_schedule_same_code g phone n d now r Hv Hg Hp Hc Hexp Hint s Ha Hb).
Qed.

Lemma verifyOTP_concurrent_double_accept_witness :
  validatePhoneNumber "01712345678" = Ok "+8801712345678" /\
  redis_get ("otp:" +:+ "+8801712345678") (T0 + 60000) issued_store = Some (JOtp issued_record) /\
  phoneNumber issued_record = "+8801712345678" /\
  OTP_PATTERN_test (otp issued_record) = true /\
  (T0 + 60000 <= expiryTime issued_record)%Z /\
  record_intact demo_cfg issued_record = true /\
  (3 <= steps_of true [true; false; true; false; true; false])%nat /\
  (3 <= steps_of false [true; false; true; false; true; false])%nat /\
  run_schedule demo_cfg (T0 + 60000) [true; false; true; false; true; false]
    (VStart "01712345678" (otp issued_record)) (VStart "01712345678" (otp issued_record))
    issued_store =
    (VDone (Ok (prepareVerificationResponse "+8801712345678"
                  (redis_get_customer ("customer:" +:+ "+8801712345678") issued_store))),
     VDone (Ok (prepareVerificationResponse "+8801712345678"
                  (redis_get_customer ("customer:" +:+ "+8801712345678") issued_store))),
     redis_delete ("otp:" +:+ "+8801712345678") issued_store).
Proof.
  assert (H1 : validatePhoneNumber "01712345678" = Ok "+8801712345678") by reflexivity.
  assert (H2 : redis_get ("otp:" +:+ "+8801712345678") (T0 + 60000) issued_store
               = Some (JOtp issued_record)) by (vm_compute; reflexivity).
  assert (H3 : phoneNumber issued_record = "+8801712345678") by (vm_compute; reflexivity).
  assert (H4 : OTP_PATTERN_test (otp issued_record) = true) by (vm_compute; reflexivity).
  assert (H5 : (T0 + 60000 <= expiryTime issued_record)%Z) by (vm_compute; discriminate).
  assert (H6 : record_intact demo_cfg issued_record = true) by (vm_compute; reflexivity).
  assert (H7 : (3 <= steps_of true [true; false; true; false; true; false])%nat)
    by (simpl; lia).
  assert (H8 : (3 <= steps_of false [true; false; true; false; true; false])%nat)
    by (simpl; lia).
  exact (conj H1 (conj H2 (conj H3 (conj H4 (conj H5 (conj H6 (conj H7 (conj H8
    (verifyOTP_concurrent_double_accept demo_cfg "01712345678" "+8801712345678"
       issued_record issued_store (T0 + 60000) [true; false; true; false; true; false]
       H1 H2 H3 H4 H5 H6 H7 H8))))))))).
Defined.

(* ================================================================== *)
(** * Further properties of the code *)


Lemma digit_char_is_digit (n : Z) : is_digit (Js.digit_char (n mod 10)) = true.
Proof.
  assert (H : (0 <= n mod 10 < 10)%Z) by (apply Z.mod_pos_bound; lia).
  generalize dependent (n mod 10)%Z. intros m H.
  assert (m = 0 \/ m = 1 \/ m = 2 \/ m = 3 \/ m = 4 \/ m = 5 \/ m = 6 \/ m = 7 \/ m = 8 \/ m = 9)%Z
    as Hm by lia.
  repeat (destruct Hm as [->|Hm]; [reflexivity|]). subst m. reflexivity.
Qed.

Lemma dec_digits_shape (f : nat) : forall (n : Z) (acc : list Ascii.ascii) (k : nat),
  (0 <= n < 10 ^ Z.of_nat k)%Z -> (k <= f)%nat -> (1 <= k)%nat ->
  exists l, Js.dec_digits f n acc = (l ++ acc)%list /\ forallb is_digit l = true /\
            (1 <= length l <= k)%nat.
Proof.
  induction f as [|f IH]; intros n acc k Hn Hk H1; [lia|].
  simpl. destruct (n <? 10)%Z eqn:E.
  - exists [Js.digit_char (n mod 10)]. simpl. rewrite digit_char_is_digit. split; [done|]. split; [done|lia].
  - apply Z.ltb_ge in E.
    destruct k as [|k]; [lia|].
    assert (Hk1 : (1 <= k)%nat).
    { destruct k; [|lia]. simpl in Hn. lia. }
    destruct (IH (n / 10)%Z (Js.digit_char (n mod 10) :: acc) k) as (l & Hl & Hd & Hlen).
    + split; [apply Z.div_pos; lia|]. apply Z.div_lt_upper_bound; [lia|].
      rewrite Nat2Z.inj_succ, Z.pow_succ_r in Hn by lia. lia.
    + lia.
    + exact Hk1.
    + exists (l ++ [Js.digit_char (n mod 10)])%list. rewrite Hl, <- app_assoc. split; [done|].
      rewrite forallb_app, Hd, length_app. simpl. rewrite digit_char_is_digit. split; [done|lia].
Qed.

Lemma show_Z_small (n : Z) : (0 <= n < 10 ^ 6)%Z ->
  forallb is_digit (chars (Js.show_Z n)) = true /\ (1 <= String.length (Js.show_Z n) <= 6)%nat.
Proof.
  intros Hn. unfold Js.show_Z.
  replace (n <? 0)%Z with false by (symmetry; apply Z.ltb_ge; lia).
  destruct (dec_digits_shape 20 n [] 6) as (l & Hl & Hd & Hlen); [exact Hn|lia|lia|].
  rewrite Hl, app_nil_r, length_chars. unfold chars.
  rewrite String.list_ascii_of_string_of_list_ascii. done.
Qed.

Lemma padStart_six (s : string) :
  forallb is_digit (chars s) = true -> (String.length s <= 6)%nat ->
  OTP_PATTERN_test (Js.padStart0 s 6) = true.
Proof.
  intros Hd Hl. unfold OTP_PATTERN_test, Js.padStart0.
  fold (chars (String.string_of_list_ascii (repeat "0"%char (6 - String.length s)) +:+ s)).
  rewrite length_chars, chars_append. unfold chars at 1 3.
  rewrite String.list_ascii_of_string_of_list_ascii, length_app, repeat_length, forallb_app.
  fold (chars s). rewrite Hd, <- length_chars.
  replace (6 - String.length s + String.length s)%nat with 6%nat by lia.
  rewrite andb_true_r. apply andb_true_iff. split; [done|].
  apply forallb_forall. intros x Hx. apply repeat_spec in Hx. subst x. reflexivity.
Qed.

Lemma generated_code_pattern (x : Z) :
  OTP_PATTERN_test (Js.padStart0 (Js.show_Z (x mod 10 ^ Z.of_nat otpLength)) otpLength) = true.
Proof.
  destruct (show_Z_small (x mod 10 ^ Z.of_nat otpLength)) as [Hd Hl].
  { apply Z.mod_pos_bound. reflexivity. }
  apply padStart_six; [exact Hd|lia].
Qed.

Lemma generateOTP_ok_inv (g : otp_config) (phone : string) (ts : option Z) (now : Z) (d : otp_data) :
  generateOTP g phone ts now = Ok d ->
  exists x currentTime,
    d = mkOtpData (Js.padStart0 (Js.show_Z (x mod 10 ^ Z.of_nat otpLength)) otpLength)
          (Js.trim phone) currentTime (currentTime + expiryMinutes g * 60 * 1000)%Z
          (expiryMinutes g)
          (hmac_sha256_hex (secretKey g)
             (verification_data (Js.trim phone)
                (Js.padStart0 (Js.show_Z (x mod 10 ^ Z.of_nat otpLength)) otpLength)
                currentTime (currentTime + expiryMinutes g * 60 * 1000)%Z))
          true.
Proof.
  unfold generateOTP. intros H.
  destruct (String.eqb phone ""); [discriminate|].
  destruct (MAX_PHONE_LENGTH <? String.length phone)%nat; [discriminate|].
  destruct (match ts with Some t => (t <? 0)%Z | None => false end); [discriminate|].
  injection H as <-. do 2 eexists. reflexivity.
Qed.

(** X1. An OTP record returned by [generateOTP] always carries a code of
    exactly six decimal digits, which [validateOTP] accepts. *)
Theorem generateOTP_code_six_digits (g : otp_config) (phone : string) (ts : option Z)
    (now : Z) (d : otp_data) :
  generateOTP g phone ts now = Ok d ->
  OTP_PATTERN_test (otp d) = true /\ validateOTP (otp d) = Ok tt.
Proof.
  intros H. destruct (generateOTP_ok_inv _ _ _ _ _ H) as (x & t & ->). simpl.
  pose proof (generated_code_pattern x) as Hc. split; [exact Hc|]. by apply validateOTP_ok.
Qed.

Lemma generateOTP_code_six_digits_witness :
  generateOTP demo_cfg "+8801712345678" None T0 = Ok issued_record /\
  OTP_PATTERN_test (otp issued_record) = true /\ validateOTP (otp issued_record) = Ok tt.
Proof.
  assert (H : generateOTP demo_cfg "+8801712345678" None T0 = Ok issued_record)
    by (vm_compute; reflexivity).
  exact (conj H (generateOTP_code_six_digits demo_cfg "+8801712345678" None T0 issued_record H)).
Defined.

Lemma generateOTP_intact (g : otp_config) (phone : string) (ts : option Z) (now : Z) (d : otp_data) :
  generateOTP g phone ts now = Ok d -> record_intact g d = true.
Proof.
  intros H. destruct (generateOTP_ok_inv _ _ _ _ _ H) as (x & t & ->).
  unfold record_intact. apply String.eqb_refl.
Qed.

(** X2. The record [generateOTP] returns verifies with [otpGenerator.verifyOTP]
    for its own phone number and code: it is accepted until its expiry time
    and reported expired after it. *)
Theorem generateOTP_verify_roundtrip (g : otp_config) (phone : string) (ts : option Z)
    (now t : Z) (d : otp_data) :
  generateOTP g phone ts now = Ok d ->
  gen_verifyOTP g (phoneNumber d) (otp d) (Some (JOtp d)) t =
    if (t <=? expiryTime d)%Z then mkGenResult true MSG_OTP_VERIFIED false
    else mkGenResult false MSG_OTP_EXPIRED true.
Proof.
  intros H. pose proof (generateOTP_intact _ _ _ _ _ H) as Hi. unfold record_intact in Hi.
  unfold gen_verifyOTP. simpl.
  destruct (Z.leb_spec t (expiryTime d)).
  - replace (t >? expiryTime d)%Z with false by (symmetry; rewrite Z.gtb_ltb; apply Z.ltb_ge; lia).
    rewrite !String.eqb_refl, Hi. reflexivity.
  - replace (t >? expiryTime d)%Z with true by (symmetry; rewrite Z.gtb_ltb; apply Z.ltb_lt; lia).
    reflexivity.
Qed.

Lemma generateOTP_verify_roundtrip_witness :
  generateOTP demo_cfg "+8801712345678" None T0 = Ok issued_record /\
  gen_verifyOTP demo_cfg (phoneNumber issued_record) (otp issued_record)
    (Some (JOtp issued_record)) (T0 + 60000) =
    (if (T0 + 60000 <=? expiryTime issued_record)%Z then mkGenResult true MSG_OTP_VERIFIED false
     else mkGenResult false MSG_OTP_EXPIRED true).
Proof.
  assert (H : generateOTP demo_cfg "+8801712345678" None T0 = Ok issued_record)
    by (vm_compute; reflexivity).
  exact (conj H (generateOTP_verify_roundtrip demo_cfg "+8801712345678" None T0 (T0 + 60000)
                   issued_record H)).
Defined.

(** X3. [otpGenerator.verifyOTP] accepts exactly when a stored OTP record is
    present, not expired, bound to the phone, holds the given code and its
    verification hash matches. *)
Theorem gen_verifyOTP_valid_iff (g : otp_config) (phone input : string)
    (stored : option jvalue) (now : Z) :
  gr_isValid (gen_verifyOTP g phone input stored now) = true <->
  exists d, stored = Some (JOtp d) /\ (now <= expiryTime d)%Z /\ phoneNumber d = phone /\
            otp d = input /\ record_intact g d = true.
Proof.
  split.
  - unfold gen_verifyOTP. destruct stored as [v|]; [|discriminate].
    destruct (negb (truthy v)); [discriminate|].
    destruct v as [d|l|s].
    + destruct (now >? expiryTime d)%Z eqn:E1; [discriminate|].
      destruct (String.eqb_spec (phoneNumber d) phone); [|discriminate].
      destruct (String.eqb_spec (otp d) input); [|discriminate].
      unfold record_intact.
      destruct (String.eqb (hmac_sha256_hex _ _) (verificationHash d)) eqn:E2; [|discriminate].
      intros _. exists d. rewrite Z.gtb_ltb in E1. apply Z.ltb_ge in E1.
      repeat split; done.
    + destruct (now >? link_expiryTime l)%Z; discriminate.
    + discriminate.
  - intros (d & -> & Hexp & Hp & Hc & Hi). unfold gen_verifyOTP. simpl.
    replace (now >? expiryTime d)%Z with false by (symmetry; rewrite Z.gtb_ltb; apply Z.ltb_ge; lia).
    rewrite Hp, Hc, !String.eqb_refl. unfold record_intact in Hi. rewrite <- Hp, <- Hc, Hi.
    reflexivity.
Qed.

Lemma verify_seg1_frame (phone code : string) (now : Z) (r : redis) :
  snd (verify_seg1 phone code now r) = r /\
  forall n s, fst (verify_seg1 phone code now r) = Ok (n, s) -> validatePhoneNumber phone = Ok n.
Proof.
  unfold verify_seg1, bind, lift, ret, throw, get_.
  destruct (validatePhoneNumber phone) as [n|e]; [|split; [done|discriminate]].
  destruct (validateOTP code) as [[]|e]; [|split; [done|discriminate]].
  destruct (generateRedisKey n) as [k|e]; [|split; [done|discriminate]].
  split; [done|]. intros n' s H. injection H as <- _. reflexivity.
Qed.

(** X4. [OTPService.verifyOTP] either leaves the store unchanged or deletes
    only the OTP key of the validated phone, and in that case replies with
    the success response built from that phone's customer record. *)
Theorem verifyOTP_only_deletes_own_key (g : otp_config) (phone code : string) (now : Z)
    (r : redis) :
  snd (verifyOTP g phone code now r) = r \/
  exists n, validatePhoneNumber phone = Ok n /\
    snd (verifyOTP g phone code now r) = redis_delete ("otp:" +:+ n) r /\
    fst (verifyOTP g phone code now r) =
      Ok (prepareVerificationResponse n (redis_get_customer ("customer:" +:+ n) r)).
Proof.
  destruct (verify_seg1_frame phone code now r) as [Hr1 Hn].
  unfold verifyOTP, try_catch, bind.
  destruct (verify_seg1 phone code now r) as [[[n s]|e] r1] eqn:E1; simpl in Hr1; subst r1;
    [|left; reflexivity].
  specialize (Hn n s eq_refl).
  pose proof (validated_keys _ _ Hn) as [Hk Hck].
  unfold verify_seg2.
  destruct (match s with Some v => negb (truthy v) | None => true end); [left; reflexivity|].
  destruct (negb (gr_isValid (gen_verifyOTP g n code s now))); [left; reflexivity|].
  unfold bind, lift, delete_, ret. rewrite Hk. cbv beta iota.
  unfold verify_seg3, bind, lift, ret. rewrite Hck. cbv beta iota.
  right. exists n. split; [exact Hn|]. split; reflexivity.
Qed.

(** X5. [OTPService.sendOTP] either leaves the store unchanged or writes only
    the OTP key of the validated phone, with the freshly generated record and
    a TTL of [expiryMinutes * 60] seconds. *)
Theorem sendOTP_only_writes_own_key (sv : services) (g : otp_config) (phone : string)
    (now : Z) (r : redis) :
  snd (sendOTP sv g phone now r) = r \/
  exists n d, validatePhoneNumber phone = Ok n /\ generateOTP g n None now = Ok d /\
    snd (sendOTP sv g phone now r) = redis_set ("otp:" +:+ n) (JOtp d) (expiryMinutes g * 60) now r.
Proof.
  destruct (validatePhoneNumber phone) as [n|e] eqn:Hv;
    [|left; unfold sendOTP, try_catch, bind, lift, throw; rewrite Hv; reflexivity].
  pose proof (validated_keys _ _ Hv) as [Hk _].
  destruct (generateOTP g n None now) as [d|e] eqn:Hg;
    [|left; unfold sendOTP, try_catch, bind, lift, throw, ret; rewrite Hv; cbv beta iota;
      rewrite Hg; reflexivity].
  destruct (generateOTP_fields _ _ _ _ Hg) as (_ & _ & Hm).
  right. exists n, d. split; [done|]. split; [done|].
  unfold sendOTP, try_catch, bind, lift, throw. rewrite Hv. unfold ret at 1. cbv beta iota.
  rewrite Hg. unfold storeOTPInRedis, bind, lift, set_, ret. rewrite Hk. cbv beta iota.
  unfold sendOTPSMS, ret, throw. rewrite Hm.
  destruct (sms_success (sendSingleSMS sv n (sms_content d))); reflexivity.
Qed.

(** X6. Every successful reply of [OTPService.sendOTP] reports
    [customerExists = false] and [needsSignup = true] for the validated phone. *)
Theorem sendOTP_reply_needs_signup (sv : services) (g : otp_config) (phone : string)
    (now : Z) (r : redis) (reply : otp_reply) :
  fst (sendOTP sv g phone now r) = Ok reply ->
  exists n, validatePhoneNumber phone = Ok n /\
    reply = OtpSent (mkOtpResponse n false true (expiryMinutes g * 60)
                       "OTP sent successfully. Customer needs to sign up."
                       (cc_error (shopify_checkCustomerExists sv n))).
Proof.
  destruct (validatePhoneNumber phone) as [n|e] eqn:Hv;
    [|unfold sendOTP, try_catch, bind, lift, throw; rewrite Hv; discriminate].
  pose proof (validated_keys _ _ Hv) as [Hk _].
  destruct (generateOTP g n None now) as [d|e] eqn:Hg;
    [|unfold sendOTP, try_catch, bind, lift, throw, ret; rewrite Hv; cbv beta iota;
      rewrite Hg; discriminate].
  destruct (generateOTP_fields _ _ _ _ Hg) as (_ & _ & Hm).
  unfold sendOTP, try_catch, bind, lift, throw. rewrite Hv. unfold ret at 1. cbv beta iota.
  rewrite Hg. unfold storeOTPInRedis, bind, lift, set_, ret. rewrite Hk. cbv beta iota.
  unfold sendOTPSMS, ret, throw.
  destruct (sms_success (sendSingleSMS sv n (sms_content d))); [|discriminate].
  simpl. intros H. injection H as <-. exists n. split; [done|].
  unfold prepareOTPResponse, shopify_checkCustomerExists. rewrite Hm.
  destruct (shopify_configured sv); reflexivity.
Qed.

Lemma sendOTP_reply_needs_signup_witness :
  fst (sendOTP sv_ok demo_cfg "01712345678" T0 redis0) =
    Ok (OtpSent (prepareOTPResponse "+8801712345678"
                   (shopify_checkCustomerExists sv_ok "+8801712345678") issued_record)) /\
  exists n, validatePhoneNumber "01712345678" = Ok n /\
    OtpSent (prepareOTPResponse "+8801712345678"
               (shopify_checkCustomerExists sv_ok "+8801712345678") issued_record) =
    OtpSent (mkOtpResponse n false true (expiryMinutes demo_cfg * 60)
               "OTP sent successfully. Customer needs to sign up."
               (cc_error (shopify_checkCustomerExists sv_ok n))).
Proof.
  assert (H : fst (sendOTP sv_ok demo_cfg "01712345678" T0 redis0) =
    Ok (OtpSent (prepareOTPResponse "+8801712345678"
                   (shopify_checkCustomerExists sv_ok "+8801712345678") issued_record)))
    by (vm_compute; reflexivity).
  exact (conj H (sendOTP_reply_needs_signup sv_ok demo_cfg "01712345678" T0 redis0 _ H)).
Defined.

Lemma opt_prefix_test_mono (b1 b2 : list Ascii.ascii -> bool) (l : list Ascii.ascii) :
  (forall l', b1 l' = true -> b2 l' = true) ->
  PhoneValidator.opt_prefix_test b1 l = true -> PhoneValidator.opt_prefix_test b2 l = true.
Proof.
  intros Hb. unfold PhoneValidator.opt_prefix_test. rewrite !existsb_exists.
  intros (p & Hp & Hx). exists p. split; [exact Hp|].
  apply andb_true_iff in Hx as [H1 H2]. rewrite H1, (Hb _ H2). reflexivity.
Qed.

Lemma three_test_mono (f1 f2 : list string) (t1 t2 : Ascii.ascii -> bool) (l : list Ascii.ascii) :
  (forall x, In x f1 -> In x f2) -> (forall a, t1 a = true -> t2 a = true) ->
  PhoneValidator.three_test f1 t1 l = true -> PhoneValidator.three_test f2 t2 l = true.
Proof.
  intros Hf Ht. unfold PhoneValidator.three_test.
  destruct l as [|a [|b [|c l]]]; try discriminate.
  intros H. apply andb_true_iff in H as [H1 H2]. apply existsb_exists in H1 as (x & Hx & Hs).
  rewrite (Ht _ H2), andb_true_r. apply existsb_exists. exists x. split; [by apply Hf|exact Hs].
Qed.

Lemma digit_0_8_digit (a : Ascii.ascii) : PhoneValidator.digit_0_8 a = true -> is_digit a = true.
Proof.
  unfold PhoneValidator.digit_0_8, is_digit. intros H.
  apply andb_true_iff in H as [H1 H2]. apply Nat.leb_le in H1, H2.
  apply andb_true_iff; split; apply Nat.leb_le; lia.
Qed.

(** X7. [PhoneValidator.detectOperator] only ever answers grameenphone,
    banglalink or unknown: the robi, airtel and teletalk patterns are covered
    by the grameenphone one, which is tested first. *)
Theorem detectOperator_range (phoneNumber : string) :
  In (PhoneValidator.detectOperator phoneNumber) ["grameenphone"; "banglalink"; "unknown"].
Proof.
  unfold PhoneValidator.detectOperator.
  destruct (String.eqb phoneNumber ""); [simpl; tauto|].
  set (l := chars (PhoneValidator.replace_first "+880" "0" phoneNumber)).
  destruct (PhoneValidator.GRAMEENPHONE l) eqn:Eg; [simpl; tauto|].
  assert (Hsub : forall f t, (forall x, In x f -> In x ["17"; "13"; "15"; "16"; "18"; "19"]) ->
            (forall a, t a = true -> is_digit a = true) ->
            PhoneValidator.opt_prefix_test (PhoneValidator.three_test f t) l = false).
  { intros f t Hf Ht. destruct (PhoneValidator.opt_prefix_test _ l) eqn:E; [|reflexivity].
    rewrite <- Eg. symmetry. unfold PhoneValidator.GRAMEENPHONE.
    apply (opt_prefix_test_mono _ _ _ (fun l' => three_test_mono _ _ _ _ l' Hf Ht) E). }
  unfold PhoneValidator.ROBI, PhoneValidator.AIRTEL, PhoneValidator.TELETALK.
  rewrite (Hsub ["18"] PhoneValidator.digit_0_8); [| simpl; tauto | exact digit_0_8_digit].
  destruct (PhoneValidator.BANGLALINK l); [simpl; tauto|].
  rewrite (Hsub ["16"; "13"] is_digit); [| simpl; tauto | done].
  rewrite (Hsub ["15"] is_digit); [| simpl; tauto | done].
  simpl; tauto.
Qed.

Lemma cleanup_id (s : string) :
  forallb (fun a => is_digit a || Ascii.eqb a "+"%char) (chars s) = true ->
  PhoneValidator.cleanup s = s.
Proof.
  intros H. unfold PhoneValidator.cleanup. fold (chars s).
  assert (Hf : filter (fun a => is_digit a || Ascii.eqb a "+"%char) (chars s) = chars s).
  { revert H. generalize (chars s) as l. intros l.
    induction l as [|a l IH]; intros H; [reflexivity|].
    cbn [forallb] in H. apply andb_true_iff in H as [Ha Hl]. rewrite filter_cons_True by (rewrite Ha; exact I). f_equal. by apply IH. }
  rewrite Hf. apply String.string_of_list_ascii_of_string.
Qed.

Lemma otp_mobile_is_mobile (m : string) :
  PhoneFacts.otp_mobile m = true ->
  PhoneFacts.is_mobile m = true /\ forallb is_digit (chars m) = true.
Proof.
  destruct m as [|a rest]; [discriminate|]. simpl.
  intros H. apply andb_true_iff in H as [Ha Hs]. apply Ascii.eqb_eq in Ha. subst a.
  apply subscriber_ok_shape in Hs as [Hd Hl].
  unfold PhoneFacts.is_mobile. simpl. rewrite length_chars, Hl, Hd, PhoneFacts.prefix_nil.
  split; reflexivity.
Qed.

Lemma digits_cleanup_ok (l : list Ascii.ascii) :
  forallb is_digit l = true -> forallb (fun a => is_digit a || Ascii.eqb a "+"%char) l = true.
Proof.
  induction l as [|a l IH]; simpl; [done|].
  intros H. apply andb_true_iff in H as [H1 H2]. rewrite H1, IH; done.
Qed.

Lemma validatePhoneNumber_pattern (phone n : string) :
  validatePhoneNumber phone = Ok n -> PHONE_PATTERN_test phone = true.
Proof.
  unfold validatePhoneNumber. destruct (String.eqb phone ""); [discriminate|].
  destruct (PHONE_PATTERN_test phone); [done|discriminate].
Qed.

(** X8. A number accepted by [OTPService.validatePhoneNumber] is accepted by
    [PhoneValidator.validate] too, with the same normalized number. *)
Theorem validatePhoneNumber_agrees_with_PhoneValidator (phone n : string) :
  validatePhoneNumber phone = Ok n ->
  PhoneValidator.normalizedNumber (PhoneValidator.validate phone) = Some n /\
  PhoneValidator.isValid (PhoneValidator.validate phone) = true.
Proof.
  intros H.
  destruct (PHONE_PATTERN_shape _ (validatePhoneNumber_pattern _ _ H)) as (Hw & Hl & _).
  apply PhoneFacts.validatePhoneNumber_iff in H as (m & Hm & Hp & ->).
  destruct (otp_mobile_is_mobile m Hm) as [Hmob Hd].
  assert (Hn : PhoneValidator.normalizedNumber (PhoneValidator.validate phone) = Some ("+880" +:+ m)).
  { apply PhoneFacts.validate_normalized_iff. exists m. split; [reflexivity|].
    unfold PhoneFacts.accepted_input. rewrite trim_id by exact Hw.
    split; [rewrite length_chars; unfold PhoneValidator.MAX_INPUT_LENGTH; lia|].
    split; [exact Hmob|].
    destruct Hp as [-> | ->]; rewrite cleanup_id.
    - right; left. reflexivity.
    - rewrite chars_append. simpl. apply digits_cleanup_ok. exact Hd.
    - left. reflexivity.
    - rewrite chars_append. simpl. apply digits_cleanup_ok. exact Hd. }
  split; [exact Hn|]. apply (proj1 (PhoneFacts.validate_reply phone)). rewrite Hn. done.
Qed.

Lemma validatePhoneNumber_agrees_with_PhoneValidator_witness :
  validatePhoneNumber "01712345678" = Ok "+8801712345678" /\
  PhoneValidator.normalizedNumber (PhoneValidator.validate "01712345678") = Some "+8801712345678" /\
  PhoneValidator.isValid (PhoneValidator.validate "01712345678") = true.
Proof.
  assert (H : validatePhoneNumber "01712345678" = Ok "+8801712345678") by reflexivity.
  exact (conj H (validatePhoneNumber_agrees_with_PhoneValidator _ _ H)).
Defined.


Lemma filter_keep_id (l : list Ascii.ascii) :
  forallb cleanup_keep l = true ->
  filter (fun a => Is_true (is_digit a || Ascii.eqb a "+"%char)) l = l.
Proof.
  induction l as [|a l IH]; intros H; [reflexivity|].
  cbn [forallb] in H. apply andb_true_iff in H as [Ha Hl].
  rewrite filter_cons_True by (unfold cleanup_keep in Ha; rewrite Ha; exact I).
  f_equal. by apply IH.
Qed.

Lemma digit_keep (l : list Ascii.ascii) : forallb is_digit l = true -> forallb cleanup_keep l = true.
Proof.
  induction l as [|a l IH]; cbn [forallb]; [done|].
  intros H. apply andb_true_iff in H as [H1 H2]. rewrite IH by exact H2.
  unfold cleanup_keep. rewrite H1. reflexivity.
Qed.

Lemma drop_ws_head (a : Ascii.ascii) (l : list Ascii.ascii) :
  not_ws a = true -> Js.drop_ws (a :: l) = a :: l.
Proof. unfold not_ws. simpl. by destruct (Js.is_ws a). Qed.

(** X9. For a number normalized by [PhoneValidator.validate],
    [formatForDisplay] gives a 17-character display form, which [validate]
    maps back to the same normalized number. *)
Theorem formatForDisplay_revalidates (phone n : string) :
  PhoneValidator.normalizedNumber (PhoneValidator.validate phone) = Some n ->
  String.length (PhoneValidator.formatForDisplay n) = 17%nat /\
  PhoneValidator.normalizedNumber (PhoneValidator.validate (PhoneValidator.formatForDisplay n)) = Some n.
Proof.
  intros H. apply PhoneFacts.validate_normalized_iff in H as (m & -> & _ & Hm & _).
  pose proof Hm as Hm'.
  apply PhoneFacts.is_mobile_inv in Hm' as (t & -> & Ht).
  unfold PhoneFacts.is_mobile in Hm. apply andb_true_iff in Hm as [_ Hd].
  destruct t as [|c1 [|c2 [|c3 [|c4 [|c5 [|c6 [|c7 [|c8 [|c9 [|c10 t]]]]]]]]]];
    simpl in Ht; try discriminate Ht.
  unfold chars in Hd. simpl String.list_ascii_of_string in Hd. cbn [forallb] in Hd. rewrite !andb_true_iff in Hd.
  destruct Hd as (_ & D1 & D2 & D3 & D4 & D5 & D6 & D7 & D8 & D9 & _).
  split; [reflexivity|].
  apply PhoneFacts.validate_normalized_iff.
  eexists. split; [reflexivity|].
  unfold PhoneFacts.accepted_input.
  match goal with |- context [Js.trim (PhoneValidator.formatForDisplay ?x)] =>
    assert (Hc : chars (PhoneValidator.formatForDisplay x) =
              (["+"; "8"; "8"; "0"]%char ++ [" "%char] ++ ["1"%char; c1; c2; c3] ++ [" "%char] ++
               [c4; c5; c6] ++ [" "%char] ++ [c7; c8; c9])%list) by reflexivity;
    assert (Htrim : Js.trim (PhoneValidator.formatForDisplay x) = PhoneValidator.formatForDisplay x) end.
  { unfold Js.trim. fold (chars (PhoneValidator.formatForDisplay
      ("+880" +:+ "1" +:+ String.String c1 (String.String c2 (String.String c3 (String.String c4
        (String.String c5 (String.String c6 (String.String c7 (String.String c8
          (String.String c9 ""))))))))))).
    rewrite Hc. cbn [app]. rewrite drop_ws_head by reflexivity.
    cbn [rev app]. rewrite drop_ws_head by (apply digit_not_ws; exact D9).
    cbn [rev app]. rewrite <- (String.string_of_list_ascii_of_string (PhoneValidator.formatForDisplay _)).
    fold (chars (PhoneValidator.formatForDisplay
      ("+880" +:+ "1" +:+ String.String c1 (String.String c2 (String.String c3 (String.String c4
        (String.String c5 (String.String c6 (String.String c7 (String.String c8
          (String.String c9 ""))))))))))).
    rewrite Hc. reflexivity. }
  rewrite Htrim. split; [simpl; unfold PhoneValidator.MAX_INPUT_LENGTH; lia|].
  split.
  { unfold PhoneFacts.is_mobile. unfold chars. simpl String.list_ascii_of_string. cbn [forallb].
    rewrite D1, D2, D3, D4, D5, D6, D7, D8, D9. reflexivity. }
  left. unfold PhoneValidator.cleanup. fold (chars (PhoneValidator.formatForDisplay
    ("+880" +:+ "1" +:+ String.String c1 (String.String c2 (String.String c3 (String.String c4
      (String.String c5 (String.String c6 (String.String c7 (String.String c8
        (String.String c9 ""))))))))))).
  rewrite Hc, !filter_app.
  assert (Hsp : filter (fun a => Is_true (is_digit a || Ascii.eqb a "+"%char)) [" "%char] = [])
    by reflexivity.
  rewrite !Hsp.
  rewrite !filter_keep_id by (cbn [forallb]; unfold cleanup_keep;
    rewrite ?D1, ?D2, ?D3, ?D4, ?D5, ?D6, ?D7, ?D8, ?D9; reflexivity).
  reflexivity.
Qed.

Lemma formatForDisplay_revalidates_witness :
  PhoneValidator.normalizedNumber (PhoneValidator.validate "01712345678") = Some "+8801712345678" /\
  String.length (PhoneValidator.formatForDisplay "+8801712345678") = 17%nat /\
  PhoneValidator.normalizedNumber
    (PhoneValidator.validate (PhoneValidator.formatForDisplay "+8801712345678")) =
    Some "+8801712345678".
Proof.
  assert (H : PhoneValidator.normalizedNumber (PhoneValidator.validate "01712345678") =
              Some "+8801712345678") by (vm_compute; reflexivity).
  exact (conj H (formatForDisplay_revalidates _ _ H)).
Defined.



Lemma enc_char_dec (v : Z) : (0 <= v < 64)%Z ->
  Buf.dec_value (Buf.enc_char v) = Some v /\ Ascii.eqb (Buf.enc_char v) "="%char = false.
Proof.
  intros Hv. rewrite <- (Z2Nat.id v) by lia.
  assert (Hk : (Z.to_nat v < 64)%nat) by lia. generalize dependent (Z.to_nat v). intros k Hk.
  do 64 (destruct k as [|k]; [split; reflexivity|]). lia.
Qed.

Lemma lor_shiftl_add (a b k : Z) : (0 <= k)%Z -> (0 <= b < 2 ^ k)%Z ->
  Z.lor (Z.shiftl a k) b = (a * 2 ^ k + b)%Z.
Proof.
  intros Hk Hb. rewrite Z.shiftl_mul_pow2 by exact Hk.
  apply Z.bits_inj'. intros i Hi. rewrite Z.lor_spec.
  destruct (Z.lt_ge_cases i k) as [Hlt|Hge].
  - rewrite Z.mul_pow2_bits_low by lia.
    rewrite <- (Z.mod_pow2_bits_low (a * 2 ^ k + b) k i) by lia.
    rewrite (Z.add_comm (a * 2 ^ k) b), Z.mod_add by (apply Z.pow_nonzero; lia).
    rewrite Z.mod_small by exact Hb. reflexivity.
  - rewrite Z.mul_pow2_bits by lia.
    replace (Z.testbit b i) with false.
    + rewrite orb_false_r.
      replace i with ((i - k) + k)%Z at 2 by lia.
      rewrite <- Z.div_pow2_bits by lia.
      rewrite Z.div_add_l by (apply Z.pow_nonzero; lia).
      rewrite Z.div_small by exact Hb. rewrite Z.add_0_r. reflexivity.
    + symmetry. rewrite <- (Z.mod_small b (2 ^ k)) by exact Hb.
      apply Z.mod_pow2_bits_high. lia.
Qed.

Lemma land_63 (x : Z) : Z.land x 63 = (x mod 64)%Z.
Proof. change 63%Z with (Z.ones 6). rewrite Z.land_ones by lia. reflexivity. Qed.

Lemma land_255 (x : Z) : Z.land x 255 = (x mod 256)%Z.
Proof. change 255%Z with (Z.ones 8). rewrite Z.land_ones by lia. reflexivity. Qed.

Lemma shiftr_div (x k : Z) : (0 <= k)%Z -> Z.shiftr x k = (x / 2 ^ k)%Z.
Proof. intros Hk. apply Z.shiftr_div_pow2. exact Hk. Qed.

Lemma sextets_enc (v : Z) (l : list Ascii.ascii) : (0 <= v < 64)%Z ->
  Buf.sextets (Buf.enc_char v :: l) = v :: Buf.sextets l.
Proof.
  intros Hv. destruct (enc_char_dec v Hv) as [H1 H2]. simpl. rewrite H2, H1. reflexivity.
Qed.

Lemma b64_group3 (b1 b2 b3 : Z) (rest : list Z) :
  (0 <= b1 < 256)%Z -> (0 <= b2 < 256)%Z -> (0 <= b3 < 256)%Z ->
  Buf.bytes_of_sextets (Buf.sextets (Buf.encode_bytes (b1 :: b2 :: b3 :: rest))) =
  b1 :: b2 :: b3 :: Buf.bytes_of_sextets (Buf.sextets (Buf.encode_bytes rest)).
Proof.
  intros H1 H2 H3. cbn [Buf.encode_bytes].
  rewrite (lor_shiftl_add b2 b3 8), (lor_shiftl_add b1 (b2 * 2 ^ 8 + b3) 16) by lia.
  set (n := (b1 * 2 ^ 16 + (b2 * 2 ^ 8 + b3))%Z).
  assert (Hn : (0 <= n < 2 ^ 24)%Z) by (subst n; lia).
  rewrite !land_63, !shiftr_div by lia.
  rewrite !sextets_enc
    by (first [split; [apply Z.div_pos; lia|apply Z.div_lt_upper_bound; lia]
              |apply Z.mod_pos_bound; lia]).
  cbn [Buf.bytes_of_sextets].
  assert (B4 : (0 <= n mod 64 < 2 ^ 6)%Z) by (apply Z.mod_pos_bound; lia).
  assert (B3 : (0 <= (n / 2 ^ 6) mod 64 < 64)%Z) by (apply Z.mod_pos_bound; lia).
  assert (B2 : (0 <= (n / 2 ^ 12) mod 64 < 64)%Z) by (apply Z.mod_pos_bound; lia).
  rewrite (lor_shiftl_add ((n / 2 ^ 6) mod 64) (n mod 64) 6) by lia.
  rewrite (lor_shiftl_add ((n / 2 ^ 12) mod 64) ((n / 2 ^ 6) mod 64 * 2 ^ 6 + n mod 64) 12) by lia.
  rewrite (lor_shiftl_add (n / 2 ^ 18)) by lia.
  assert (Hm : (n / 2 ^ 18 * 2 ^ 18 + ((n / 2 ^ 12) mod 64 * 2 ^ 12 +
                ((n / 2 ^ 6) mod 64 * 2 ^ 6 + n mod 64)) = n)%Z).
  { assert (E1 : (n / 2 ^ 6 / 64 = n / 2 ^ 12)%Z)
      by (rewrite Z.div_div by lia; reflexivity).
    assert (E2 : (n / 2 ^ 12 / 64 = n / 2 ^ 18)%Z)
      by (rewrite Z.div_div by lia; reflexivity).
    pose proof (Z.div_mod n 64 ltac:(lia)) as D1.
    pose proof (Z.div_mod (n / 2 ^ 6) 64 ltac:(lia)) as D2.
    pose proof (Z.div_mod (n / 2 ^ 12) 64 ltac:(lia)) as D3.
    change (2 ^ 6)%Z with 64%Z in *. rewrite E1 in D2. rewrite E2 in D3.
    change (2 ^ 12)%Z with 4096%Z in *. change (2 ^ 18)%Z with 262144%Z in *. lia. }
  rewrite Hm, !shiftr_div, !land_255 by lia.
  subst n. f_equal; [|f_equal; [|f_equal]]; Z.div_mod_to_equations; lia.
Qed.

Lemma b64_group2 (b1 b2 : Z) :
  (0 <= b1 < 256)%Z -> (0 <= b2 < 256)%Z ->
  Buf.bytes_of_sextets (Buf.sextets (Buf.encode_bytes [b1; b2])) = [b1; b2].
Proof.
  intros H1 H2. cbn [Buf.encode_bytes].
  rewrite (Z.shiftl_mul_pow2 b2 8) by lia.
  rewrite (lor_shiftl_add b1 (b2 * 2 ^ 8) 16) by lia.
  set (n := (b1 * 2 ^ 16 + b2 * 2 ^ 8)%Z).
  assert (Hn : (0 <= n < 2 ^ 24)%Z) by (subst n; lia).
  rewrite !land_63, !shiftr_div by lia.
  rewrite !sextets_enc
    by (first [split; [apply Z.div_pos; lia|apply Z.div_lt_upper_bound; lia]
              |apply Z.mod_pos_bound; lia]).
  cbn [Buf.sextets Buf.bytes_of_sextets].
  assert (B3 : (0 <= (n / 2 ^ 6) mod 64 < 64)%Z) by (apply Z.mod_pos_bound; lia).
  assert (B2 : (0 <= (n / 2 ^ 12) mod 64 < 64)%Z) by (apply Z.mod_pos_bound; lia).
  rewrite (Z.shiftl_mul_pow2 ((n / 2 ^ 6) mod 64) 6) by lia.
  rewrite (lor_shiftl_add ((n / 2 ^ 12) mod 64) ((n / 2 ^ 6) mod 64 * 2 ^ 6) 12) by lia.
  rewrite (lor_shiftl_add (n / 2 ^ 18)) by lia.
  assert (Hm : (n / 2 ^ 18 * 2 ^ 18 + ((n / 2 ^ 12) mod 64 * 2 ^ 12 +
                (n / 2 ^ 6) mod 64 * 2 ^ 6) = n)%Z).
  { assert (E1 : (n / 2 ^ 6 / 64 = n / 2 ^ 12)%Z)
      by (rewrite Z.div_div by lia; reflexivity).
    assert (E2 : (n / 2 ^ 12 / 64 = n / 2 ^ 18)%Z)
      by (rewrite Z.div_div by lia; reflexivity).
    assert (E0 : (n mod 64 = 0)%Z).
    { subst n. change (2 ^ 16)%Z with (1024 * 64)%Z. change (2 ^ 8)%Z with (4 * 64)%Z.
      rewrite Z.mul_assoc, Z.mul_assoc, <- Z.mul_add_distr_r. apply Z.mod_mul. lia. }
    pose proof (Z.div_mod n 64 ltac:(lia)) as D1.
    pose proof (Z.div_mod (n / 2 ^ 6) 64 ltac:(lia)) as D2.
    pose proof (Z.div_mod (n / 2 ^ 12) 64 ltac:(lia)) as D3.
    change (2 ^ 6)%Z with 64%Z in *. rewrite E1 in D2. rewrite E2 in D3.
    change (2 ^ 12)%Z with 4096%Z in *. change (2 ^ 18)%Z with 262144%Z in *. lia. }
  rewrite Hm, !shiftr_div, !land_255 by lia.
  subst n. f_equal; [|f_equal]; Z.div_mod_to_equations; lia.
Qed.

Lemma b64_group1 (b1 : Z) :
  (0 <= b1 < 256)%Z ->
  Buf.bytes_of_sextets (Buf.sextets (Buf.encode_bytes [b1])) = [b1].
Proof.
  intros H1. cbn [Buf.encode_bytes].
  rewrite (Z.shiftl_mul_pow2 b1 16) by lia.
  set (n := (b1 * 2 ^ 16)%Z).
  assert (Hn : (0 <= n < 2 ^ 24)%Z) by (subst n; lia).
  rewrite !land_63, !shiftr_div by lia.
  rewrite !sextets_enc
    by (first [split; [apply Z.div_pos; lia|apply Z.div_lt_upper_bound; lia]
              |apply Z.mod_pos_bound; lia]).
  cbn [Buf.sextets Buf.bytes_of_sextets].
  assert (B2 : (0 <= (n / 2 ^ 12) mod 64 < 64)%Z) by (apply Z.mod_pos_bound; lia).
  rewrite (Z.shiftl_mul_pow2 ((n / 2 ^ 12) mod 64) 12) by lia.
  rewrite (lor_shiftl_add (n / 2 ^ 18)) by lia.
  rewrite !shiftr_div by lia.
  subst n. f_equal. Z.div_mod_to_equations. lia.
Qed.

Lemma b64_roundtrip (bs : list Z) :
  Forall (fun b => 0 <= b < 256)%Z bs ->
  Buf.bytes_of_sextets (Buf.sextets (Buf.encode_bytes bs)) = bs.
Proof.
  intros H. remember (length bs) as k eqn:Hk. assert (Hle : (length bs <= k)%nat) by lia.
  clear Hk. revert bs H Hle. induction k as [k IH] using lt_wf_ind. intros bs H Hle.
  destruct bs as [|b1 [|b2 [|b3 rest]]].
  - reflexivity.
  - apply Forall_cons in H as [H1 _]. by apply b64_group1.
  - apply Forall_cons in H as [H1 H]. apply Forall_cons in H as [H2 _]. by apply b64_group2.
  - apply Forall_cons in H as [H1 H]. apply Forall_cons in H as [H2 H].
    apply Forall_cons in H as [H3 H].
    rewrite b64_group3 by assumption. simpl in Hle.
    rewrite (IH (length rest)); [reflexivity|lia|exact H|lia].
Qed.

Lemma bytes_of_string_range (s : string) : Forall (fun b => 0 <= b < 256)%Z (bytes_of_string s).
Proof.
  unfold bytes_of_string. apply List.Forall_forall. intros b Hb.
  apply in_map_iff in Hb as (a & <- & _).
  pose proof (Ascii.N_ascii_bounded a). lia.
Qed.

Lemma to_text_bytes (s : string) : Buf.to_text (bytes_of_string s) = s.
Proof.
  unfold Buf.to_text, bytes_of_string. rewrite map_map.
  rewrite (map_ext_in _ (fun a => a)).
  - rewrite map_id. apply String.string_of_list_ascii_of_string.
  - intros a _. rewrite N2Z.id. apply Ascii.ascii_N_embedding.
Qed.

Lemma base64url_roundtrip (s : string) : Buf.to_text (Buf.from_base64url (Buf.to_base64url s)) = s.
Proof.
  unfold Buf.from_base64url, Buf.to_base64url.
  rewrite String.list_ascii_of_string_of_list_ascii, b64_roundtrip by apply bytes_of_string_range.
  apply to_text_bytes.
Qed.


Lemma split_colon_aux_app (l r cur : list Ascii.ascii) :
  forallb (fun a => negb (Ascii.eqb a ":"%char)) l = true ->
  split_colon_aux (l ++ r) cur = split_colon_aux r (rev l ++ cur).
Proof.
  revert cur. induction l as [|a l IH]; intros cur H; [reflexivity|].
  cbn [forallb] in H. apply andb_true_iff in H as [Ha Hl]. apply negb_true_iff in Ha.
  cbn [app split_colon_aux]. rewrite Ha, IH by exact Hl. simpl. rewrite <- app_assoc. reflexivity.
Qed.

Lemma split_colon_four (a b c d : string) :
  no_colon a = true -> no_colon b = true -> no_colon c = true -> no_colon d = true ->
  split_colon (a +:+ ":" +:+ b +:+ ":" +:+ c +:+ ":" +:+ d) = [a; b; c; d].
Proof.
  unfold split_colon, no_colon. intros Ha Hb Hc Hd.
  fold (chars (a +:+ ":" +:+ b +:+ ":" +:+ c +:+ ":" +:+ d)). rewrite !chars_append.
  rewrite split_colon_aux_app by exact Ha. cbn [chars String.list_ascii_of_string app].
  cbn [split_colon_aux Ascii.eqb Bool.eqb]. rewrite app_nil_r, rev_involutive.
  rewrite split_colon_aux_app by exact Hb. cbn [split_colon_aux Ascii.eqb Bool.eqb].
  rewrite app_nil_r, rev_involutive.
  rewrite split_colon_aux_app by exact Hc. cbn [split_colon_aux Ascii.eqb Bool.eqb].
  rewrite app_nil_r, rev_involutive.
  rewrite <- (app_nil_r (chars d)), split_colon_aux_app by exact Hd.
  cbn [split_colon_aux]. rewrite app_nil_r, rev_involutive.
  unfold chars. rewrite !String.string_of_list_ascii_of_string. reflexivity.
Qed.

Lemma digit_char_not_colon (n : Z) : Ascii.eqb (Js.digit_char (n mod 10)) ":"%char = false.
Proof.
  assert (H : (0 <= n mod 10 < 10)%Z) by (apply Z.mod_pos_bound; lia).
  generalize dependent (n mod 10)%Z. intros m H.
  assert (m = 0 \/ m = 1 \/ m = 2 \/ m = 3 \/ m = 4 \/ m = 5 \/ m = 6 \/ m = 7 \/ m = 8 \/ m = 9)%Z
    as Hm by lia.
  repeat (destruct Hm as [->|Hm]; [reflexivity|]). subst m. reflexivity.
Qed.

Lemma dec_digits_no_colon (f : nat) : forall (n : Z) (acc : list Ascii.ascii),
  forallb (fun a => negb (Ascii.eqb a ":"%char)) acc = true ->
  forallb (fun a => negb (Ascii.eqb a ":"%char)) (Js.dec_digits f n acc) = true.
Proof.
  induction f as [|f IH]; intros n acc H; [exact H|].
  cbn [Js.dec_digits]. destruct (n <? 10)%Z.
  - cbn [forallb]. rewrite digit_char_not_colon, H. reflexivity.
  - apply IH. cbn [forallb]. rewrite digit_char_not_colon, H. reflexivity.
Qed.

Lemma show_Z_no_colon (n : Z) : no_colon (Js.show_Z n) = true.
Proof.
  unfold no_colon, Js.show_Z, chars. destruct (n <? 0)%Z.
  - cbn [String.list_ascii_of_string forallb].
    rewrite String.list_ascii_of_string_of_list_ascii, dec_digits_no_colon by reflexivity.
    reflexivity.
  - rewrite String.list_ascii_of_string_of_list_ascii. apply dec_digits_no_colon. reflexivity.
Qed.

Lemma be_bytes_range (n : nat) : forall v : Z,
  Forall (fun b => 0 <= b < 256)%Z (Sha256.be_bytes n v).
Proof.
  induction n as [|n IH]; intros v; cbn [Sha256.be_bytes]; [constructor|].
  apply Forall_app. split; [apply IH|]. constructor; [|constructor].
  rewrite land_255. apply Z.mod_pos_bound. lia.
Qed.

Lemma hmac_range (key msg : list Z) : Forall (fun b => 0 <= b < 256)%Z (Sha256.hmac key msg).
Proof.
  unfold Sha256.hmac, Sha256.digest. apply List.Forall_forall. intros b Hb.
  apply in_flat_map in Hb as (w & _ & Hw).
  exact (proj1 (List.Forall_forall _ _) (be_bytes_range 4 w) b Hw).
Qed.

Lemma hex_char_not_colon (x : Z) : (0 <= x < 16)%Z -> Ascii.eqb (hex_char x) ":"%char = false.
Proof.
  intros Hx. rewrite <- (Z2Nat.id x) by lia.
  assert (Hk : (Z.to_nat x < 16)%nat) by lia. generalize dependent (Z.to_nat x). intros k Hk.
  do 16 (destruct k as [|k]; [reflexivity|]). lia.
Qed.

Lemma hex_of_bytes_no_colon (bs : list Z) :
  Forall (fun b => 0 <= b < 256)%Z bs -> no_colon (hex_of_bytes bs) = true.
Proof.
  unfold no_colon, hex_of_bytes, chars. rewrite String.list_ascii_of_string_of_list_ascii.
  induction bs as [|b bs IH]; intros H; [reflexivity|].
  apply Forall_cons in H as [Hb H]. cbn [flat_map app forallb].
  assert (Hhi : (0 <= Z.shiftr b 4 < 16)%Z).
  { rewrite shiftr_div by lia. split; [apply Z.div_pos; lia|apply Z.div_lt_upper_bound; lia]. }
  assert (Hlo : (0 <= Z.land b 15 < 16)%Z).
  { change 15%Z with (Z.ones 4). rewrite Z.land_ones by lia. apply Z.mod_pos_bound. lia. }
  rewrite (hex_char_not_colon _ Hhi), (hex_char_not_colon _ Hlo), IH by exact H.
  reflexivity.
Qed.

Lemma hmac_hex_no_colon (k m : string) : no_colon (hmac_sha256_hex k m) = true.
Proof. unfold hmac_sha256_hex. apply hex_of_bytes_no_colon, hmac_range. Qed.

Lemma timingSafeEqual_refl (a : list Z) : Buf.timingSafeEqual a a = Ok true.
Proof.
  unfold Buf.timingSafeEqual. rewrite Nat.eqb_refl. by rewrite bool_decide_eq_true_2.
Qed.

Lemma str_app_assoc (a b c : string) : (a +:+ b) +:+ c = a +:+ (b +:+ c).
Proof.
  rewrite <- (String.string_of_list_ascii_of_string ((a +:+ b) +:+ c)),
    <- (String.string_of_list_ascii_of_string (a +:+ (b +:+ c))).
  fold (chars ((a +:+ b) +:+ c)) (chars (a +:+ (b +:+ c))).
  rewrite !chars_append, app_assoc. reflexivity.
Qed.

Lemma login_token_integrity (secret email randomHex : string) (ts : Z) (e : string) :
  no_colon email = true -> no_colon randomHex = true ->
  verifyTokenIntegrity secret (generateLoginToken secret email ts randomHex) (Some e) =
    String.eqb email e.
Proof.
  intros He Hr. unfold verifyTokenIntegrity, generateLoginToken.
  rewrite base64url_roundtrip.
  replace ((email +:+ ":" +:+ Js.show_Z ts +:+ ":" +:+ randomHex) +:+ ":" +:+
           hmac_sha256_hex secret (email +:+ ":" +:+ Js.show_Z ts +:+ ":" +:+ randomHex))
    with (email +:+ ":" +:+ Js.show_Z ts +:+ ":" +:+ randomHex +:+ ":" +:+
          hmac_sha256_hex secret (email +:+ ":" +:+ Js.show_Z ts +:+ ":" +:+ randomHex))
    by (rewrite !str_app_assoc; reflexivity).
  rewrite split_colon_four by (apply show_Z_no_colon || apply hmac_hex_no_colon || assumption).
  destruct (String.eqb email e); [|reflexivity]. simpl negb. cbv iota.
  rewrite timingSafeEqual_refl. reflexivity.
Qed.

(** X10. A token made by [generateLoginToken] for an email and a random part
    free of [:] passes [verifyTokenIntegrity] against an email exactly when
    that email is the one the token was made for. *)
Theorem generateLoginToken_integrity_roundtrip (secret email randomHex : string) (ts : Z)
    (e : string) :
  no_colon email = true -> no_colon randomHex = true ->
  verifyTokenIntegrity secret (generateLoginToken secret email ts randomHex) (Some e) =
    String.eqb email e.
Proof. exact (login_token_integrity secret email randomHex ts e). Qed.

Lemma generateLoginToken_integrity_roundtrip_witness :
  no_colon demo_email = true /\ no_colon demo_random = true /\
  verifyTokenIntegrity (secretKey demo_cfg)
    (generateLoginToken (secretKey demo_cfg) demo_email T0 demo_random) (Some "other@example.com") =
    String.eqb demo_email "other@example.com".
Proof.
  assert (H1 : no_colon demo_email = true) by (vm_compute; reflexivity).
  assert (H2 : no_colon demo_random = true) by (vm_compute; reflexivity).
  exact (conj H1 (conj H2 (generateLoginToken_integrity_roundtrip (secretKey demo_cfg)
                              demo_email demo_random T0 "other@example.com" H1 H2))).
Defined.

Lemma to_base64url_nonempty (s : string) : s <> "" -> String.eqb (Buf.to_base64url s) "" = false.
Proof.
  intros Hs. destruct s as [|a s]; [done|]. unfold Buf.to_base64url, bytes_of_string.
  cbn [String.list_ascii_of_string map].
  destruct (map _ (String.list_ascii_of_string s)) as [|b2 [|b3 l]]; reflexivity.
Qed.

Lemma append_colon_nonempty (a b : string) : a +:+ ":" +:+ b <> "".
Proof. destruct a; discriminate. Qed.

Lemma generateLoginToken_nonempty (k email : string) (ts : Z) (rh : string) :
  String.eqb (generateLoginToken k email ts rh) "" = false.
Proof. unfold generateLoginToken. apply to_base64url_nonempty, append_colon_nonempty. Qed.

(** X11. A login link stored by [storeLoginLink] for a token made by
    [generateLoginToken] (email and random part free of [:]) passes every
    check of [verifyLoginToken] while it is live: the link is re-stored as
    used, with one attempt and [usedAt] the time of the call.  The call to
    [customerService.getCustomerData] that follows throws (customerService
    has no such method), so the reply is VERIFICATION_ERROR. *)
Theorem login_link_store_then_verify (k email rh : string) (ts : Z) (cust : snapshot)
    (t_exp t_created t_set now : Z) (r : redis) :
  no_colon email = true -> no_colon rh = true ->
  (now <= t_exp + linkExpiryMinutes * 60 * 1000)%Z ->
  (now < t_set + linkExpiryMinutes * 60 * 1000)%Z ->
  let token := generateLoginToken k email ts rh in
  let r1 := snd (storeLoginLink token email cust t_exp t_created t_set r) in
  verifyLoginToken k customerService_getCustomerData token now r1 =
    (Ok VERIFICATION_ERROR,
     redis_set (redisKeyPrefix +:+ token)
       (JText (link_json (mkLinkData email cust t_created
                            (t_exp + linkExpiryMinutes * 60 * 1000) true 1 (Some now))))
       (linkExpiryMinutes * 60) now r1).
Proof.
  intros He Hr Hexp Hlive.
  pose proof (generateLoginToken_nonempty k email ts rh) as Hne.
  pose proof (login_token_integrity k email rh ts email He Hr) as Hint.
  rewrite String.eqb_refl in Hint.
  cbv zeta. set (token := generateLoginToken k email ts rh) in *.
  assert (Hg : redis_get (redisKeyPrefix +:+ token) now
                 (snd (storeLoginLink token email cust t_exp t_created t_set r)) =
               Some (JLink (mkLinkData email cust t_created
                              (t_exp + linkExpiryMinutes * 60 * 1000) false 0 None))).
  { unfold storeLoginLink, bind, set_, ret. simpl snd.
    apply redis_get_set_live; [reflexivity|]. unfold linkExpiryMinutes in *. lia. }
  set (r1 := snd (storeLoginLink token email cust t_exp t_created t_set r)) in *.
  exact (verifyLoginToken_live_link_customerService k token _ now r1 Hne Hg eq_refl Hexp Hint).
Qed.

Lemma login_link_store_then_verify_witness :
  no_colon demo_email = true /\ no_colon demo_random = true /\
  (T0 + 60000 <= T0 + linkExpiryMinutes * 60 * 1000)%Z /\
  (T0 + 60000 < T0 + linkExpiryMinutes * 60 * 1000)%Z /\
  let token := generateLoginToken (secretKey demo_cfg) demo_email T0 demo_random in
  let r1 := snd (storeLoginLink token demo_email demo_customer T0 T0 T0 redis_cust) in
  verifyLoginToken (secretKey demo_cfg) customerService_getCustomerData token (T0 + 60000)%Z r1 =
    (Ok VERIFICATION_ERROR,
     redis_set (redisKeyPrefix +:+ token)
       (JText (link_json (mkLinkData demo_email demo_customer T0
                            (T0 + linkExpiryMinutes * 60 * 1000)%Z true 1 (Some (T0 + 60000)%Z))))
       (linkExpiryMinutes * 60)%Z (T0 + 60000)%Z r1).
Proof.
  assert (H1 : no_colon demo_email = true) by (vm_compute; reflexivity).
  assert (H2 : no_colon demo_random = true) by (vm_compute; reflexivity).
  assert (H3 : (T0 + 60000 <= T0 + linkExpiryMinutes * 60 * 1000)%Z) by (vm_compute; discriminate).
  assert (H4 : (T0 + 60000 < T0 + linkExpiryMinutes * 60 * 1000)%Z) by (vm_compute; reflexivity).
  exact (conj H1 (conj H2 (conj H3 (conj H4
    (login_link_store_then_verify (secretKey demo_cfg) demo_email demo_random T0 demo_customer
       T0 T0 T0 (T0 + 60000) redis_cust H1 H2 H3 H4))))).
Defined.


Lemma split_colon_aux_length (l cur : list Ascii.ascii) :
  length (split_colon_aux l cur) = S (colons l).
Proof.
  revert cur. induction l as [|a l IH]; intros cur; [reflexivity|].
  unfold colons; simpl. destruct (Ascii.eqb_spec a ":"%char) as [->|Hn].
  - simpl. rewrite IH. destruct (Ascii.ascii_dec ":" ":"); [reflexivity|congruence].
  - rewrite IH. destruct (Ascii.ascii_dec a ":"); [congruence|reflexivity].
Qed.

Lemma no_colon_false (s : string) : no_colon s = false -> (1 <= colons (chars s))%nat.
Proof.
  unfold no_colon, colons. induction (chars s) as [|a l IH]; simpl; [discriminate|].
  destruct (Ascii.eqb_spec a ":"%char) as [->|Hn]; simpl.
  - intros _. destruct (Ascii.ascii_dec ":" ":"); [lia|congruence].
  - intros H. destruct (Ascii.ascii_dec a ":"); [congruence|auto].
Qed.

(** X12. When the email contains [:], the token [generateLoginToken] makes
    for it never passes [verifyTokenIntegrity]: the decoded token splits into
    more than four parts. *)
Theorem colon_email_token_never_verifies (secret email randomHex : string) (ts : Z)
    (e : option string) :
  no_colon email = false ->
  verifyTokenIntegrity secret (generateLoginToken secret email ts randomHex) e = false.
Proof.
  intros Hc. unfold verifyTokenIntegrity, generateLoginToken.
  rewrite base64url_roundtrip.
  set (T := (email +:+ ":" +:+ Js.show_Z ts +:+ ":" +:+ randomHex) +:+ ":" +:+
            hmac_sha256_hex secret (email +:+ ":" +:+ Js.show_Z ts +:+ ":" +:+ randomHex)).
  assert (Hlen : (5 <= length (split_colon T))%nat).
  { unfold split_colon. rewrite split_colon_aux_length. fold (chars T). unfold T.
    rewrite !chars_append. unfold colons. rewrite !count_occ_app.
    pose proof (no_colon_false email Hc) as H1. unfold colons in H1.
    assert (Hk : chars ":" = [":"%char]) by reflexivity. rewrite Hk. simpl.
    destruct (Ascii.ascii_dec ":" ":"); [lia|congruence]. }
  destruct (split_colon T) as [|a [|b [|c [|d [|f l]]]]]; simpl in Hlen; try lia; reflexivity.
Qed.

Lemma colon_email_token_never_verifies_witness :
  no_colon "rahim:x@example.com" = false /\
  verifyTokenIntegrity (secretKey demo_cfg)
    (generateLoginToken (secretKey demo_cfg) "rahim:x@example.com" T0 demo_random)
    (Some "rahim:x@example.com") = false.
Proof.
  assert (H : no_colon "rahim:x@example.com" = false) by (vm_compute; reflexivity).
  exact (conj H (colon_email_token_never_verifies (secretKey demo_cfg) "rahim:x@example.com"
                   demo_random T0 (Some "rahim:x@example.com") H)).
Defined.

Lemma randomInt_lt rnd k n : (0 < n)%nat -> (RandomPassword.randomInt rnd k 0 n < n)%nat.
Proof. intros Hn. unfold RandomPassword.randomInt. rewrite Nat.sub_0_r. simpl. apply Nat.mod_upper_bound. lia. Qed.

Lemma get_in (s : string) (i : nat) :
  (i < String.length s)%nat -> exists c, String.get i s = Some c /\ In c (chars s).
Proof.
  revert i. induction s as [|a s IH]; intros i Hi; simpl in Hi; [lia|].
  destruct i as [|i].
  - exists a. split; [reflexivity|left; reflexivity].
  - destruct (IH i ltac:(lia)) as (c & Hc & Hin). exists c. split; [exact Hc|right; exact Hin].
Qed.

Lemma js_index_in (s : string) (i : nat) :
  (i < String.length s)%nat -> exists c, chars (RandomPassword.js_index s i) = [c] /\ In c (chars s).
Proof.
  intros Hi. destruct (get_in s i Hi) as (c & Hc & Hin). exists c.
  unfold RandomPassword.js_index. rewrite Hc. split; [reflexivity|exact Hin].
Qed.

Lemma shuffle_loop_perm rnd k i array : fst (RandomPassword.shuffle_loop rnd k i array) ≡ₚ array.
Proof.
  revert k array. induction i as [|i IH]; intros k array; [reflexivity|].
  cbn [RandomPassword.shuffle_loop]. rewrite IH.
  set (j := RandomPassword.randomInt rnd k 0 (S i + 1)).
  destruct (array !! S i) as [ai|] eqn:Hi; [|reflexivity].
  destruct (array !! j) as [aj|] eqn:Hj; [|reflexivity].
  apply Permutation_insert_swap; assumption.
Qed.

Lemma shuffle_perm rnd k s : chars (fst (RandomPassword._shuffleString rnd k s)) ≡ₚ chars s.
Proof.
  unfold RandomPassword._shuffleString.
  pose proof (shuffle_loop_perm rnd k (length (chars s) - 1) (chars s)) as H.
  destruct (RandomPassword.shuffle_loop _ _ _ _) as [a k']. simpl in *.
  unfold chars. rewrite String.list_ascii_of_string_of_list_ascii. exact H.
Qed.

Lemma pick_each_chars rnd k css pw :
  Forall (fun cs => 0 < String.length cs)%nat css ->
  exists l, chars (fst (RandomPassword.pick_each rnd k css pw)) = (chars pw ++ l)%list /\
            Forall2 (fun c cs => In c (chars cs)) l css.
Proof.
  revert k pw. induction css as [|cs css IH]; intros k pw Hpos.
  - exists []. simpl. rewrite app_nil_r. split; [reflexivity|constructor].
  - inversion Hpos as [|? ? Hcs Hrest]; subst.
    destruct (js_index_in cs (RandomPassword.randomInt rnd k 0 (String.length cs)) (randomInt_lt rnd k _ Hcs))
      as (c & Hc & Hin).
    destruct (IH (S k) (pw +:+ RandomPassword.js_index cs (RandomPassword.randomInt rnd k 0 (String.length cs))) Hrest)
      as (l & Hl & Hf).
    exists (c :: l). simpl. rewrite Hl, chars_append, Hc, <- app_assoc.
    split; [reflexivity|constructor; assumption].
Qed.

Lemma fill_chars rnd k n pw :
  exists l, chars (fst (RandomPassword.fill rnd k n pw)) = (chars pw ++ l)%list /\ length l = n /\
            Forall (fun c => In c (chars RandomPassword.allChars)) l.
Proof.
  revert k pw. induction n as [|n IH]; intros k pw.
  - exists []. simpl. rewrite app_nil_r. split; [reflexivity|split; [reflexivity|constructor]].
  - assert (Hpos : (0 < String.length RandomPassword.allChars)%nat) by (vm_compute; lia).
    destruct (js_index_in RandomPassword.allChars (RandomPassword.randomInt rnd k 0 (String.length RandomPassword.allChars))
                (randomInt_lt rnd k _ Hpos)) as (c & Hc & Hin).
    destruct (IH (S k) (pw +:+ RandomPassword.js_index RandomPassword.allChars (RandomPassword.randomInt rnd k 0 (String.length RandomPassword.allChars))))
      as (l & Hl & Hlen & Hf).
    exists (c :: l). cbn [RandomPassword.fill]. rewrite Hl, chars_append, Hc, <- app_assoc.
    split; [reflexivity|split; [simpl; lia|constructor; assumption]].
Qed.

Lemma validLength_range (length : Q) : (8 <= RandomPassword.validLength length <= 128)%nat.
Proof.
  unfold RandomPassword.validLength.
  destruct ((Qnum length mod Zpos (Qden length) =? 0)%Z) eqn:H1; [|simpl; unfold RandomPassword.PASSWORD_LENGTH; lia].
  destruct (Qle_bool 8 length) eqn:H2; [|simpl; unfold RandomPassword.PASSWORD_LENGTH; lia].
  destruct (Qle_bool length (Z.of_nat RandomPassword.MAX_PASSWORD_LENGTH # 1)) eqn:H3;
    [|simpl; unfold RandomPassword.PASSWORD_LENGTH; lia].
  simpl. apply Qle_bool_iff in H2, H3. destruct length as [n d].
  unfold Qle in H2, H3. simpl in *.
  assert (8 <= n / Z.pos d <= 128)%Z.
  { unfold RandomPassword.MAX_PASSWORD_LENGTH in H3; simpl in H3.
    split; [apply Z.div_le_lower_bound|apply Z.div_le_upper_bound]; lia. }
  lia.
Qed.

Lemma allChars_charsets (c : Ascii.ascii) (cs : string) :
  In cs RandomPassword.charsets -> In c (chars cs) -> In c (chars RandomPassword.allChars).
Proof.
  intros Hcs Hc. assert (Ha : chars RandomPassword.allChars = (chars RandomPassword.lowercase ++ chars RandomPassword.uppercase ++
                                  chars RandomPassword.numbers ++ chars RandomPassword.symbols)%list) by reflexivity.
  rewrite Ha. simpl in Hcs.
  destruct Hcs as [<-|[<-|[<-|[<-|[]]]]]; rewrite !in_app_iff; tauto.
Qed.

Lemma Forall2_in_r {A B} (P : A -> B -> Prop) (l : list A) (k : list B) (y : B) :
  Forall2 P l k -> In y k -> exists x, In x l /\ P x y.
Proof.
  induction 1 as [|x y' l k Hxy Hf IH]; intros Hy; [destruct Hy|].
  destruct Hy as [<-|Hy]; [exists x; split; [left|]; auto|].
  destruct (IH Hy) as (x' & ? & ?). exists x'. split; [right|]; auto.
Qed.

Lemma Forall2_in_l {A B} (P : A -> B -> Prop) (l : list A) (k : list B) (x : A) :
  Forall2 P l k -> In x l -> exists y, In y k /\ P x y.
Proof.
  induction 1 as [|x' y l k Hxy Hf IH]; intros Hx; [destruct Hx|].
  destruct Hx as [<-|Hx]; [exists y; split; [left|]; auto|].
  destruct (IH Hx) as (y' & ? & ?). exists y'. split; [right|]; auto.
Qed.

(** X13. [generateRandomPassword] returns a password of [validLength length]
    characters, between 8 and 128, with at least one lowercase letter, one
    uppercase letter, one digit and one symbol, and only characters of
    [allChars], whatever values [crypto.randomInt] draws. *)
Theorem generateRandomPassword_policy rnd k (length : Q) :
  let password := fst (RandomPassword.generateRandomPassword rnd k length) in
  String.length password = RandomPassword.validLength length /\
  (8 <= String.length password <= 128)%nat /\
  Forall (fun cs => exists c, In c (chars password) /\ In c (chars cs)) RandomPassword.charsets /\
  Forall (fun c => In c (chars RandomPassword.allChars)) (chars password).
Proof.
  cbv zeta. unfold RandomPassword.generateRandomPassword.
  assert (Hpos : Forall (fun cs => 0 < String.length cs)%nat RandomPassword.charsets)
    by (repeat constructor; vm_compute; lia).
  destruct (pick_each_chars rnd k RandomPassword.charsets "" Hpos) as (l1 & Hl1 & Hf1).
  destruct (RandomPassword.pick_each rnd k RandomPassword.charsets "") as [pw k1]. simpl in Hl1.
  destruct (fill_chars rnd k1 (RandomPassword.validLength length - String.length pw) pw) as (l2 & Hl2 & Hlen2 & Hf2).
  destruct (RandomPassword.fill rnd k1 _ pw) as [pw' k2]. simpl in Hl2.
  pose proof (shuffle_perm rnd k2 pw') as Hp.
  pose proof (validLength_range length) as Hr.
  assert (Hlen1 : List.length l1 = 4%nat) by (apply Forall2_length in Hf1; exact Hf1).
  assert (Hpw : String.length pw = 4%nat) by (rewrite length_chars, Hl1; exact Hlen1).
  assert (Hlen : String.length (fst (RandomPassword._shuffleString rnd k2 pw')) = RandomPassword.validLength length).
  { rewrite length_chars, (Permutation_length Hp), Hl2, length_app, Hlen2, <- length_chars. lia. }
  split; [exact Hlen|split; [rewrite Hlen; exact Hr|split]].
  - apply List.Forall_forall. intros cs Hcs.
    destruct (Forall2_in_r _ _ _ _ Hf1 Hcs) as (c & Hc & Hin).
    exists c. split; [|exact Hin].
    apply (Permutation_in _ (Permutation_sym Hp)). rewrite Hl2, Hl1.
    simpl. apply in_or_app. left. exact Hc.
  - apply List.Forall_forall. intros c Hc.
    apply (Permutation_in _ Hp) in Hc. rewrite Hl2, Hl1 in Hc.
    simpl in Hc. apply in_app_or in Hc as [Hc|Hc].
    + destruct (Forall2_in_l _ _ _ _ Hf1 Hc) as (cs & Hcs & Hin).
      exact (allChars_charsets c cs Hcs Hin).
    + exact (proj1 (List.Forall_forall _ _) Hf2 c Hc).
Qed.

(** X14. [_shuffleString] returns a rearrangement of the characters of its
    input, whatever values [crypto.randomInt] draws. *)
Theorem shuffleString_permutation (rnd : nat -> nat -> nat) (k : nat) (str : string) :
  chars (fst (RandomPassword._shuffleString rnd k str)) ≡ₚ chars str.
Proof. exact (shuffle_perm rnd k str). Qed.

(** X15. Decoding the base64url text that [generateLoginToken] produces, as
    [verifyTokenIntegrity] does, gives back the encoded string. *)
Theorem base64url_text_roundtrip (s : string) :
  Buf.to_text (Buf.from_base64url (Buf.to_base64url s)) = s.
Proof. exact (base64url_roundtrip s). Qed.



Lemma filter_all_id (p : Ascii.ascii -> bool) (l : list Ascii.ascii) :
  forallb p l = true -> filter p l = l.
Proof.
  induction l as [|a l IH]; simpl; [done|].
  intros H. apply andb_true_iff in H as [H1 H2].
  rewrite filter_cons_True by (rewrite H1; exact I). by rewrite IH.
Qed.

Lemma digit_kept_by_msisdn (a : Ascii.ascii) :
  is_digit a = true -> negb (SMSService.msisdn_strip a) = true.
Proof.
  destruct a as [[] [] [] [] [] [] [] []]; intros H;
    first [reflexivity | vm_compute in H; discriminate].
Qed.

Lemma digits_kept_by_msisdn (l : list Ascii.ascii) :
  forallb is_digit l = true -> forallb (fun a => negb (SMSService.msisdn_strip a)) l = true.
Proof.
  induction l as [|a l IH]; simpl; [done|].
  intros H. apply andb_true_iff in H as [H1 H2]. rewrite digit_kept_by_msisdn, IH; done.
Qed.

Lemma validateMSISDN_validated (phone n : string) :
  validatePhoneNumber phone = Ok n ->
  SMSService.validateMSISDN n =
    SMSService.mkMsisdnResult true (Some (PhoneValidator.strip_plus n)) "Valid phone number".
Proof.
  intros H. apply PhoneFacts.validatePhoneNumber_iff in H as (m & Hm & _ & ->).
  destruct m as [|a r]; [discriminate|]. simpl in Hm.
  apply andb_true_iff in Hm as [Ha Hs]. apply Ascii.eqb_eq in Ha. subst a.
  destruct (subscriber_ok_shape _ Hs) as [Hd _].
  assert (Hf : filter (fun a => negb (SMSService.msisdn_strip a)) (chars ("+880" +:+ String.String "1" r))
               = (["8"; "8"; "0"; "1"]%char ++ chars r)%list).
  { change (chars ("+880" +:+ String.String "1" r)) with ((["+"; "8"; "8"; "0"; "1"]%char ++ chars r)%list).
    rewrite filter_app, (filter_all_id _ (chars r) (digits_kept_by_msisdn _ Hd)). reflexivity. }
  unfold SMSService.validateMSISDN. rewrite Hf.
  change ((["8"; "8"; "0"; "1"]%char ++ chars r)%list) with (chars ("8801" +:+ r)).
  unfold chars at 1. rewrite String.string_of_list_ascii_of_string.
  unfold SMSService.bangladeshPattern_test.
  change (chars ("8801" +:+ r)) with ("8"%char :: "8"%char :: "0"%char :: "1"%char :: chars r).
  cbn [firstn skipn]. change (drop 0 (chars r)) with (chars r).
  change (take 0 (chars r)) with (@nil Ascii.ascii). rewrite Hs.
  rewrite (bool_decide_eq_true_2 (["8"; "8"; "0"; "1"]%char = chars "8801")) by reflexivity.
  rewrite andb_true_r, orb_true_r. simpl.
  unfold chars. rewrite String.string_of_list_ascii_of_string. reflexivity.
Qed.

(** X16. A number accepted by [OTPService.validatePhoneNumber] is accepted by
    [SMSService.validateMSISDN], which normalizes it to the same number
    without its leading [+]. *)
Theorem validateMSISDN_accepts_validated (phone n : string) :
  validatePhoneNumber phone = Ok n ->
  SMSService.validateMSISDN n =
    SMSService.mkMsisdnResult true (Some (PhoneValidator.strip_plus n)) "Valid phone number".
Proof. exact (validateMSISDN_validated phone n). Qed.

Lemma validateMSISDN_accepts_validated_witness :
  validatePhoneNumber "01712345678" = Ok "+8801712345678" /\
  SMSService.validateMSISDN "+8801712345678" =
    SMSService.mkMsisdnResult true (Some (PhoneValidator.strip_plus "+8801712345678"))
      "Valid phone number".
Proof.
  assert (H : validatePhoneNumber "01712345678" = Ok "+8801712345678") by reflexivity.
  exact (conj H (validateMSISDN_accepts_validated _ _ H)).
Defined.

Lemma trim_ends (l u : list Ascii.ascii) (a b : Ascii.ascii) :
  Js.is_ws a = false -> Js.is_ws b = false -> a :: l = (u ++ [b])%list ->
  Js.trim (String.string_of_list_ascii (a :: l)) = String.string_of_list_ascii (a :: l).
Proof.
  intros Ha Hb Hl. unfold Js.trim.
  rewrite String.list_ascii_of_string_of_list_ascii. simpl Js.drop_ws. rewrite Ha.
  rewrite Hl, rev_app_distr. simpl. rewrite Hb. simpl. rewrite rev_involutive. reflexivity.
Qed.

Lemma sms_content_valid (g : otp_config) (n : string) (now : Z) (d : otp_data) :
  generateOTP g n None now = Ok d -> (0 <= expiryMinutes g < 10 ^ 15)%Z ->
  Js.trim (sms_content d) = sms_content d /\
  SMSService.validateSMSContent (sms_content d) =
    SMSService.mkContentResult true "Valid SMS content" (Some (String.length (sms_content d))).
Proof.
  intros Hg He.
  assert (Hcode : String.length (otp d) = 6%nat).
  { destruct (generateOTP_ok_inv _ _ _ _ _ Hg) as (x & t & ->). simpl.
    pose proof (generated_code_pattern x) as Hp. unfold OTP_PATTERN_test in Hp.
    apply andb_true_iff in Hp as [Hp _]. apply Nat.eqb_eq in Hp. exact Hp. }
  assert (Hm : data_expiryMinutes d = expiryMinutes g)
    by (destruct (generateOTP_ok_inv _ _ _ _ _ Hg) as (x & t & ->); reflexivity).
  assert (Hshow : (String.length (Js.show_Z (data_expiryMinutes d)) <= 15)%nat).
  { rewrite Hm. unfold Js.show_Z. replace (expiryMinutes g <? 0)%Z with false by (symmetry; apply Z.ltb_ge; lia).
    destruct (dec_digits_shape 20 (expiryMinutes g) [] 15 He ltac:(lia) ltac:(lia)) as (l & Hl & _ & Hlen).
    rewrite Hl, app_nil_r, length_chars. unfold chars. rewrite String.list_ascii_of_string_of_list_ascii. lia. }
  set (lit := " minutes. Do not share this code with anyone.").
  assert (Hc : chars (sms_content d) =
               ("Y"%char :: (chars "our OTP code is: " ++ chars (otp d) ++
                chars ". This code will expire in " ++ chars (Js.show_Z (data_expiryMinutes d)) ++
                chars lit))%list).
  { unfold sms_content. rewrite !chars_append. reflexivity. }
  assert (Hlit : chars lit = (removelast (chars lit) ++ ["."%char])%list) by reflexivity.
  assert (Htrim : Js.trim (sms_content d) = sms_content d).
  { rewrite <- (String.string_of_list_ascii_of_string (sms_content d)). fold (chars (sms_content d)).
    rewrite Hc. set (L := (chars "our OTP code is: " ++ chars (otp d) ++
                chars ". This code will expire in " ++ chars (Js.show_Z (data_expiryMinutes d)) ++
                chars lit)%list).
    apply (trim_ends L (removelast ("Y"%char :: L)) "Y"%char "."%char); [reflexivity|reflexivity|].
    assert (HL : L = ((chars "our OTP code is: " ++ chars (otp d) ++
                chars ". This code will expire in " ++ chars (Js.show_Z (data_expiryMinutes d)) ++
                removelast (chars lit)) ++ ["."%char])%list).
    { unfold L. rewrite Hlit at 1. rewrite !app_assoc. reflexivity. }
    rewrite HL, app_comm_cons, removelast_last. reflexivity. }
  split; [exact Htrim|].
  assert (Hlen : (String.length (sms_content d) <= 1000)%nat).
  { rewrite length_chars, Hc. change (length (?a :: ?x)) with (S (length x)).
    rewrite !length_app, <- !length_chars.
    rewrite Hcode. assert (String.length lit = 45%nat) by reflexivity.
    assert (String.length ". This code will expire in " = 27%nat) by reflexivity.
    assert (String.length "our OTP code is: " = 17%nat) by reflexivity. lia. }
  unfold SMSService.validateSMSContent. rewrite Htrim.
  assert (Hne : String.eqb (sms_content d) "" = false).
  { apply String.eqb_neq. intros Heq. rewrite Heq in Hc. discriminate Hc. }
  assert (Hl0 : (String.length (sms_content d) =? 0)%nat = false).
  { apply Nat.eqb_neq. rewrite length_chars, Hc. discriminate. }
  rewrite Hne, Hl0. replace (1000 <? String.length (sms_content d))%nat with false
    by (symmetry; apply Nat.ltb_ge; exact Hlen).
  reflexivity.
Qed.

(** X17. The SMS [sendOTP] sends for a validated phone and a freshly
    generated record passes the checks [sendSingleSMS] runs before calling
    the API (for an expiry of fewer than 10^15 minutes); the payload carries
    the number without its [+] and the message unchanged by [trim]. *)
Theorem sendOTP_sms_passes_validation (phone n : string) (g : otp_config) (now : Z) (d : otp_data) :
  validatePhoneNumber phone = Ok n -> generateOTP g n None now = Ok d ->
  (0 <= expiryMinutes g < 10 ^ 15)%Z ->
  SMSService.sendSingleSMS_payload n (sms_content d) =
    Ok (Some (PhoneValidator.strip_plus n), sms_content d).
Proof.
  intros Hv Hg He. destruct (sms_content_valid g n now d Hg He) as [Ht Hc].
  unfold SMSService.sendSingleSMS_payload. rewrite (validateMSISDN_validated phone n Hv), Hc, Ht.
  reflexivity.
Qed.

Lemma sendOTP_sms_passes_validation_witness :
  validatePhoneNumber "01712345678" = Ok "+8801712345678" /\
  generateOTP demo_cfg "+8801712345678" None T0 = Ok issued_record /\
  (0 <= expiryMinutes demo_cfg < 10 ^ 15)%Z /\
  SMSService.sendSingleSMS_payload "+8801712345678" (sms_content issued_record) =
    Ok (Some (PhoneValidator.strip_plus "+8801712345678"), sms_content issued_record).
Proof.
  assert (H1 : validatePhoneNumber "01712345678" = Ok "+8801712345678") by reflexivity.
  assert (H2 : generateOTP demo_cfg "+8801712345678" None T0 = Ok issued_record)
    by (vm_compute; reflexivity).
  assert (H3 : (0 <= expiryMinutes demo_cfg < 10 ^ 15)%Z)
    by (unfold demo_cfg; simpl expiryMinutes; lia).
  exact (conj H1 (conj H2 (conj H3
    (sendOTP_sms_passes_validation "01712345678" "+8801712345678" demo_cfg T0 issued_record
       H1 H2 H3)))).
Defined.
